(** * Fantia-Novel-Downloader: the collector, the fetcher and the file-name
      sanitizer of the two localized scripts, embedded and verified.

    The scripts are Python.  Their values are dynamically typed, so the
    embedding keeps Python's own data: a [str] is a list of code points, the
    value decoded by [response.json()] is a [pyval], and an operation that
    raises in Python returns [Raise] here.  What the scripts obtain from the
    outside (HTTP responses, the parsed HTML page, the answers of the file
    system) is an explicit input, and what they use of the interpreter and of
    its libraries (the limit of [int()] on digits, [urljoin], [time.sleep])
    is a parameter. *)

From Stdlib Require Import List ZArith NArith Bool String Ascii DecimalString Lia PrimFloat.
From Stdlib Require DecimalPos DecimalZ DecimalFacts.
Import ListNotations.

Set Implicit Arguments.
Set Warnings "-register-all".

(** ** Python values and builtins *)

Module Py.

(** A [str] is a sequence of Unicode code points: [len] counts code points,
    so the full-width hyphen U+FF0D of the Japanese script is one element. *)
Definition codepoint := N.
Definition pystr := list codepoint.

(** An ASCII literal of the scripts as a [str]. *)
Definition u (s : string) : pystr := map N_of_ascii (list_ascii_of_string s).

Inductive exn :=
| TypeError | ValueError | AttributeError | IndexError
| UnicodeEncodeError | OverflowError | OSError.

Inductive result (A : Type) :=
| Return (a : A)
| Raise (e : exn).
Arguments Return {A} a.
Arguments Raise {A} e.

Definition bind {A B} (m : result A) (k : A -> result B) : result B :=
  match m with
  | Return a => k a
  | Raise e => Raise e
  end.

Notation "x <- m ;; k" := (bind m (fun x => k))
  (at level 61, m at next level, right associativity).

(** The value of a JSON document after [json.loads]; a [dict] is kept as its
    list of items and looked up by the first matching key. *)
Inductive pyval :=
| VNone
| VBool (b : bool)
| VInt (z : Z)
| VFloat (f : float)
| VStr (s : pystr)
| VList (l : list pyval)
| VDict (d : list (pystr * pyval)).

(** What the scripts use of the interpreter and of its libraries but do not
    define: the Unicode tables and the digit limit behind [int()] and
    [str()], [urllib.parse], [os.path] and [time.sleep]. *)
Class Runtime := {
  (** [Py_UNICODE_TODECIMAL] on the code points from 128 on *)
  unicode_decimal : codepoint -> option Z;
  (** whether [int()] skips the code point as white space, asked outside of
      the printable ASCII range and of the six ASCII blanks *)
  unicode_space : codepoint -> bool;
  (** [sys.get_int_max_str_digits()]: the largest number of digits that
      [int()] reads and [str()] writes, 4300 unless the installation says
      otherwise; 0 when there is no limit, as on an interpreter that
      predates it.  The interpreter admits no other value below 640. *)
  int_max_str_digits : N;
  (** [urllib.parse.urljoin(base, url)]; [None] when it raises [ValueError],
      as it does on a link that [urlsplit] cannot split *)
  urljoin : pystr -> pystr -> option pystr;
  (** [urllib.parse.urlparse(url).path]; [None] when it raises [ValueError] *)
  urlparse_path : pystr -> option pystr;
  (** [os.path.join] *)
  os_path_join : pystr -> pystr -> pystr;
  (** [format()] of a float, a list or a dict inside an f-string *)
  format_other : pyval -> pystr;
  (** [time.sleep(secs)] on a float: it returns after the pause, or it
      raises, [ValueError] on a length that is negative or not a number and
      [OverflowError] on one that the clock cannot hold *)
  time_sleep : float -> result unit
}.

Definition in_range (lo hi c : N) : bool := ((lo <=? c) && (c <=? hi))%N.

Definition str_eqb (a b : pystr) : bool :=
  if list_eq_dec N.eq_dec a b then true else false.

(** [bool(s)] of a str *)
Definition truthy_str (s : pystr) : bool :=
  match s with
  | [] => false
  | _ :: _ => true
  end.

Fixpoint startswith (p s : pystr) : bool :=
  match p, s with
  | [], _ => true
  | _ :: _, [] => false
  | a :: p', b :: s' => (a =? b)%N && startswith p' s'
  end.

(** [sub in s] *)
Fixpoint contains (sub s : pystr) : bool :=
  startswith sub s ||
  match s with
  | [] => false
  | _ :: s' => contains sub s'
  end.

(** [s.split(sep)] for a separator of one character *)
Fixpoint split (sep : codepoint) (s : pystr) : list pystr :=
  match s with
  | [] => [[]]
  | c :: s' =>
      if (c =? sep)%N then [] :: split sep s'
      else match split sep s' with
           | seg :: segs => (c :: seg) :: segs
           | [] => [[c]]
           end
  end.

(** [l[-1]] *)
Definition last_item {A} (l : list A) : result A :=
  match rev l with
  | x :: _ => Return x
  | [] => Raise IndexError
  end.

Fixpoint lstrip (drop : codepoint -> bool) (s : pystr) : pystr :=
  match s with
  | [] => []
  | c :: s' => if drop c then lstrip drop s' else s
  end.

(** [s.strip(chars)], with the set of characters as a predicate *)
Definition strip (drop : codepoint -> bool) (s : pystr) : pystr :=
  rev (lstrip drop (rev (lstrip drop s))).

(** [sep.join(parts)] *)
Fixpoint join (sep : pystr) (parts : list pystr) : pystr :=
  match parts with
  | [] => []
  | [p] => p
  | p :: rest => p ++ sep ++ join sep rest
  end.

(** The decimal text of an int: its digits, after a minus sign when it is
    negative. *)
Definition str_of_int (z : Z) : pystr := u (NilZero.string_of_int (Z.to_int z)).

(** *** [int(s)] on a str, base ten, and [str(z)] of an int

    White space is stripped at both ends, one sign may follow, and the rest
    is a non-empty run of decimal digits in which single underscores may
    separate digits.  Anything else raises [ValueError] ([None] here), and so
    does a run of more digits than the limit of the interpreter, in which
    neither the sign nor the underscores count.  [str(z)] raises
    [ValueError] under the same limit. *)
Section Int.
Context {rt : Runtime}.

(** The number of characters of a literal that are no underscores; in a
    literal that [int()] reads they are its digits. *)
Definition digit_count (s : pystr) : N :=
  N.of_nat (List.length (filter (fun c => negb (c =? 95)%N) s)).

(** The test of the interpreter, which asks for the limit only when there
    are more than 640 digits. *)
Definition over_digit_limit (digits : N) : bool :=
  ((640 <? digits) && (0 <? int_max_str_digits) && (int_max_str_digits <? digits))%N.

Definition is_space (c : codepoint) : bool :=
  if in_range 9 13 c || (c =? 32)%N then true
  else if in_range 33 126 c then false
  else unicode_space c.

Definition digit_value (c : codepoint) : option Z :=
  if in_range 48 57 c then Some (Z.of_N c - 48)%Z
  else if (c <? 128)%N then None
  else unicode_decimal c.

Fixpoint int_digits (acc : Z) (after_digit : bool) (s : pystr) : option Z :=
  match s with
  | [] => if after_digit then Some acc else None
  | c :: s' =>
      if (c =? 95)%N then
        if after_digit then int_digits acc false s' else None
      else
        match digit_value c with
        | Some d => int_digits (10 * acc + d)%Z true s'
        | None => None
        end
  end.

(** The digits of a literal, after its sign *)
Definition int_literal (s : pystr) : option Z :=
  if over_digit_limit (digit_count s) then None else int_digits 0 false s.

Definition py_int (s : pystr) : option Z :=
  match strip is_space s with
  | c :: s' =>
      if (c =? 45)%N then option_map Z.opp (int_literal s')
      else if (c =? 43)%N then int_literal s'
      else int_literal (c :: s')
  | [] => None
  end.

(** [str(z)], and [z] inside an f-string *)
Definition py_str (z : Z) : option pystr :=
  if over_digit_limit (digit_count (str_of_int (Z.abs z))) then None
  else Some (str_of_int z).
End Int.

(** [any(f(c) for c in l)]: stops at the first true element *)
Fixpoint py_any (f : pyval -> result bool) (l : list pyval) : result bool :=
  match l with
  | [] => Return false
  | c :: l' => b <- f c ;; if b then Return true else py_any f l'
  end.

(** [re.sub(pattern, repl, s)] for a pattern that is one character class:
    every character of the class is replaced by [repl], the rest is kept. *)
Definition re_sub_class (class : list codepoint) (repl : pystr) (s : pystr) : pystr :=
  flat_map (fun c => if existsb (N.eqb c) class then repl else [c]) s.

(** *** Operations on decoded JSON *)

(** [bool(v)] *)
Definition truthy (v : pyval) : bool :=
  match v with
  | VNone => false
  | VBool b => b
  | VInt z => negb (z =? 0)%Z
  | VFloat f => negb (PrimFloat.eqb f 0%float)
  | VStr s => truthy_str s
  | VList l => match l with [] => false | _ => true end
  | VDict d => match d with [] => false | _ => true end
  end.

Fixpoint lookup (k : pystr) (d : list (pystr * pyval)) : option pyval :=
  match d with
  | [] => None
  | (k', v) :: d' => if str_eqb k k' then Some v else lookup k d'
  end.

(** [v.get(k, default)]: only a dict has the method *)
Definition py_get (v : pyval) (k : pystr) (default : pyval) : result pyval :=
  match v with
  | VDict d =>
      match lookup k d with
      | Some x => Return x
      | None => Return default
      end
  | _ => Raise AttributeError
  end.

(** [for c in v]: the elements of a list, the keys of a dict, the characters
    of a str; the other values are not iterable *)
Definition py_iter (v : pyval) : result (list pyval) :=
  match v with
  | VList l => Return l
  | VDict d => Return (map (fun kv => VStr (fst kv)) d)
  | VStr s => Return (map (fun c => VStr [c]) s)
  | _ => Raise TypeError
  end.

(** [v > 0] *)
Definition py_gt_zero (v : pyval) : result bool :=
  match v with
  | VInt z => Return (0 <? z)%Z
  | VFloat f => Return (PrimFloat.ltb 0%float f)
  | VBool b => Return b
  | _ => Raise TypeError
  end.

End Py.

(** ** What the scripts read and what they do *)

Module World.
Import Py.

(** A listing page as [get_all_post_ids] sees it through BeautifulSoup. *)
Record page := {
  (** [soup.find('script', id='frontend-params')]: [None] when there is no
      such element, otherwise the element's [.string], which is [None] for
      an element without a single text child (an empty one, say) *)
  frontend_params : option (option pystr);
  (** [link.get('href')] of every anchor of
      [soup.select('div.module.post a.link-block')], in document order *)
  links : list (option pystr);
  (** the enabled pagination-next anchor of [soup.select_one(...)], if any,
      as its [.get('href')] *)
  next_page : option (option pystr)
}.

(** [requests.get], [raise_for_status] and the parser on one page: an
    exception that is a [RequestException], an exception of the library or
    of the parser that is none, or the page. *)
Inductive response :=
| RequestException
| OtherException (e : exn)
| Html (p : page).

(** The server during one crawl: the answers to the requests of the crawl,
    in the order in which they are made.  The URL of a request is computed by
    the script from the answers before it, so that every behaviour of a
    server is one such list. *)
Definition server := list response.

(** [requests.get], [raise_for_status] and [response.json()] of the fetcher:
    the exception that they raise, by the handler that takes it, or the
    decoded document.  [ApiRequestException] is an exception that is a
    [RequestException]; from requests 2.27 on, the exception that
    [response.json()] raises on a body that is no JSON is one.
    [ApiJSONDecodeError] is a [json.JSONDecodeError] that is no
    [RequestException], as older versions of requests raise it.
    [ApiOtherException] is any other exception.  An int of a decoded document
    was read by [int()], so that [str()] and the f-strings accept it. *)
Inductive api_response :=
| ApiRequestException
| ApiJSONDecodeError
| ApiOtherException (e : exn)
| ApiJson (data : pyval).

(** The lines that the fetcher and the orchestrator print, by kind; the
    wording of a line differs between the two scripts and is left out. *)
Inductive message :=
| MsgFetching (post_id : Z)
| ErrPostDataNotFound
| SkipFreePost (title : pyval)
| SkipPaidPost (title : pyval)
| WarnNoText
| OkSaved (filepath : pystr)
| ErrRequestFailed
| ErrNotJson
| ErrUnexpected (e : exn)
| WarnNoPostIds
| MsgExtractedId (post_id : Z)
| ErrNoPostIdInUrl
| WarnUnsupportedUrl.

(** What a run does to its terminal and to the file system.  [MakeDirs] is
    an [os.makedirs] that returned.  [WriteFile] is an [open(path, 'w')]
    that returned, with everything that was written until the file was
    closed, be it at the end of the [with] block or by an exception in it.

    Standard output is taken to accept every line: its encoding and its
    error handler are those of the terminal, not of the scripts.  Signals
    and interrupts are not part of the model. *)
Inductive effect :=
| Print (m : message)
| MakeDirs (path : pystr)
| WriteFile (path : pystr) (content : pystr).

(** The file system as the fetcher meets it: for a path, the exception that
    the call raises ([OSError] for a name that is too long or a directory
    that cannot be written, [ValueError] for a name that holds a null
    character, [UnicodeEncodeError] for one that the file system cannot
    encode), or [None] when the call returns.  A file that is open takes what
    is written to it: a device that fails under an open file is outside of
    the model. *)
Record disk := {
  (** [os.makedirs(path, exist_ok=True)] *)
  makedirs : pystr -> option exn;
  (** [open(path, 'w', encoding='utf-8')] *)
  open_for_writing : pystr -> option exn
}.

(** A computation that prints and writes before it returns or raises. *)
Definition io (A : Type) : Type := (list effect * result A)%type.

Definition lift {A} (r : result A) : io A := ([], r).

Definition emit (e : effect) : io unit := ([e], Return tt).

Definition io_bind {A B} (m : io A) (k : A -> io B) : io B :=
  match m with
  | (out, Return a) => let (out', r) := k a in (out ++ out', r)
  | (out, Raise e) => (out, Raise e)
  end.

Notation "x <~ m ;; k" := (io_bind m (fun x => k))
  (at level 61, m at next level, right associativity).
Notation "m ;;; k" := (io_bind m (fun _ => k))
  (at level 61, right associativity).

(** The handler [except Exception as e] at the end of a [try] block. *)
Definition catch_all (m : io unit) : list effect :=
  match m with
  | (out, Return _) => out
  | (out, Raise e) => out ++ [Print (ErrUnexpected e)]
  end.

Definition is_slash (c : codepoint) : bool := (c =? 47)%N.

(** The code points U+D800 to U+DFFF: the UTF-8 codec, in its strict mode,
    encodes every character of a str but these. *)
Definition is_surrogate (c : codepoint) : bool := in_range 55296 57343 c.

Definition utf8_encodable (s : pystr) : bool :=
  forallb (fun c => negb (is_surrogate c)) s.

(** [f.write(v)] on a file that was opened with [encoding='utf-8']: what
    the file holds afterwards. *)
Definition file_write (written : pystr) (v : pyval) : result pystr :=
  match v with
  | VStr text =>
      if utf8_encodable text then Return (written ++ text)
      else Raise UnicodeEncodeError
  | _ => Raise TypeError
  end.

(** A sequence of [f.write] calls: what the file holds when it is closed,
    which is what was written before the first call that raised. *)
Fixpoint write_all (written : pystr) (texts : list pyval) : pystr * result unit :=
  match texts with
  | [] => (written, Return tt)
  | v :: texts' =>
      match file_write written v with
      | Return written' => write_all written' texts'
      | Raise e => (written, Raise e)
      end
  end.

(** [with open(path, 'w', encoding='utf-8') as f:] around such a sequence *)
Definition with_open (files : disk) (path : pystr) (texts : list pyval) : io unit :=
  match open_for_writing files path with
  | Some e => lift (Raise e)
  | None => let (written, r) := write_all [] texts in ([WriteFile path written], r)
  end.

(** [os.makedirs(path, exist_ok=True)] as a statement *)
Definition make_dirs (files : disk) (path : pystr) : io unit :=
  match makedirs files path with
  | Some e => lift (Raise e)
  | None => emit (MakeDirs path)
  end.

(** [format(v)] of a value inside an f-string.  The value is one of a
    decoded document, whose ints [int()] has read: their text is within the
    limit of [str()]. *)
Definition py_format {rt : Runtime} (v : pyval) : pystr :=
  match v with
  | VNone => u "None"
  | VBool true => u "True"
  | VBool false => u "False"
  | VInt z => str_of_int z
  | VStr s => s
  | _ => format_other v
  end.

(** The elements of a list have to be strs for [sep.join]. *)
Fixpoint all_str (l : list pyval) : result (list pystr) :=
  match l with
  | [] => Return []
  | VStr s :: l' => rest <- all_str l' ;; Return (s :: rest)
  | _ :: _ => Raise TypeError
  end.

End World.

(** ** Fantia-novel-downloader_en.py *)

Module En.
Import Py World.

(** The character class of the pattern [invalid_chars], by code point:
    backslash, slash, colon, asterisk, question mark, double quote,
    less-than, greater-than and vertical bar. *)
Definition invalid_chars : list codepoint :=
  [92; 47; 58; 42; 63; 34; 60; 62; 124]%N.

(** The replacement ['-'] *)
Definition placeholder : pystr := [45%N].

Definition sanitize_filename (filename : pystr) : pystr :=
  re_sub_class invalid_chars placeholder filename.

(** A call of [sanitize_filename] on a decoded value: [re.sub] accepts a str
    only. *)
Definition call_sanitize_filename (v : pyval) : result pystr :=
  match v with
  | VStr s => Return (sanitize_filename s)
  | _ => Raise TypeError
  end.

Section Script.
Context {rt : Runtime}.

(** *** [get_all_post_ids] *)

(** The text ["is_logged_in": false], by code point *)
Definition logged_out_marker : pystr :=
  [34; 105; 115; 95; 108; 111; 103; 103; 101; 100; 95; 105; 110; 34; 58;
   32; 102; 97; 108; 115; 101]%N.

(** [int(href.split('/')[-1])] *)
Definition link_post_id (href : pystr) : result Z :=
  segment <- last_item (split 47%N href) ;;
  match py_int segment with
  | Some post_id => Return post_id
  | None => Raise ValueError
  end.

(** One round of [for link in links] *)
Definition add_link (post_ids : list Z) (href : option pystr) : result (list Z) :=
  match href with
  | Some h =>
      if truthy_str h && contains (u "/posts/") h then
        match link_post_id h with
        | Return post_id =>
            if existsb (Z.eqb post_id) post_ids then Return post_ids
            else Return (post_ids ++ [post_id])
        | Raise ValueError | Raise IndexError => Return post_ids
        | Raise e => Raise e
        end
      else Return post_ids
  | None => Return post_ids
  end.

Fixpoint scan_links (hrefs : list (option pystr)) (post_ids : list Z) : result (list Z) :=
  match hrefs with
  | [] => Return post_ids
  | href :: hrefs' => post_ids' <- add_link post_ids href ;; scan_links hrefs' post_ids'
  end.

(** [current_url] after the pagination block; [urljoin] raises on a link
    that it cannot split. *)
Definition next_url (fanclub_url : pystr) (next_page_tag : option (option pystr))
    : result (option pystr) :=
  match next_page_tag with
  | Some (Some href) =>
      if truthy_str href then
        match urljoin fanclub_url href with
        | Some url => Return (Some url)
        | None => Raise ValueError
        end
      else Return None
  | _ => Return None
  end.

Definition truthy_url (current_url : option pystr) : bool :=
  match current_url with
  | Some url => truthy_str url
  | None => false
  end.

(** A round of the loop from [for link in links] on: the links, the
    pagination block and [time.sleep(delay)].  The result is the list and
    the [current_url] of the next round.  What these statements raise is no
    [RequestException], so that it leaves the function. *)
Definition read_page (soup : page) (fanclub_url : pystr) (delay : float)
    (post_ids : list Z) : result (list Z * option pystr) :=
  post_ids' <- scan_links (links soup) post_ids ;;
  current_url <- next_url fanclub_url (next_page soup) ;;
  slept <- time_sleep delay ;;
  Return (post_ids', current_url).

(** [while current_url: ...] followed by [return post_ids].  The result is
    [None] when the loop asks for a response that [responses] does not
    hold.  The progress lines of the collector are not kept. *)
Fixpoint crawl (responses : server) (fanclub_url : pystr) (delay : float)
    (current_url : option pystr) (post_ids : list Z) : option (result (list Z)) :=
  if truthy_url current_url then
    match responses with
    | [] => None
    | RequestException :: _ => Some (Return [])
    | OtherException e :: _ => Some (Raise e)
    | Html soup :: later =>
        match frontend_params soup with
        | None => Some (Return [])
        | Some None => Some (Raise TypeError)
        | Some (Some text) =>
            if contains logged_out_marker text then Some (Return [])
            else
              match links soup with
              | [] => Some (Return post_ids)
              | _ :: _ =>
                  match read_page soup fanclub_url delay post_ids with
                  | Raise e => Some (Raise e)
                  | Return (post_ids', current_url') =>
                      crawl later fanclub_url delay current_url' post_ids'
                  end
              end
        end
    end
  else Some (Return post_ids).

Definition get_all_post_ids (responses : server) (fanclub_url : pystr) (delay : float)
    : option (result (list Z)) :=
  match urlparse_path fanclub_url with
  | None => Some (Raise ValueError)
  | Some _ => crawl responses fanclub_url delay (Some fanclub_url) []
  end.

(** *** [scrape_and_save_post_api] *)

(** [c.get("plan") and c["plan"].get("price", 0) > 0], as [any] reads it *)
Definition segment_is_paid (c : pyval) : result bool :=
  plan <- py_get c (u "plan") VNone ;;
  if truthy plan then
    price <- py_get plan (u "price") (VInt 0) ;;
    py_gt_zero price
  else Return false.

(** [any(... for c in post_data.get("post_contents", []))] *)
Definition is_paid (post_data : pyval) : result bool :=
  post_contents <- py_get post_data (u "post_contents") (VList []) ;;
  segments <- py_iter post_contents ;;
  py_any segment_is_paid segments.

(** [[c["comment"] for c in ... if c.get("comment")]] *)
Fixpoint content_parts (segments : list pyval) : result (list pyval) :=
  match segments with
  | [] => Return []
  | c :: segments' =>
      comment <- py_get c (u "comment") VNone ;;
      if truthy comment then
        parts <- content_parts segments' ;; Return (comment :: parts)
      else content_parts segments'
  end.

(** The three [if] statements that fill [full_content]; [None] is Python's
    [None]. *)
Definition extract_body (post_data : pyval) : result (option pyval) :=
  post_contents <- py_get post_data (u "post_contents") VNone ;;
  full_content <-
    (if truthy post_contents then
       segments <- py_iter post_contents ;;
       parts <- content_parts segments ;;
       match parts with
       | [] => Return None
       | _ :: _ => strs <- all_str parts ;; Return (Some (VStr (join [10; 10]%N strs)))
       end
     else Return None) ;;
  full_content <-
    match full_content with
    | Some _ => Return full_content
    | None =>
        comment <- py_get post_data (u "comment") VNone ;;
        Return (if truthy comment then Some comment else None)
    end ;;
  match full_content with
  | Some _ => Return full_content
  | None =>
      blog_comment <- py_get post_data (u "blog_comment") VNone ;;
      Return (if truthy blog_comment then Some blog_comment else None)
  end.

(** The label of the first line of a file *)
Definition title_label : pystr := u "Title: ".

(** The three lines that open a file, and the empty line after them: what
    the first three [f.write] calls of [save_post] write *)
Definition file_header (title : pystr) (post_id : Z) : pystr :=
  title_label ++ title ++ [10%N]
  ++ u "URL: https://fantia.jp/posts/" ++ str_of_int post_id ++ [10%N]
  ++ repeat 61%N 40 ++ [10; 10]%N.

(** From [fanclub_name = ...] to the last [print]: the directory is made,
    the file is opened, and the three lines of the header and the body are
    written to it, each by its own [f.write]. *)
Definition save_post (post_id : Z) (files : disk) (root_output_dir : pystr)
    (post_data title full_content : pyval) : io unit :=
  fanclub <~ lift (py_get post_data (u "fanclub") (VDict [])) ;;
  fanclub_id <~ lift (f <- py_get post_data (u "fanclub") (VDict []) ;;
                      py_get f (u "id") VNone) ;;
  fanclub_name <~ lift (py_get fanclub (u "fanclub_name_with_creator_name")
                          (VStr (u "fanclub_" ++ py_format fanclub_id))) ;;
  sanitized_fanclub_name <~ lift (call_sanitize_filename fanclub_name) ;;
  let output_subdir := os_path_join root_output_dir sanitized_fanclub_name in
  make_dirs files output_subdir ;;;
  sanitized_title <~ lift (call_sanitize_filename title) ;;
  let filename := sanitized_title ++ u ".txt" in
  let filepath := os_path_join output_subdir filename in
  with_open files filepath
    [VStr (title_label ++ py_format title ++ [10%N]);
     VStr (u "URL: https://fantia.jp/posts/" ++ str_of_int post_id ++ [10%N]);
     VStr (repeat 61%N 40 ++ [10; 10]%N);
     full_content] ;;;
  emit (Print (OkSaved filepath)).

(** The statements after the scope filter: body extraction, then the
    warning or the file. *)
Definition extract_and_save (post_id : Z) (files : disk) (root_output_dir : pystr)
    (post_data title : pyval) : io unit :=
  full_content <~ lift (extract_body post_data) ;;
  match full_content with
  | None => emit (Print WarnNoText)
  | Some body => save_post post_id files root_output_dir post_data title body
  end.

(** The two [if] statements of the scope filter: the line that is printed
    before the early [return], if the post is skipped. *)
Definition scope_filter (scope : pystr) (paid : bool) (title : pyval) : option message :=
  if str_eqb scope (u "paid") && negb paid then Some (SkipFreePost title)
  else if str_eqb scope (u "free") && paid then Some (SkipPaidPost title)
  else None.

(** The [try] block once the document is decoded. *)
Definition process_post (post_id : Z) (data : pyval) (files : disk)
    (root_output_dir scope : pystr) : io unit :=
  post_data <~ lift (py_get data (u "post") VNone) ;;
  if negb (truthy post_data) then emit (Print ErrPostDataNotFound)
  else
    title <~ lift (py_get post_data (u "title")
                     (VStr (u "No Title " ++ str_of_int post_id))) ;;
    paid <~ lift (is_paid post_data) ;;
    match scope_filter scope paid title with
    | Some skipped => emit (Print skipped)
    | None => extract_and_save post_id files root_output_dir post_data title
    end.

(** The function with its three handlers.  [post_id] is an identifier that
    [int()] has read, which is how [main] obtains every identifier that it
    passes: [str()] and the f-strings accept it, and its text is
    [str_of_int post_id]. *)
Definition scrape_and_save_post_api (post_id : Z) (api : api_response) (files : disk)
    (root_output_dir scope : pystr) : list effect :=
  Print (MsgFetching post_id) ::
  match api with
  | ApiRequestException => [Print ErrRequestFailed]
  | ApiJSONDecodeError => [Print ErrNotJson]
  | ApiOtherException e => [Print (ErrUnexpected e)]
  | ApiJson data => catch_all (process_post post_id data files root_output_dir scope)
  end.

(** *** The loop of [main] over the target URLs *)

(** [for j, post_id in enumerate(post_ids, 1):] with the fetcher and
    [time.sleep(delay)] in every round; what [time.sleep] raises here leaves
    the loop over the targets.  The progress line of a round is not kept. *)
Fixpoint fetch_all (api : Z -> api_response) (files : disk) (root_dir scope : pystr)
    (delay : float) (post_ids : list Z) : io unit :=
  match post_ids with
  | [] => lift (Return tt)
  | post_id :: later =>
      (scrape_and_save_post_api post_id (api post_id) files root_dir scope, Return tt) ;;;
      lift (time_sleep delay) ;;;
      fetch_all api files root_dir scope delay later
  end.

(** [if '/fanclubs/' in url:] *)
Definition process_listing (responses : server) (api : Z -> api_response) (files : disk)
    (root_dir scope url : pystr) (delay : float) : option (io unit) :=
  match get_all_post_ids responses url delay with
  | None => None
  | Some (Raise e) => Some (lift (Raise e))
  | Some (Return []) => Some (emit (Print WarnNoPostIds))
  | Some (Return post_ids) => Some (fetch_all api files root_dir scope delay post_ids)
  end.

(** [except (ValueError, IndexError):] with the line that it prints *)
Definition except_value_or_index (m : io unit) : io unit :=
  match m with
  | (out, Raise ValueError) | (out, Raise IndexError) =>
      (out ++ [Print ErrNoPostIdInUrl], Return tt)
  | _ => m
  end.

(** [int(path.strip('/').split('/')[-1])] *)
Definition path_post_id (path : pystr) : result Z :=
  segment <- last_item (split 47%N (strip is_slash path)) ;;
  match py_int segment with
  | Some post_id => Return post_id
  | None => Raise ValueError
  end.

(** [elif '/posts/' in url:], the [try] block with its handler *)
Definition process_single_post (api : Z -> api_response) (files : disk)
    (root_dir scope url : pystr) (delay : float) : io unit :=
  except_value_or_index
    (path <~ lift (match urlparse_path url with
                   | Some path => Return path
                   | None => Raise ValueError
                   end) ;;
     post_id <~ lift (path_post_id path) ;;
     emit (Print (MsgExtractedId post_id)) ;;;
     (scrape_and_save_post_api post_id (api post_id) files root_dir scope, Return tt) ;;;
     lift (time_sleep delay)).

(** One round of [for i, url in enumerate(urls, 1)] *)
Definition process_url (responses : server) (api : Z -> api_response) (files : disk)
    (root_dir scope url : pystr) (delay : float) : option (io unit) :=
  if contains (u "/fanclubs/") url then
    process_listing responses api files root_dir scope url delay
  else if contains (u "/posts/") url then
    Some (process_single_post api files root_dir scope url delay)
  else Some (emit (Print WarnUnsupportedUrl)).
End Script.

End En.

(** ** Fantia-novel-downloader_ja.py

    The Japanese script repeats the English one function by function.  It is
    embedded from its own text, so that what the two share is a theorem and
    not a convention of this file. *)

Module Ja.
Import Py World.

(** The character class of the pattern [invalid_chars], by code point:
    backslash, slash, colon, asterisk, question mark, double quote,
    less-than, greater-than and vertical bar. *)
Definition invalid_chars : list codepoint :=
  [92; 47; 58; 42; 63; 34; 60; 62; 124]%N.

(** The replacement: the full-width hyphen-minus, U+FF0D *)
Definition placeholder : pystr := [65293%N].

Definition sanitize_filename (filename : pystr) : pystr :=
  re_sub_class invalid_chars placeholder filename.

(** A call of [sanitize_filename] on a decoded value: [re.sub] accepts a str
    only. *)
Definition call_sanitize_filename (v : pyval) : result pystr :=
  match v with
  | VStr s => Return (sanitize_filename s)
  | _ => Raise TypeError
  end.

Section Script.
Context {rt : Runtime}.

(** *** [get_all_post_ids] *)

(** The text ["is_logged_in": false], by code point *)
Definition logged_out_marker : pystr :=
  [34; 105; 115; 95; 108; 111; 103; 103; 101; 100; 95; 105; 110; 34; 58;
   32; 102; 97; 108; 115; 101]%N.

(** [int(href.split('/')[-1])] *)
Definition link_post_id (href : pystr) : result Z :=
  segment <- last_item (split 47%N href) ;;
  match py_int segment with
  | Some post_id => Return post_id
  | None => Raise ValueError
  end.

(** One round of [for link in links] *)
Definition add_link (post_ids : list Z) (href : option pystr) : result (list Z) :=
  match href with
  | Some h =>
      if truthy_str h && contains (u "/posts/") h then
        match link_post_id h with
        | Return post_id =>
            if existsb (Z.eqb post_id) post_ids then Return post_ids
            else Return (post_ids ++ [post_id])
        | Raise ValueError | Raise IndexError => Return post_ids
        | Raise e => Raise e
        end
      else Return post_ids
  | None => Return post_ids
  end.

Fixpoint scan_links (hrefs : list (option pystr)) (post_ids : list Z) : result (list Z) :=
  match hrefs with
  | [] => Return post_ids
  | href :: hrefs' => post_ids' <- add_link post_ids href ;; scan_links hrefs' post_ids'
  end.

(** [current_url] after the pagination block; [urljoin] raises on a link
    that it cannot split. *)
Definition next_url (fanclub_url : pystr) (next_page_tag : option (option pystr))
    : result (option pystr) :=
  match next_page_tag with
  | Some (Some href) =>
      if truthy_str href then
        match urljoin fanclub_url href with
        | Some url => Return (Some url)
        | None => Raise ValueError
        end
      else Return None
  | _ => Return None
  end.

Definition truthy_url (current_url : option pystr) : bool :=
  match current_url with
  | Some url => truthy_str url
  | None => false
  end.

(** A round of the loop from [for link in links] on: the links, the
    pagination block and [time.sleep(delay)].  The result is the list and
    the [current_url] of the next round.  What these statements raise is no
    [RequestException], so that it leaves the function. *)
Definition read_page (soup : page) (fanclub_url : pystr) (delay : float)
    (post_ids : list Z) : result (list Z * option pystr) :=
  post_ids' <- scan_links (links soup) post_ids ;;
  current_url <- next_url fanclub_url (next_page soup) ;;
  slept <- time_sleep delay ;;
  Return (post_ids', current_url).

(** [while current_url: ...] followed by [return post_ids].  The result is
    [None] when the loop asks for a response that [responses] does not
    hold.  The progress lines of the collector are not kept. *)
Fixpoint crawl (responses : server) (fanclub_url : pystr) (delay : float)
    (current_url : option pystr) (post_ids : list Z) : option (result (list Z)) :=
  if truthy_url current_url then
    match responses with
    | [] => None
    | RequestException :: _ => Some (Return [])
    | OtherException e :: _ => Some (Raise e)
    | Html soup :: later =>
        match frontend_params soup with
        | None => Some (Return [])
        | Some None => Some (Raise TypeError)
        | Some (Some text) =>
            if contains logged_out_marker text then Some (Return [])
            else
              match links soup with
              | [] => Some (Return post_ids)
              | _ :: _ =>
                  match read_page soup fanclub_url delay post_ids with
                  | Raise e => Some (Raise e)
                  | Return (post_ids', current_url') =>
                      crawl later fanclub_url delay current_url' post_ids'
                  end
              end
        end
    end
  else Some (Return post_ids).

Definition get_all_post_ids (responses : server) (fanclub_url : pystr) (delay : float)
    : option (result (list Z)) :=
  match urlparse_path fanclub_url with
  | None => Some (Raise ValueError)
  | Some _ => crawl responses fanclub_url delay (Some fanclub_url) []
  end.

(** *** [scrape_and_save_post_api] *)

(** [c.get("plan") and c["plan"].get("price", 0) > 0], as [any] reads it *)
Definition segment_is_paid (c : pyval) : result bool :=
  plan <- py_get c (u "plan") VNone ;;
  if truthy plan then
    price <- py_get plan (u "price") (VInt 0) ;;
    py_gt_zero price
  else Return false.

(** [any(... for c in post_data.get("post_contents", []))] *)
Definition is_paid (post_data : pyval) : result bool :=
  post_contents <- py_get post_data (u "post_contents") (VList []) ;;
  segments <- py_iter post_contents ;;
  py_any segment_is_paid segments.

(** [[c["comment"] for c in ... if c.get("comment")]] *)
Fixpoint content_parts (segments : list pyval) : result (list pyval) :=
  match segments with
  | [] => Return []
  | c :: segments' =>
      comment <- py_get c (u "comment") VNone ;;
      if truthy comment then
        parts <- content_parts segments' ;; Return (comment :: parts)
      else content_parts segments'
  end.

(** The three [if] statements that fill [full_content]; [None] is Python's
    [None]. *)
Definition extract_body (post_data : pyval) : result (option pyval) :=
  post_contents <- py_get post_data (u "post_contents") VNone ;;
  full_content <-
    (if truthy post_contents then
       segments <- py_iter post_contents ;;
       parts <- content_parts segments ;;
       match parts with
       | [] => Return None
       | _ :: _ => strs <- all_str parts ;; Return (Some (VStr (join [10; 10]%N strs)))
       end
     else Return None) ;;
  full_content <-
    match full_content with
    | Some _ => Return full_content
    | None =>
        comment <- py_get post_data (u "comment") VNone ;;
        Return (if truthy comment then Some comment else None)
    end ;;
  match full_content with
  | Some _ => Return full_content
  | None =>
      blog_comment <- py_get post_data (u "blog_comment") VNone ;;
      Return (if truthy blog_comment then Some blog_comment else None)
  end.

(** The label of the first line of a file: four katakana, a colon and a
    blank *)
Definition title_label : pystr := [12479; 12452; 12488; 12523; 58; 32]%N.

(** The three lines that open a file, and the empty line after them: what
    the first three [f.write] calls of [save_post] write *)
Definition file_header (title : pystr) (post_id : Z) : pystr :=
  title_label ++ title ++ [10%N]
  ++ u "URL: https://fantia.jp/posts/" ++ str_of_int post_id ++ [10%N]
  ++ repeat 61%N 40 ++ [10; 10]%N.

(** From [fanclub_name = ...] to the last [print]: the directory is made,
    the file is opened, and the three lines of the header and the body are
    written to it, each by its own [f.write]. *)
Definition save_post (post_id : Z) (files : disk) (root_output_dir : pystr)
    (post_data title full_content : pyval) : io unit :=
  fanclub <~ lift (py_get post_data (u "fanclub") (VDict [])) ;;
  fanclub_id <~ lift (f <- py_get post_data (u "fanclub") (VDict []) ;;
                      py_get f (u "id") VNone) ;;
  fanclub_name <~ lift (py_get fanclub (u "fanclub_name_with_creator_name")
                          (VStr (u "fanclub_" ++ py_format fanclub_id))) ;;
  sanitized_fanclub_name <~ lift (call_sanitize_filename fanclub_name) ;;
  let output_subdir := os_path_join root_output_dir sanitized_fanclub_name in
  make_dirs files output_subdir ;;;
  sanitized_title <~ lift (call_sanitize_filename title) ;;
  let filename := sanitized_title ++ u ".txt" in
  let filepath := os_path_join output_subdir filename in
  with_open files filepath
    [VStr (title_label ++ py_format title ++ [10%N]);
     VStr (u "URL: https://fantia.jp/posts/" ++ str_of_int post_id ++ [10%N]);
     VStr (repeat 61%N 40 ++ [10; 10]%N);
     full_content] ;;;
  emit (Print (OkSaved filepath)).

(** The statements after the scope filter: body extraction, then the
    warning or the file. *)
Definition extract_and_save (post_id : Z) (files : disk) (root_output_dir : pystr)
    (post_data title : pyval) : io unit :=
  full_content <~ lift (extract_body post_data) ;;
  match full_content with
  | None => emit (Print WarnNoText)
  | Some body => save_post post_id files root_output_dir post_data title body
  end.

(** The two [if] statements of the scope filter: the line that is printed
    before the early [return], if the post is skipped. *)
Definition scope_filter (scope : pystr) (paid : bool) (title : pyval) : option message :=
  if str_eqb scope (u "paid") && negb paid then Some (SkipFreePost title)
  else if str_eqb scope (u "free") && paid then Some (SkipPaidPost title)
  else None.

(** The [try] block once the document is decoded. *)
Definition process_post (post_id : Z) (data : pyval) (files : disk)
    (root_output_dir scope : pystr) : io unit :=
  post_data <~ lift (py_get data (u "post") VNone) ;;
  if negb (truthy post_data) then emit (Print ErrPostDataNotFound)
  else
    title <~ lift (py_get post_data (u "title")
                     (VStr (u "No Title " ++ str_of_int post_id))) ;;
    paid <~ lift (is_paid post_data) ;;
    match scope_filter scope paid title with
    | Some skipped => emit (Print skipped)
    | None => extract_and_save post_id files root_output_dir post_data title
    end.

(** The function with its three handlers.  [post_id] is an identifier that
    [int()] has read, which is how [main] obtains every identifier that it
    passes: [str()] and the f-strings accept it, and its text is
    [str_of_int post_id]. *)
Definition scrape_and_save_post_api (post_id : Z) (api : api_response) (files : disk)
    (root_output_dir scope : pystr) : list effect :=
  Print (MsgFetching post_id) ::
  match api with
  | ApiRequestException => [Print ErrRequestFailed]
  | ApiJSONDecodeError => [Print ErrNotJson]
  | ApiOtherException e => [Print (ErrUnexpected e)]
  | ApiJson data => catch_all (process_post post_id data files root_output_dir scope)
  end.

(** *** The loop of [main] over the target URLs *)

(** [for i, post_id in enumerate(post_ids, 1):] with the fetcher and
    [time.sleep(delay)] in every round; the progress line of a round is not
    kept. *)
Fixpoint fetch_all (api : Z -> api_response) (files : disk) (root_dir scope : pystr)
    (delay : float) (post_ids : list Z) : io unit :=
  match post_ids with
  | [] => lift (Return tt)
  | post_id :: later =>
      (scrape_and_save_post_api post_id (api post_id) files root_dir scope, Return tt) ;;;
      lift (time_sleep delay) ;;;
      fetch_all api files root_dir scope delay later
  end.

(** The collector, then the fetcher on every identifier *)
Definition process_listing (responses : server) (api : Z -> api_response) (files : disk)
    (root_dir scope url : pystr) (delay : float) : option (io unit) :=
  match get_all_post_ids responses url delay with
  | None => None
  | Some (Raise e) => Some (lift (Raise e))
  | Some (Return []) => Some (emit (Print WarnNoPostIds))
  | Some (Return post_ids) => Some (fetch_all api files root_dir scope delay post_ids)
  end.

(** One round of [for url in urls]: every target goes to the collector. *)
Definition process_url (responses : server) (api : Z -> api_response) (files : disk)
    (root_dir scope url : pystr) (delay : float) : option (io unit) :=
  process_listing responses api files root_dir scope url delay.
End Script.

End Ja.

(** ** The fetcher with its two localized constants left open

    The specification describes one fetcher that replaces invalid characters
    by "a single placeholder character" and writes a header block.  This is
    that fetcher, with the placeholder and the label of the header's first
    line as parameters, to be compared with the two scripts. *)

Module Localized.
Import Py World.

Section Variant.
Context {rt : Runtime}.
Variable placeholder : pystr.
Variable title_label : pystr.

Definition sanitize_filename (filename : pystr) : pystr :=
  re_sub_class En.invalid_chars placeholder filename.

Definition call_sanitize_filename (v : pyval) : result pystr :=
  match v with
  | VStr s => Return (sanitize_filename s)
  | _ => Raise TypeError
  end.

(** The three lines that open a file, and the empty line after them: what
    the first three [f.write] calls of [save_post] write *)
Definition file_header (title : pystr) (post_id : Z) : pystr :=
  title_label ++ title ++ [10%N]
  ++ u "URL: https://fantia.jp/posts/" ++ str_of_int post_id ++ [10%N]
  ++ repeat 61%N 40 ++ [10; 10]%N.

Definition save_post (post_id : Z) (files : disk) (root_output_dir : pystr)
    (post_data title full_content : pyval) : io unit :=
  fanclub <~ lift (py_get post_data (u "fanclub") (VDict [])) ;;
  fanclub_id <~ lift (f <- py_get post_data (u "fanclub") (VDict []) ;;
                      py_get f (u "id") VNone) ;;
  fanclub_name <~ lift (py_get fanclub (u "fanclub_name_with_creator_name")
                          (VStr (u "fanclub_" ++ py_format fanclub_id))) ;;
  sanitized_fanclub_name <~ lift (call_sanitize_filename fanclub_name) ;;
  let output_subdir := os_path_join root_output_dir sanitized_fanclub_name in
  make_dirs files output_subdir ;;;
  sanitized_title <~ lift (call_sanitize_filename title) ;;
  let filename := sanitized_title ++ u ".txt" in
  let filepath := os_path_join output_subdir filename in
  with_open files filepath
    [VStr (title_label ++ py_format title ++ [10%N]);
     VStr (u "URL: https://fantia.jp/posts/" ++ str_of_int post_id ++ [10%N]);
     VStr (repeat 61%N 40 ++ [10; 10]%N);
     full_content] ;;;
  emit (Print (OkSaved filepath)).

Definition extract_and_save (post_id : Z) (files : disk) (root_output_dir : pystr)
    (post_data title : pyval) : io unit :=
  full_content <~ lift (En.extract_body post_data) ;;
  match full_content with
  | None => emit (Print WarnNoText)
  | Some body => save_post post_id files root_output_dir post_data title body
  end.

Definition process_post (post_id : Z) (data : pyval) (files : disk)
    (root_output_dir scope : pystr) : io unit :=
  post_data <~ lift (py_get data (u "post") VNone) ;;
  if negb (truthy post_data) then emit (Print ErrPostDataNotFound)
  else
    title <~ lift (py_get post_data (u "title")
                     (VStr (u "No Title " ++ str_of_int post_id))) ;;
    paid <~ lift (En.is_paid post_data) ;;
    match En.scope_filter scope paid title with
    | Some skipped => emit (Print skipped)
    | None => extract_and_save post_id files root_output_dir post_data title
    end.

Definition scrape_and_save_post_api (post_id : Z) (api : api_response) (files : disk)
    (root_output_dir scope : pystr) : list effect :=
  Print (MsgFetching post_id) ::
  match api with
  | ApiRequestException => [Print ErrRequestFailed]
  | ApiJSONDecodeError => [Print ErrNotJson]
  | ApiOtherException e => [Print (ErrUnexpected e)]
  | ApiJson data => catch_all (process_post post_id data files root_output_dir scope)
  end.
End Variant.

End Localized.

(** ** The vocabulary of the specification *)

Module Spec.
Import Py World.

(** The decimal value of a string of ASCII digits. *)
Definition decimal_value (digits : pystr) : Z :=
  fold_left (fun acc c => (10 * acc + (Z.of_N c - 48))%Z) digits 0%Z.

Definition is_ascii_digit (c : codepoint) : bool := in_range 48 57 c.

Definition has_no_slash (s : pystr) : bool :=
  forallb (fun c => negb (c =? 47)%N) s.

(** A string of digits that is no longer than the limit of [int()]. *)
Definition within_digit_limit {rt : Runtime} (digits : pystr) : bool :=
  negb (over_digit_limit (N.of_nat (List.length digits))).

(** The part of a link after its last slash, or the whole link when it has
    no slash. *)
Definition trailing_segment (href segment : pystr) : Prop :=
  has_no_slash segment = true
  /\ (href = segment \/ exists front : pystr, href = front ++ 47%N :: segment).

(** A list without its repetitions, every element at its first place. *)
Fixpoint first_seen (l : list Z) : list Z :=
  match l with
  | [] => []
  | x :: l' => x :: filter (fun y => negb (y =? x)%Z) (first_seen l')
  end.

(** [x in l] on a list of ints *)
Definition mem (x : Z) (l : list Z) : bool := existsb (Z.eqb x) l.

(** A list with one more identifier, put at the end unless the list holds
    it. *)
Definition add_id (ids : list Z) (x : Z) : list Z :=
  if mem x ids then ids else ids ++ [x].

Section Pages.
Context {rt : Runtime}.

(** The identifier that an anchor stands for, if it stands for one. *)
Definition link_ids (href : option pystr) : list Z :=
  match href with
  | Some h =>
      if truthy_str h && contains (u "/posts/") h then
        match En.link_post_id h with
        | Return post_id => [post_id]
        | Raise _ => []
        end
      else []
  | None => []
  end.

(** The identifiers on the page of an answer, in document order. *)
Definition response_ids (r : response) : list Z :=
  match r with
  | RequestException | OtherException _ => []
  | Html p => flat_map link_ids (links p)
  end.



End Pages.

(** *** The post record of the API

    A post is an object.  Its title, if present, is a string.  Its
    [post_contents], if present, is a list of segments; a segment is an
    object whose [comment] is a string or null and whose [plan] is null or an
    object with a number as its [price].  The top-level [comment] and
    [blog_comment] are strings or null, and the [fanclub] descriptor is an
    object whose display name is a string. *)

Definition absent_or (shape : pyval -> bool) (field : option pyval) : bool :=
  match field with
  | None => true
  | Some v => shape v
  end.

Definition text_or_null (v : pyval) : bool :=
  match v with
  | VNone | VStr _ => true
  | _ => false
  end.

Definition is_text (v : pyval) : bool :=
  match v with
  | VStr _ => true
  | _ => false
  end.

Definition is_number (v : pyval) : bool :=
  match v with
  | VInt _ | VFloat _ => true
  | _ => false
  end.

Definition plan_shape (v : pyval) : bool :=
  match v with
  | VNone => true
  | VDict plan => absent_or is_number (lookup (u "price") plan)
  | _ => false
  end.

Definition segment_shape (v : pyval) : bool :=
  match v with
  | VDict c =>
      absent_or text_or_null (lookup (u "comment") c)
      && absent_or plan_shape (lookup (u "plan") c)
  | _ => false
  end.

Definition contents_shape (v : pyval) : bool :=
  match v with
  | VList segments => forallb segment_shape segments
  | _ => false
  end.

Definition fanclub_shape (v : pyval) : bool :=
  match v with
  | VDict f => absent_or is_text (lookup (u "fanclub_name_with_creator_name") f)
  | _ => false
  end.

Definition post_record (v : pyval) : bool :=
  match v with
  | VDict post =>
      absent_or is_text (lookup (u "title") post)
      && absent_or contents_shape (lookup (u "post_contents") post)
      && absent_or text_or_null (lookup (u "comment") post)
      && absent_or text_or_null (lookup (u "blog_comment") post)
      && absent_or fanclub_shape (lookup (u "fanclub") post)
  | _ => false
  end.

(** The content segments of a post. *)
Definition segments_of (post : pyval) : list pyval :=
  match post with
  | VDict d =>
      match lookup (u "post_contents") d with
      | Some (VList segments) => segments
      | _ => []
      end
  | _ => []
  end.



(** The price of the plan that a segment carries. *)
Definition plan_price (segment : pyval) : option pyval :=
  match segment with
  | VDict c =>
      match lookup (u "plan") c with
      | Some (VDict plan) => lookup (u "price") plan
      | _ => None
      end
  | _ => None
  end.

Definition greater_than_zero (price : pyval) : Prop :=
  match price with
  | VInt z => (0 < z)%Z
  | VFloat f => PrimFloat.ltb 0%float f = true
  | _ => False
  end.

(** Whether a segment carries a plan with a price above zero, as a
    boolean. *)
Definition paid_segment (c : pyval) : bool :=
  match plan_price c with
  | Some (VInt z) => (0 <? z)%Z
  | Some (VFloat f) => PrimFloat.ltb 0%float f
  | _ => false
  end.


(** Some segment of the post carries a plan whose price is above zero. *)
Definition has_paid_plan (post : pyval) : Prop :=
  exists segment price,
    In segment (segments_of post)
    /\ plan_price segment = Some price
    /\ greater_than_zero price.

(** The nine characters that a file name must not hold. *)
Definition is_invalid_char (c : codepoint) : bool :=
  ((c =? 92) || (c =? 47) || (c =? 58) || (c =? 42) || (c =? 63)
   || (c =? 34) || (c =? 60) || (c =? 62) || (c =? 124))%N.

(** The post of the specification's scenario: two segments with the
    comments A and B, no plan. *)
Definition two_comments_post : pyval :=
  VDict [(u "title", VStr (u "Chapter 1"));
         (u "post_contents",
          VList [VDict [(u "comment", VStr (u "A"))];
                 VDict [(u "comment", VStr (u "B"))]]);
         (u "comment", VStr (u "top-level"));
         (u "fanclub", VDict [(u "id", VInt 5)])].

(** A post whose first segment has a plan with a null price, before a
    segment on a plan of 500. *)
Definition unclassifiable_post : pyval :=
  VDict [(u "comment", VStr (u "text"));
         (u "post_contents",
          VList [VDict [(u "plan", VDict [(u "price", VNone)])];
                 VDict [(u "plan", VDict [(u "price", VInt 500)])]])].



(** A post with a free segment and a segment on a plan of 500. *)
Definition paid_post : pyval :=
  VDict [(u "title", VStr (u "Chapter 2"));
         (u "post_contents",
          VList [VDict [(u "comment", VStr (u "A")); (u "plan", VNone)];
                 VDict [(u "comment", VNone);
                        (u "plan", VDict [(u "price", VInt 500)])]])].

(** The text of a marker element that shows the session as logged out:
    an opening brace, [En.logged_out_marker] and a closing brace. *)
Definition logged_out_page_text : pystr :=
  [123%N] ++ En.logged_out_marker ++ [125%N].

(** A link in which one square bracket comes without the other, which
    [urlsplit] refuses in the host of a URL. *)
Definition lone_bracket (url : pystr) : bool :=
  xorb (existsb (N.eqb 91) url) (existsb (N.eqb 93) url).

(** The pause of the examples, in the order of the tests of the
    interpreter: not a number, a number of nanoseconds that 64 bits do not
    hold, negative. *)
Definition plain_sleep (secs : float) : result unit :=
  let nanoseconds := PrimFloat.mul secs 1e9%float in
  if negb (PrimFloat.eqb secs secs) then Raise ValueError
  else if PrimFloat.ltb nanoseconds (-9223372036854775808)%float
          || PrimFloat.leb 9223372036854775808%float nanoseconds
       then Raise OverflowError
  else if PrimFloat.ltb secs 0%float then Raise ValueError
  else Return tt.

(** A runtime for the examples: ASCII digits and blanks only, the digit
    limit of a fresh installation, next-page links that are absolute, a URL
    that is its own path, and [/] between the parts of a file path. *)
Definition plain_runtime : Runtime := {|
  unicode_decimal := fun _ => None;
  unicode_space := fun _ => false;
  int_max_str_digits := 4300;
  urljoin := fun _ href => if lone_bracket href then None else Some href;
  urlparse_path := fun url => Some url;
  os_path_join := fun a b => a ++ [47%N] ++ b;
  format_other := fun _ => [];
  time_sleep := plain_sleep
|}.

(** A file system that accepts every directory and every file, and one on
    which the directories cannot be made. *)
Definition willing_disk : disk := {|
  makedirs := fun _ => None;
  open_for_writing := fun _ => None
|}.

Definition read_only_disk : disk := {|
  makedirs := fun _ => Some OSError;
  open_for_writing := fun _ => Some OSError
|}.

(** The pages of the specification's scenario: the links of 10 and 11 and a
    next-page link, then the link of 10 alone. *)
Definition scenario_pages (next_href : pystr) : server :=
  [Html {| frontend_params := Some (Some (u "{}"));
           links := [Some (u "/posts/10"); Some (u "/posts/11")];
           next_page := Some (Some next_href) |};
   Html {| frontend_params := Some (Some (u "{}"));
           links := [Some (u "/posts/10")];
           next_page := None |}].

(** A post whose body holds the lone surrogate U+D800, as the JSON escape
    [\ud800] decodes. *)
Definition surrogate_body_post : pyval :=
  VDict [(u "title", VStr (u "Chapter 4"));
         (u "comment", VStr (u "text" ++ [55296%N]))].

(** A post whose title holds the lone surrogate U+DC80. *)
Definition surrogate_title_post : pyval :=
  VDict [(u "title", VStr (u "Chapter " ++ [56448%N]));
         (u "comment", VStr (u "text"))].

End Spec.

(** ** The list of targets *)

Module Targets.
Import Py World.

Section Lines.
Context {rt : Runtime}.

(** Whether [str.strip()] removes the code point: the ASCII white space of
    the interpreter (9 to 13 and 28 to 32), and from 128 on the Unicode
    white space, which is the table that [int()] consults there. *)
Definition str_isspace (c : codepoint) : bool :=
  if (c <? 128)%N then in_range 9 13 c || in_range 28 32 c
  else unicode_space c.

(** [[line.strip() for line in f if line.strip() and "fantia.jp" in line]]
    of [main], on the lines of the links file (the same statement in both
    scripts); a line keeps its newline when the file is read. *)
Definition load_urls (lines : list pystr) : list pystr :=
  map (strip str_isspace)
    (filter (fun line => truthy_str (strip str_isspace line)
                         && contains (u "fantia.jp") line) lines).
End Lines.

End Targets.

(** ** The credentials of the configuration *)

Module Settings.
Import Py World.

(** ["Please paste" in v] on a value of the configuration.  [get] gives
    [None] for an option that the section does not hold, and [None] cannot
    be searched. *)
Definition placeholder_in (v : option pystr) : result bool :=
  match v with
  | Some s => Return (contains (u "Please paste") s)
  | None => Raise TypeError
  end.

(** [not v] *)
Definition is_unset (v : option pystr) : bool :=
  match v with
  | Some s => negb (truthy_str s)
  | None => true
  end.

(** The condition of the first [if] of the validation in [main] of the
    English script: four tests joined by [or], read from the left. *)
Definition credentials_missing (cookie csrf_token : option pystr) : result bool :=
  in_cookie <- placeholder_in cookie ;;
  if in_cookie then Return true
  else
    in_token <- placeholder_in csrf_token ;;
    if in_token then Return true
    else Return (is_unset cookie || is_unset csrf_token).

(** The values that [create_default_config] of the English script writes for
    the two options. *)
Definition default_cookie : pystr :=
  u "Please paste the Cookie string copied from your browser here".

Definition default_csrf_token : pystr :=
  u "Please paste the X-Csrf-Token copied from your browser here".

End Settings.

(** ** What a run of the fetcher can look like *)

Module Outcomes.
Import Py World.

Section Shapes.
Context {rt : Runtime}.
Variable post_id : Z.
Variable root_output_dir : pystr.

(** The directory of a creator and the file of a post in it. *)
Definition creator_dir (name : pystr) : pystr :=
  os_path_join root_output_dir (En.sanitize_filename name).

Definition post_file (name title : pystr) : pystr :=
  os_path_join (creator_dir name) (En.sanitize_filename title ++ u ".txt").

(** What the English fetcher does after its first line. *)
Inductive fetch_tail : list effect -> Prop :=
| tail_not_found : fetch_tail [Print ErrPostDataNotFound]
| tail_skip_free (title : pyval) : fetch_tail [Print (SkipFreePost title)]
| tail_skip_paid (title : pyval) : fetch_tail [Print (SkipPaidPost title)]
| tail_no_text : fetch_tail [Print WarnNoText]
| tail_error (e : exn) : fetch_tail [Print (ErrUnexpected e)]
| tail_dir_only (name : pystr) (e : exn) :
    fetch_tail [MakeDirs (creator_dir name); Print (ErrUnexpected e)]
| tail_empty_file (name title : pystr) :
    utf8_encodable title = false ->
    fetch_tail [MakeDirs (creator_dir name);
                WriteFile (post_file name title) [];
                Print (ErrUnexpected UnicodeEncodeError)]
| tail_header_only (name title : pystr) (e : exn) :
    utf8_encodable title = true ->
    fetch_tail [MakeDirs (creator_dir name);
                WriteFile (post_file name title) (En.file_header title post_id);
                Print (ErrUnexpected e)]
| tail_saved (name title body : pystr) :
    body <> [] ->
    utf8_encodable title = true ->
    utf8_encodable body = true ->
    fetch_tail [MakeDirs (creator_dir name);
                WriteFile (post_file name title)
                  (En.file_header title post_id ++ body);
                Print (OkSaved (post_file name title))].
End Shapes.


(** [save_post] of the English script on a str title, from the directory
    on: the directory of the creator, the file with its four writes, the line
    of success. *)
Definition save_under {rt : Runtime} (post_id : Z) (files : disk)
    (root_output_dir name t : pystr) (v : pyval) : io unit :=
  make_dirs files (creator_dir root_output_dir name) ;;;
  with_open files (post_file root_output_dir name t)
    [VStr (En.title_label ++ t ++ [10%N]);
     VStr (u "URL: https://fantia.jp/posts/" ++ str_of_int post_id ++ [10%N]);
     VStr (repeat 61%N 40 ++ [10; 10]%N);
     v] ;;;
  emit (Print (OkSaved (post_file root_output_dir name t))).

(** A body that [f.write] takes: a str without surrogates. *)
Definition writable (v : pyval) : bool :=
  match v with
  | VStr body => utf8_encodable body
  | _ => false
  end.

(** What [f.write] raises on a body that it does not take. *)
Definition write_error (v : pyval) : exn :=
  match v with
  | VStr _ => UnicodeEncodeError
  | _ => TypeError
  end.

(** The identifiers of the fetching lines of a run, in order. *)
Definition fetched_ids (out : list effect) : list Z :=
  flat_map (fun e => match e with
                     | Print (MsgFetching post_id) => [post_id]
                     | _ => []
                     end) out.

(** A printable ASCII character that no int literal holds: neither a digit
    nor a sign nor the underscore. *)
Definition foreign_to_int (c : codepoint) : bool :=
  in_range 33 126 c && negb (in_range 48 57 c)
  && negb (c =? 95)%N && negb (c =? 43)%N && negb (c =? 45)%N.

(** No character of the name is invalid in a file name. *)
Definition clean (s : pystr) : bool :=
  forallb (fun c => negb (Spec.is_invalid_char c)) s.

End Outcomes.

(** * Properties *)

Import Py World Spec Targets Outcomes.

(** ** Sanitization *)

Section Substitution.
Variable class : list codepoint.
Variable repl : codepoint.

Let swap (c : codepoint) : codepoint :=
  if existsb (N.eqb c) class then repl else c.

Lemma re_sub_class_map (s : pystr) :
  re_sub_class class [repl] s = map swap s.
Proof.
  unfold re_sub_class, swap.
  induction s as [|c s IH]; simpl.
  - reflexivity.
  - rewrite IH. destruct (existsb (N.eqb c) class); reflexivity.
Qed.

Lemma re_sub_class_length (s : pystr) :
  List.length (re_sub_class class [repl] s) = List.length s.
Proof. rewrite re_sub_class_map. apply length_map. Qed.

Lemma re_sub_class_nth (s : pystr) (i : nat) (c : codepoint) :
  nth_error s i = Some c ->
  nth_error (re_sub_class class [repl] s) i
  = Some (if existsb (N.eqb c) class then repl else c).
Proof.
  intros H. rewrite re_sub_class_map.
  rewrite nth_error_map, H. reflexivity.
Qed.

Lemma re_sub_class_idempotent (s : pystr) :
  existsb (N.eqb repl) class = false ->
  re_sub_class class [repl] (re_sub_class class [repl] s)
  = re_sub_class class [repl] s.
Proof.
  intros Hrepl. rewrite !re_sub_class_map, map_map.
  apply map_ext. intros c. unfold swap.
  destruct (existsb (N.eqb c) class) eqn:Hc.
  - rewrite Hrepl. reflexivity.
  - rewrite Hc. reflexivity.
Qed.
End Substitution.

Lemma invalid_chars_en (c : codepoint) :
  existsb (N.eqb c) En.invalid_chars = is_invalid_char c.
Proof.
  unfold En.invalid_chars, is_invalid_char. simpl.
  rewrite orb_false_r, !orb_assoc. reflexivity.
Qed.

Lemma invalid_chars_ja (c : codepoint) :
  existsb (N.eqb c) Ja.invalid_chars = is_invalid_char c.
Proof.
  unfold Ja.invalid_chars, is_invalid_char. simpl.
  rewrite orb_false_r, !orb_assoc. reflexivity.
Qed.

(** C7. In both scripts [sanitize_filename] keeps the length of its input,
    puts the placeholder (the hyphen-minus in the English script, the
    full-width hyphen-minus in the Japanese one) at every position that holds
    one of the nine invalid characters, and leaves every other position as it
    is. *)
Theorem sanitize_filename_replaces_invalid_chars :
  forall filename : pystr,
    (List.length (En.sanitize_filename filename) = List.length filename
     /\ forall i c, nth_error filename i = Some c ->
          nth_error (En.sanitize_filename filename) i
          = Some (if is_invalid_char c then 45%N else c))
    /\ (List.length (Ja.sanitize_filename filename) = List.length filename
        /\ forall i c, nth_error filename i = Some c ->
             nth_error (Ja.sanitize_filename filename) i
             = Some (if is_invalid_char c then 65293%N else c)).
Proof.
  intros filename. unfold En.sanitize_filename, Ja.sanitize_filename.
  unfold En.placeholder, Ja.placeholder.
  repeat split.
  - apply re_sub_class_length.
  - intros i c H. rewrite (re_sub_class_nth _ _ _ _ H), invalid_chars_en.
    reflexivity.
  - apply re_sub_class_length.
  - intros i c H. rewrite (re_sub_class_nth _ _ _ _ H), invalid_chars_ja.
    reflexivity.
Qed.

(** C7 on the name [a/b]: the slash at index 1 becomes the placeholder. *)
Lemma sanitize_filename_witness :
  nth_error (En.sanitize_filename (u "a/b")) 1 = Some 45%N
  /\ nth_error (Ja.sanitize_filename (u "a/b")) 1 = Some 65293%N.
Proof.
  split.
  - apply (proj2 (proj1 (sanitize_filename_replaces_invalid_chars (u "a/b"))) 1 47%N).
    reflexivity.
  - apply (proj2 (proj2 (sanitize_filename_replaces_invalid_chars (u "a/b"))) 1 47%N).
    reflexivity.
Defined.

(** C9. [sanitize_filename] is idempotent in both scripts: neither
    placeholder is one of the invalid characters. *)
Theorem sanitize_filename_idempotent :
  forall filename : pystr,
    En.sanitize_filename (En.sanitize_filename filename)
    = En.sanitize_filename filename
    /\ Ja.sanitize_filename (Ja.sanitize_filename filename)
       = Ja.sanitize_filename filename.
Proof.
  intros filename. split.
  - apply re_sub_class_idempotent. reflexivity.
  - apply re_sub_class_idempotent. reflexivity.
Qed.

(** ** Links and identifiers *)

Lemma last_item_snoc (A : Type) (front : list A) (x : A) :
  last_item (front ++ [x]) = Return x.
Proof. unfold last_item. rewrite rev_app_distr. reflexivity. Qed.

Lemma split_no_sep (sep : codepoint) (s : pystr) :
  forallb (fun c => negb (c =? sep)%N) s = true -> split sep s = [s].
Proof.
  induction s as [|c s IH]; simpl; intros H.
  - reflexivity.
  - apply andb_true_iff in H as [Hc Hs].
    apply negb_true_iff in Hc. rewrite Hc, (IH Hs). reflexivity.
Qed.

Lemma split_last_segment (sep : codepoint) (segment front : pystr) :
  forallb (fun c => negb (c =? sep)%N) segment = true ->
  exists s0 segments,
    split sep (front ++ sep :: segment) = (s0 :: segments) ++ [segment].
Proof.
  intros Hseg. induction front as [|c front (s0 & segments & IH)]; simpl.
  - rewrite N.eqb_refl, (split_no_sep _ _ Hseg). exists [], []. reflexivity.
  - destruct (c =? sep)%N; rewrite IH.
    + exists [], (s0 :: segments). reflexivity.
    + exists (c :: s0), segments. reflexivity.
Qed.

Lemma trailing_segment_last_item (href segment : pystr) :
  trailing_segment href segment ->
  last_item (split 47%N href) = Return segment.
Proof.
  intros [Hseg [-> | [front ->]]].
  - rewrite (split_no_sep _ _ Hseg). reflexivity.
  - destruct (split_last_segment 47%N segment front Hseg) as (s0 & segments & E).
    exact (eq_trans (f_equal (@last_item pystr) E) (last_item_snoc _ _)).
Qed.

Lemma ascii_digit_no_slash (s : pystr) :
  forallb is_ascii_digit s = true -> has_no_slash s = true.
Proof.
  unfold has_no_slash. induction s as [|c s IH]; simpl; intros H.
  - reflexivity.
  - apply andb_true_iff in H as [Hc Hs]. rewrite (IH Hs), andb_true_r.
    apply negb_true_iff. destruct (N.eqb_spec c 47) as [->|]; [discriminate | reflexivity].
Qed.

Section IntOfDigits.
Context {rt : Runtime}.

Lemma ascii_digit_bounds (c : codepoint) :
  is_ascii_digit c = true -> (48 <= c <= 57)%N.
Proof.
  unfold is_ascii_digit, in_range. intros H.
  apply andb_true_iff in H as [H1 H2].
  apply N.leb_le in H1, H2. lia.
Qed.

Lemma ascii_digit_value (c : codepoint) :
  is_ascii_digit c = true -> digit_value c = Some (Z.of_N c - 48)%Z.
Proof. unfold digit_value, is_ascii_digit. intros ->. reflexivity. Qed.

Lemma ascii_digit_not_space (c : codepoint) :
  is_ascii_digit c = true -> is_space c = false.
Proof.
  intros H. apply ascii_digit_bounds in H. unfold is_space, in_range.
  replace (9 <=? c)%N with true by (symmetry; apply N.leb_le; lia).
  replace (c <=? 13)%N with false by (symmetry; apply N.leb_gt; lia).
  replace (c =? 32)%N with false by (symmetry; apply N.eqb_neq; lia).
  replace (33 <=? c)%N with true by (symmetry; apply N.leb_le; lia).
  replace (c <=? 126)%N with true by (symmetry; apply N.leb_le; lia).
  reflexivity.
Qed.

Lemma int_digits_of_ascii (s : pystr) :
  forallb is_ascii_digit s = true ->
  forall acc after_digit,
    s <> [] \/ after_digit = true ->
    int_digits acc after_digit s
    = Some (fold_left (fun a c => (10 * a + (Z.of_N c - 48))%Z) s acc).
Proof.
  induction s as [|c s IH]; intros Hall acc after_digit Hne.
  - destruct Hne as [Hne | ->]; [contradiction | reflexivity].
  - simpl in Hall. apply andb_true_iff in Hall as [Hc Hs].
    cbn [int_digits fold_left].
    replace (c =? 95)%N with false
      by (symmetry; apply N.eqb_neq; apply ascii_digit_bounds in Hc; lia).
    rewrite (ascii_digit_value _ Hc).
    apply IH; [assumption | right; reflexivity].
Qed.

Lemma lstrip_keeps (drop : codepoint -> bool) (c : codepoint) (s : pystr) :
  drop c = false -> lstrip drop (c :: s) = c :: s.
Proof. intros H. simpl. rewrite H. reflexivity. Qed.

Lemma strip_of_ascii_digits (s : pystr) :
  forallb is_ascii_digit s = true -> strip is_space s = s.
Proof.
  intros Hall. unfold strip.
  assert (Hl : forall t, forallb is_ascii_digit t = true -> lstrip is_space t = t).
  { intros [|c t] Ht; [reflexivity |]. simpl in Ht.
    apply andb_true_iff in Ht as [Hc _].
    apply lstrip_keeps, ascii_digit_not_space, Hc. }
  rewrite (Hl _ Hall), Hl, rev_involutive; [reflexivity |].
  rewrite forallb_forall in *. intros c Hc. apply Hall, in_rev, Hc.
Qed.

Lemma digit_count_of_ascii (s : pystr) :
  forallb is_ascii_digit s = true -> digit_count s = N.of_nat (List.length s).
Proof.
  intros Hall. unfold digit_count. f_equal. f_equal.
  apply forallb_filter_id. rewrite forallb_forall in *. intros c Hc.
  apply negb_true_iff, N.eqb_neq. apply Hall, ascii_digit_bounds in Hc. lia.
Qed.

Lemma int_literal_of_ascii (s : pystr) :
  s <> [] -> forallb is_ascii_digit s = true ->
  int_literal s = if within_digit_limit s then Some (decimal_value s) else None.
Proof.
  intros Hne Hall. unfold int_literal, within_digit_limit.
  rewrite (digit_count_of_ascii _ Hall).
  destruct (over_digit_limit (N.of_nat (List.length s))); [reflexivity |].
  apply int_digits_of_ascii; [assumption | left; assumption].
Qed.

(** [int()] on a non-empty string of ASCII digits: their decimal value, or
    [ValueError] when they are more than the limit. *)
Lemma py_int_of_ascii_digits (s : pystr) :
  s <> [] -> forallb is_ascii_digit s = true ->
  py_int s = if within_digit_limit s then Some (decimal_value s) else None.
Proof.
  intros Hne Hall. unfold py_int. rewrite (strip_of_ascii_digits _ Hall).
  destruct s as [|c s]; [contradiction |].
  assert (Hc : is_ascii_digit c = true).
  { simpl in Hall. apply andb_true_iff in Hall. tauto. }
  apply ascii_digit_bounds in Hc.
  replace (c =? 45)%N with false by (symmetry; apply N.eqb_neq; lia).
  replace (c =? 43)%N with false by (symmetry; apply N.eqb_neq; lia).
  apply int_literal_of_ascii; assumption.
Qed.

End IntOfDigits.

(** C6, with the limit of [int()] on the number of digits.  A link that
    contains [/posts/] and whose trailing segment is a non-empty string of
    ASCII digits, no longer than the limit of the interpreter, yields the
    decimal value of that segment, which the loop appends unless the list
    holds it already.  When the digits are more than the limit, the link
    yields nothing, and so does every link whose trailing segment [int()]
    rejects: the list stays as it is. *)
Theorem link_identifier_is_value_of_trailing_digits :
  forall (rt : Runtime) (href segment : pystr) (post_ids : list Z),
    trailing_segment href segment ->
    (contains (u "/posts/") href = true ->
     segment <> [] ->
     forallb is_ascii_digit segment = true ->
     (within_digit_limit segment = true ->
      En.link_post_id href = Return (decimal_value segment)
      /\ En.add_link post_ids (Some href)
         = Return (if existsb (Z.eqb (decimal_value segment)) post_ids
                   then post_ids
                   else post_ids ++ [decimal_value segment]))
     /\ (within_digit_limit segment = false ->
         En.link_post_id href = Raise ValueError
         /\ En.add_link post_ids (Some href) = Return post_ids))
    /\ (py_int segment = None ->
        En.add_link post_ids (Some href) = Return post_ids).
Proof.
  intros rt href segment post_ids Htrail.
  pose proof (trailing_segment_last_item Htrail) as Hlast.
  assert (Hskip : py_int segment = None ->
                  En.link_post_id href = Raise ValueError
                  /\ En.add_link post_ids (Some href) = Return post_ids).
  { intros Hnone. unfold En.add_link, En.link_post_id.
    rewrite Hlast. cbn [bind]. rewrite Hnone. split; [reflexivity |].
    destruct (truthy_str href && contains (u "/posts/") href); reflexivity. }
  split; [|intros Hnone; exact (proj2 (Hskip Hnone))].
  intros Hposts Hne Hdigits.
  pose proof (py_int_of_ascii_digits Hne Hdigits) as Hint.
  split; intros Hlimit; rewrite Hlimit in Hint; [|exact (Hskip Hint)].
  assert (Hid : En.link_post_id href = Return (decimal_value segment)).
  { unfold En.link_post_id. rewrite Hlast. cbn [bind]. rewrite Hint. reflexivity. }
  split; [exact Hid |].
  unfold En.add_link. rewrite Hposts, Hid.
  destruct href as [|c href]; [discriminate Hposts |].
  cbn [truthy_str andb].
  destruct (existsb (Z.eqb (decimal_value segment)) post_ids); reflexivity.
Qed.

(** What C6 says at the link [/posts/2024] and at the link [/posts/new]. *)
Lemma link_identifier_witness :
  En.add_link (rt := plain_runtime) [7%Z] (Some (u "/posts/2024"))
  = Return [7%Z; 2024%Z]
  /\ En.add_link (rt := plain_runtime) [7%Z] (Some (u "/posts/new"))
     = Return [7%Z].
Proof.
  split.
  - refine (proj2 (proj1 (proj1 (@link_identifier_is_value_of_trailing_digits
        plain_runtime (u "/posts/2024") (u "2024") [7%Z] _) _ _ _) _)).
    + split; [reflexivity | right; exists (u "/posts"); reflexivity].
    + reflexivity.
    + discriminate.
    + reflexivity.
    + reflexivity.
  - refine (proj2 (@link_identifier_is_value_of_trailing_digits
        plain_runtime (u "/posts/new") (u "new") [7%Z] _) _).
    + split; [reflexivity | right; exists (u "/posts"); reflexivity].
    + reflexivity.
Defined.

(** C6 without the limit fails: on an interpreter with the limit of a fresh
    installation, 4300 digits, the link [/posts/] followed by 4301 times the
    digit 1 contains [/posts/] and ends in a string of digits, and yet
    [int()] raises [ValueError] on the segment and the loop passes the link
    over; no identifier is extracted from it. *)
Lemma link_with_too_many_digits_is_skipped :
  contains (u "/posts/") (u "/posts/" ++ repeat 49%N 4301) = true
  /\ trailing_segment (u "/posts/" ++ repeat 49%N 4301) (repeat 49%N 4301)
  /\ forallb is_ascii_digit (repeat 49%N 4301) = true
  /\ En.link_post_id (rt := plain_runtime) (u "/posts/" ++ repeat 49%N 4301)
     = Raise ValueError
  /\ En.add_link (rt := plain_runtime) [] (Some (u "/posts/" ++ repeat 49%N 4301))
     = Return [].
Proof.
  split; [reflexivity |].
  split; [split; [vm_compute; reflexivity | right; exists (u "/posts"); reflexivity] |].
  split; [vm_compute; reflexivity |].
  split; vm_compute; reflexivity.
Qed.

(** ** Identifiers as text *)

Section DecimalText.

(** The digits of an unsigned decimal number as a str. *)
Let digits (d : Decimal.uint) : pystr := u (NilEmpty.string_of_uint d).

Let step (acc : Z) (c : codepoint) : Z := (10 * acc + (Z.of_N c - 48))%Z.

Lemma digits_are_ascii (d : Decimal.uint) :
  forallb is_ascii_digit (digits d) = true.
Proof. induction d; cbn; try assumption; reflexivity. Qed.

Lemma fold_digits (d : Decimal.uint) :
  forall acc : Z,
    fold_left step (digits d) acc
    = (Z.of_N (DecimalPos.Unsigned.of_lu (Decimal.rev d))
       + acc * Z.of_N (10 ^ DecimalPos.Unsigned.usize d))%Z.
Proof.
  induction d; intros acc;
    [ cbn; lia | .. ];
    unfold digits; cbn [NilEmpty.string_of_uint u list_ascii_of_string map fold_left];
    fold (u (NilEmpty.string_of_uint d)); fold (digits d);
    rewrite IHd;
    set (v := Z.of_N (DecimalPos.Unsigned.of_lu (Decimal.rev d)));
    set (p := Z.of_N (10 ^ DecimalPos.Unsigned.usize d));
    unfold Decimal.rev; cbn [Decimal.revapp];
    rewrite DecimalPos.Unsigned.of_lu_revapp;
    cbn [DecimalPos.Unsigned.usize]; rewrite N.pow_succ_r';
    rewrite !N2Z.inj_add, !N2Z.inj_mul;
    fold (Decimal.rev d); fold v; fold p; unfold step;
    repeat match goal with
           | |- context [N_of_ascii ?a] =>
               let n := eval vm_compute in (Z.of_N (N_of_ascii a)) in
               change (Z.of_N (N_of_ascii a)) with n
           | |- context [Z.of_N (DecimalPos.Unsigned.of_lu ?x)] =>
               lazymatch x with
               | Decimal.rev _ => fail
               | _ => let n := eval vm_compute in (Z.of_N (DecimalPos.Unsigned.of_lu x)) in
                      change (Z.of_N (DecimalPos.Unsigned.of_lu x)) with n
               end
           end;
    change (Z.of_N 10) with 10%Z; ring.
Qed.

Lemma decimal_value_digits (d : Decimal.uint) :
  decimal_value (digits d) = Z.of_uint d.
Proof.
  unfold decimal_value. fold step. rewrite fold_digits.
  unfold Z.of_uint. rewrite DecimalPos.Unsigned.of_uint_alt. lia.
Qed.

End DecimalText.

Section IntOfText.
Context {rt : Runtime}.

Lemma nilzero_digits (d : Decimal.uint) :
  u (NilZero.string_of_uint d) <> []
  /\ forallb is_ascii_digit (u (NilZero.string_of_uint d)) = true
  /\ decimal_value (u (NilZero.string_of_uint d)) = Z.of_uint d.
Proof.
  destruct d;
    try (split; [discriminate |];
         split; [apply digits_are_ascii | apply decimal_value_digits]).
  repeat split. discriminate.
Qed.

Lemma strip_ends (drop : codepoint -> bool) (s : pystr) :
  (forall a t, s = a :: t -> drop a = false) ->
  (forall b t, rev s = b :: t -> drop b = false) ->
  strip drop s = s.
Proof.
  intros Hfirst Hlast. unfold strip.
  assert (Hl : forall t, (forall a t', t = a :: t' -> drop a = false) ->
                         lstrip drop t = t).
  { intros [|a t'] Ht; [reflexivity |]. cbn [lstrip].
    rewrite (Ht a t' eq_refl). reflexivity. }
  rewrite (Hl s Hfirst), (Hl (rev s) Hlast). apply rev_involutive.
Qed.

Lemma ascii_digits_last (s : pystr) (b : codepoint) (t : pystr) :
  forallb is_ascii_digit s = true -> rev s = b :: t -> is_ascii_digit b = true.
Proof.
  intros Hall Hrev. rewrite forallb_forall in Hall. apply Hall.
  apply in_rev. rewrite Hrev. left. reflexivity.
Qed.

Lemma py_int_of_negative (s : pystr) :
  s <> [] -> forallb is_ascii_digit s = true ->
  py_int (45%N :: s)
  = if within_digit_limit s then Some (- decimal_value s)%Z else None.
Proof.
  intros Hne Hall. unfold py_int. rewrite strip_ends.
  - cbn [N.eqb Pos.eqb]. rewrite (int_literal_of_ascii Hne Hall).
    destruct (within_digit_limit s); reflexivity.
  - intros a t [= <- _]. reflexivity.
  - intros b t. cbn [rev]. destruct (rev s) as [|b' t'] eqn:Hrev.
    + apply (f_equal (@rev codepoint)) in Hrev. rewrite rev_involutive in Hrev.
      contradiction.
    + intros [= <- _]. apply ascii_digit_not_space.
      exact (@ascii_digits_last s b' t' Hall Hrev).
Qed.

(** [str()] accepts an int exactly when the digits of its text are within
    the limit. *)
Lemma py_str_within_limit (z : Z) :
  py_str z = if within_digit_limit (str_of_int (Z.abs z))
             then Some (str_of_int z) else None.
Proof.
  unfold py_str, within_digit_limit. rewrite digit_count_of_ascii.
  - destruct (over_digit_limit _); reflexivity.
  - unfold str_of_int. destruct z as [|p|p]; cbn [Z.abs Z.to_int NilZero.string_of_int];
      [reflexivity | |]; apply (nilzero_digits (Pos.to_uint p)).
Qed.

(** [int()] reads the text of an int back, when the text is within the
    limit, and raises on it otherwise, as [str()] does on the int. *)
Lemma py_int_str_of_int (z : Z) :
  py_int (str_of_int z) = if within_digit_limit (str_of_int (Z.abs z))
                          then Some z else None.
Proof.
  unfold str_of_int. destruct z as [|p|p]; cbn [Z.abs Z.to_int NilZero.string_of_int].
  - reflexivity.
  - destruct (nilzero_digits (Pos.to_uint p)) as (Hne & Hall & Hval).
    rewrite (py_int_of_ascii_digits Hne Hall), Hval.
    unfold Z.of_uint. rewrite DecimalPos.Unsigned.of_to. reflexivity.
  - destruct (nilzero_digits (Pos.to_uint p)) as (Hne & Hall & Hval).
    change (u (String "-" (NilZero.string_of_uint (Pos.to_uint p))))
      with (45%N :: u (NilZero.string_of_uint (Pos.to_uint p))).
    rewrite (@py_int_of_negative _ Hne Hall), Hval.
    unfold Z.of_uint. rewrite DecimalPos.Unsigned.of_to. reflexivity.
Qed.

Lemma str_of_int_chars (z : Z) (c : codepoint) :
  In c (str_of_int z) -> is_ascii_digit c = true \/ c = 45%N.
Proof.
  unfold str_of_int. destruct z as [|p|p]; cbn [Z.to_int NilZero.string_of_int].
  - intros [<- | []]. left. reflexivity.
  - destruct (nilzero_digits (Pos.to_uint p)) as (_ & Hall & _).
    rewrite forallb_forall in Hall. intros Hc. left. exact (Hall c Hc).
  - destruct (nilzero_digits (Pos.to_uint p)) as (_ & Hall & _).
    rewrite forallb_forall in Hall.
    change (u (String "-" (NilZero.string_of_uint (Pos.to_uint p))))
      with (45%N :: u (NilZero.string_of_uint (Pos.to_uint p))).
    intros [<- | Hc]; [right; reflexivity | left; exact (Hall c Hc)].
Qed.

Lemma str_of_int_nonempty (z : Z) : str_of_int z <> [].
Proof.
  unfold str_of_int. destruct z as [|p|p]; cbn [Z.to_int NilZero.string_of_int];
    [discriminate | apply (nilzero_digits (Pos.to_uint p)) | discriminate].
Qed.

Lemma str_of_int_no_slash (z : Z) : has_no_slash (str_of_int z) = true.
Proof.
  unfold has_no_slash. rewrite forallb_forall. intros c Hc.
  apply negb_true_iff, N.eqb_neq.
  destruct (str_of_int_chars z c Hc) as [Hd | ->]; [|discriminate].
  apply ascii_digit_bounds in Hd. lia.
Qed.

Lemma str_of_int_encodable (z : Z) : utf8_encodable (str_of_int z) = true.
Proof.
  unfold utf8_encodable. rewrite forallb_forall. intros c Hc.
  apply negb_true_iff. unfold is_surrogate, in_range.
  destruct (str_of_int_chars z c Hc) as [Hd | ->]; [|reflexivity].
  apply ascii_digit_bounds in Hd.
  replace (c <=? 57343)%N with true by (symmetry; apply N.leb_le; lia).
  rewrite andb_true_r. apply N.leb_gt. lia.
Qed.


End IntOfText.

(** *** What [int()] reads, [str()] writes *)

(** The decimal text of a positive number does not begin with a zero. *)
Lemma to_uint_head (p : positive) :
  match Pos.to_uint p with
  | Decimal.Nil | Decimal.D0 _ => False
  | _ => True
  end.
Proof.
  assert (Hnorm : Decimal.unorm (Pos.to_uint p) = Pos.to_uint p).
  { rewrite <- DecimalPos.Unsigned.to_of, DecimalPos.Unsigned.of_to. reflexivity. }
  destruct (Pos.to_uint p) as [|d| | | | | | | | |] eqn:E; try exact I.
  - exact (DecimalPos.Unsigned.to_uint_nonnil p E).
  - unfold Decimal.unorm in Hnorm.
    destruct (Decimal.nzhead (Decimal.D0 d)) eqn:Hz; try discriminate Hnorm.
    + injection Hnorm as <-. exact (DecimalPos.Unsigned.to_uint_nonzero p E).
    + injection Hnorm as ->. exact (DecimalFacts.nzhead_nonzero _ _ Hz).
Qed.

Section IntWithinLimit.
Context {rt : Runtime}.

(** The table of the interpreter gives a decimal digit its value, from 0 to
    9. *)
Hypothesis decimal_range :
  forall c d, unicode_decimal c = Some d -> (0 <= d <= 9)%Z.

Let step (acc : Z) (c : codepoint) : Z := (10 * acc + (Z.of_N c - 48))%Z.

Lemma fold_step_lower (s : pystr) :
  forallb is_ascii_digit s = true ->
  forall acc, (0 <= acc)%Z ->
    (acc * 10 ^ Z.of_nat (List.length s) <= fold_left step s acc)%Z.
Proof.
  induction s as [|c s IH]; intros Hall acc Hacc.
  - cbn. lia.
  - cbn [forallb] in Hall. apply andb_true_iff in Hall as [Hc Hs].
    apply ascii_digit_bounds in Hc.
    cbn [fold_left List.length]. rewrite Nat2Z.inj_succ, Z.pow_succ_r by lia.
    specialize (IH Hs (step acc c)). unfold step in *.
    assert (Hp : (0 < 10 ^ Z.of_nat (List.length s))%Z) by (apply Z.pow_pos_nonneg; lia).
    nia.
Qed.


Lemma digit_value_range (c : codepoint) (d : Z) :
  digit_value c = Some d -> (0 <= d <= 9)%Z.
Proof.
  unfold digit_value. destruct (in_range 48 57 c) eqn:Hr.
  - intros [= <-]. apply ascii_digit_bounds in Hr. lia.
  - destruct (c <? 128)%N; [discriminate | apply decimal_range].
Qed.

Lemma int_digits_bound (s : pystr) :
  forall acc after_digit v,
    (0 <= acc)%Z ->
    int_digits acc after_digit s = Some v ->
    (acc * 10 ^ Z.of_N (digit_count s) <= v < (acc + 1) * 10 ^ Z.of_N (digit_count s))%Z
    /\ (after_digit = false -> (1 <= digit_count s)%N).
Proof.
  unfold digit_count.
  induction s as [|c s IH]; intros acc after_digit v Hacc; cbn [int_digits].
  - destruct after_digit; [|discriminate]. intros [= <-]. cbn. split; [lia | discriminate].
  - cbn [filter]. destruct (c =? 95)%N; cbn [negb].
    + destruct after_digit; [|discriminate]. intros H.
      destruct (IH _ _ _ Hacc H) as [Hb _]. split; [exact Hb | discriminate].
    + destruct (digit_value c) as [d|] eqn:Hd; [|discriminate].
      apply digit_value_range in Hd. intros H.
      destruct (IH (10 * acc + d)%Z true v ltac:(lia) H) as [Hb _].
      cbn [List.length]. rewrite Nat2N.inj_succ, N2Z.inj_succ, Z.pow_succ_r by lia.
      assert (Hp : (0 < 10 ^ Z.of_N (N.of_nat (List.length
                 (filter (fun c0 => negb (c0 =? 95)%N) s))))%Z)
        by (apply Z.pow_pos_nonneg; lia).
      split; [nia | lia].
Qed.

Lemma pos_text_lower (p : positive) :
  (10 ^ (Z.of_nat (List.length (str_of_int (Z.pos p))) - 1) <= Z.pos p)%Z.
Proof.
  destruct (nilzero_digits (Pos.to_uint p)) as (Hne & Hall & Hval).
  unfold Z.of_uint in Hval. rewrite DecimalPos.Unsigned.of_to in Hval.
  change (str_of_int (Z.pos p)) with (u (NilZero.string_of_uint (Pos.to_uint p))).
  pose proof (to_uint_head p) as Hhead.
  destruct (u (NilZero.string_of_uint (Pos.to_uint p))) as [|c s] eqn:Etext;
    [contradiction |].
  assert (Hc : c <> 48%N).
  { destruct (Pos.to_uint p); try contradiction; injection Etext as <- _; discriminate. }
  cbn [forallb] in Hall. apply andb_true_iff in Hall as [Hdigit Hs].
  apply ascii_digit_bounds in Hdigit.
  change (fold_left step s (step 0 c) = Z.pos p) in Hval.
  assert (Hfirst : (1 <= step 0 c)%Z) by (unfold step; lia).
  pose proof (@fold_step_lower s Hs (step 0 c) ltac:(lia)) as Hlow.
  rewrite Hval in Hlow.
  cbn [List.length]. rewrite Nat2Z.inj_succ.
  replace (Z.succ (Z.of_nat (List.length s)) - 1)%Z with (Z.of_nat (List.length s)) by lia.
  assert (Hp : (0 < 10 ^ Z.of_nat (List.length s))%Z) by (apply Z.pow_pos_nonneg; lia).
  nia.
Qed.

Lemma over_digit_limit_mono (a b : N) :
  (a <= b)%N -> over_digit_limit b = false -> over_digit_limit a = false.
Proof.
  unfold over_digit_limit. intros Hab.
  destruct (N.ltb_spec 640 b), (N.ltb_spec 640 a),
    (N.ltb_spec 0 int_max_str_digits),
    (N.ltb_spec int_max_str_digits b), (N.ltb_spec int_max_str_digits a);
    cbn; intros Hb; try reflexivity; try discriminate Hb; lia.
Qed.

Lemma int_literal_within (t : pystr) (v : Z) :
  int_literal t = Some v ->
  (0 <= v)%Z /\ within_digit_limit (str_of_int (Z.abs v)) = true.
Proof.
  unfold int_literal.
  destruct (over_digit_limit (digit_count t)) eqn:Hover; [discriminate |].
  intros Hv. destruct (@int_digits_bound t 0%Z false v ltac:(lia) Hv) as [Hb Hk].
  specialize (Hk eq_refl). split; [lia |].
  unfold within_digit_limit. apply negb_true_iff.
  apply (@over_digit_limit_mono _ (digit_count t)); [|exact Hover].
  destruct v as [|p|p]; [cbn; lia | | lia].
  cbn [Z.abs]. pose proof (pos_text_lower p) as Hlow.
  set (n := List.length (str_of_int (Z.pos p))) in *.
  destruct (N.le_gt_cases (N.of_nat n) (digit_count t)) as [Hle | Hgt]; [exact Hle |].
  exfalso.
  assert (Hpow : (10 ^ Z.of_N (digit_count t) <= 10 ^ (Z.of_nat n - 1))%Z).
  { apply Z.pow_le_mono_r; lia. }
  lia.
Qed.

(** An int that [int()] has read is one that [str()] accepts. *)
Lemma py_int_within_str_limit (s : pystr) (z : Z) :
  py_int s = Some z -> py_str z = Some (str_of_int z).
Proof.
  intros Hint.
  assert (Hlimit : within_digit_limit (str_of_int (Z.abs z)) = true).
  { unfold py_int in Hint. destruct (strip is_space s) as [|c t]; [discriminate |].
    destruct (c =? 45)%N.
    - destruct (int_literal t) as [v|] eqn:Hv; [|discriminate].
      injection Hint as <-. rewrite Z.abs_opp. apply (@int_literal_within _ _ Hv).
    - destruct (c =? 43)%N; apply (@int_literal_within _ _ Hint). }
  rewrite py_str_within_limit, Hlimit. reflexivity.
Qed.
End IntWithinLimit.

(** ** The list of collected identifiers *)

Section FirstSeen.

Lemma mem_In (x : Z) (l : list Z) : mem x l = true <-> In x l.
Proof.
  unfold mem. rewrite existsb_exists. split.
  - intros (y & Hy & E). apply Z.eqb_eq in E. subst. exact Hy.
  - intros H. exists x. split; [exact H | apply Z.eqb_refl].
Qed.

Lemma mem_iff (x : Z) (a b : list Z) :
  (In x a <-> In x b) -> mem x a = mem x b.
Proof.
  intros H. apply eq_true_iff_eq. rewrite !mem_In. exact H.
Qed.

Lemma filter_twice (f g : Z -> bool) (l : list Z) :
  filter f (filter g l) = filter (fun x => f x && g x) l.
Proof.
  induction l as [|x l IH]; simpl; [reflexivity |].
  destruct (g x); simpl.
  - destruct (f x); simpl; rewrite IH; reflexivity.
  - rewrite andb_false_r. exact IH.
Qed.

Lemma filter_all (f : Z -> bool) (l : list Z) :
  (forall x, In x l -> f x = true) -> filter f l = l.
Proof.
  induction l as [|x l IH]; simpl; intros H; [reflexivity |].
  rewrite (H x (or_introl eq_refl)), IH; [reflexivity |].
  intros y Hy. apply H. right. exact Hy.
Qed.

Lemma first_seen_In (x : Z) (l : list Z) : In x (first_seen l) <-> In x l.
Proof.
  induction l as [|y l IH]; simpl; [tauto |].
  rewrite filter_In, IH, negb_true_iff, Z.eqb_neq.
  destruct (Z.eq_dec y x); intuition congruence.
Qed.

Lemma first_seen_NoDup (l : list Z) : NoDup (first_seen l).
Proof.
  induction l as [|y l IH]; simpl; constructor.
  - rewrite filter_In, negb_true_iff, Z.eqb_neq. tauto.
  - apply NoDup_filter, IH.
Qed.

Lemma first_seen_fixed (l : list Z) : NoDup l -> first_seen l = l.
Proof.
  induction 1 as [|y l Hy _ IH]; simpl; [reflexivity |].
  rewrite IH. f_equal. apply filter_all.
  intros x Hx. apply negb_true_iff, Z.eqb_neq. congruence.
Qed.

Lemma first_seen_app (a b : list Z) :
  first_seen (a ++ b)
  = first_seen a ++ filter (fun y => negb (mem y a)) (first_seen b).
Proof.
  induction a as [|x a IH]; simpl.
  - symmetry. apply filter_all. reflexivity.
  - rewrite IH, filter_app, filter_twice. do 2 f_equal.
    apply filter_ext. intros y. unfold mem. simpl.
    rewrite negb_orb. reflexivity.
Qed.

Lemma first_seen_absorb (a b : list Z) :
  first_seen (first_seen a ++ b) = first_seen (a ++ b).
Proof.
  rewrite !first_seen_app, (first_seen_fixed (first_seen_NoDup a)).
  f_equal. apply filter_ext. intros y. f_equal.
  apply mem_iff, first_seen_In.
Qed.

Lemma add_id_first_seen (ids : list Z) (x : Z) :
  NoDup ids -> add_id ids x = first_seen (ids ++ [x]).
Proof.
  intros Hnd. rewrite first_seen_app, (first_seen_fixed Hnd). unfold add_id.
  simpl. destruct (mem x ids); simpl.
  - symmetry. apply app_nil_r.
  - reflexivity.
Qed.

Lemma fold_add_id_first_seen (xs ids : list Z) :
  NoDup ids -> fold_left add_id xs ids = first_seen (ids ++ xs).
Proof.
  revert ids. induction xs as [|x xs IH]; intros ids Hnd; simpl.
  - rewrite app_nil_r. symmetry. apply first_seen_fixed, Hnd.
  - rewrite (add_id_first_seen x Hnd), IH by apply first_seen_NoDup.
    rewrite first_seen_absorb, <- app_assoc. reflexivity.
Qed.

End FirstSeen.

Section Collector.
Context {rt : Runtime}.

Lemma link_post_id_raises (href : pystr) (e : exn) :
  En.link_post_id href = Raise e -> e = ValueError \/ e = IndexError.
Proof.
  unfold En.link_post_id.
  destruct (last_item (split 47%N href)) as [segment|e'] eqn:Hlast; cbn [bind].
  - destruct (py_int segment); [discriminate |]. intros [= <-]. left. reflexivity.
  - unfold last_item in Hlast. destruct (rev (split 47%N href)); [|discriminate].
    injection Hlast as <-. intros [= <-]. right. reflexivity.
Qed.

Lemma add_link_fold (post_ids : list Z) (href : option pystr) :
  En.add_link post_ids href = Return (fold_left add_id (link_ids href) post_ids).
Proof.
  unfold En.add_link, link_ids.
  destruct href as [h|]; [|reflexivity].
  destruct (truthy_str h && contains (u "/posts/") h); [|reflexivity].
  destruct (En.link_post_id h) as [post_id|e] eqn:E.
  - simpl. unfold add_id, mem.
    destruct (existsb (Z.eqb post_id) post_ids); reflexivity.
  - destruct (link_post_id_raises _ E) as [-> | ->]; reflexivity.
Qed.

Lemma scan_links_fold (hrefs : list (option pystr)) (post_ids : list Z) :
  En.scan_links hrefs post_ids
  = Return (fold_left add_id (flat_map link_ids hrefs) post_ids).
Proof.
  revert post_ids. induction hrefs as [|href hrefs IH]; intros post_ids; simpl.
  - reflexivity.
  - rewrite add_link_fold. cbn [bind]. rewrite IH, fold_left_app. reflexivity.
Qed.

Lemma scan_links_first_seen (hrefs : list (option pystr)) (post_ids : list Z) :
  NoDup post_ids ->
  En.scan_links hrefs post_ids
  = Return (first_seen (post_ids ++ flat_map link_ids hrefs)).
Proof.
  intros Hnd. rewrite scan_links_fold, (fold_add_id_first_seen _ Hnd).
  reflexivity.
Qed.

(** A round that is read to its end has appended the identifiers of its
    links, resolved the next link and slept. *)
Lemma read_page_fold (soup : page) (fanclub_url : pystr) (delay : float)
    (post_ids : list Z) :
  En.read_page soup fanclub_url delay post_ids
  = (current_url <- En.next_url fanclub_url (next_page soup) ;;
     slept <- time_sleep delay ;;
     Return (fold_left add_id (flat_map link_ids (links soup)) post_ids, current_url)).
Proof. unfold En.read_page. rewrite scan_links_fold. reflexivity. Qed.

Lemma read_page_returns (soup : page) (fanclub_url : pystr) (delay : float)
    (post_ids post_ids' : list Z) (current_url : option pystr) :
  En.read_page soup fanclub_url delay post_ids = Return (post_ids', current_url) ->
  post_ids' = fold_left add_id (flat_map link_ids (links soup)) post_ids
  /\ En.next_url fanclub_url (next_page soup) = Return current_url
  /\ time_sleep delay = Return tt.
Proof.
  rewrite read_page_fold.
  destruct (En.next_url fanclub_url (next_page soup)) as [current|e]; [|discriminate].
  cbn [bind]. destruct (time_sleep delay) as [[]|e]; [|discriminate].
  cbn [bind]. intros [= <- <-]. repeat split.
Qed.

(** The loop keeps its list free of repetitions and in first-seen order of
    the pages that it has read. *)
Lemma crawl_first_seen (responses : server) (fanclub_url : pystr) (delay : float) :
  forall (current_url : option pystr) (post_ids l : list Z),
    NoDup post_ids ->
    En.crawl responses fanclub_url delay current_url post_ids = Some (Return l) ->
    l = []
    \/ exists k,
         l = first_seen (post_ids ++ flat_map response_ids (firstn k responses)).
Proof.
  induction responses as [|answer later IH]; intros current_url post_ids l Hnd.
  - assert (Hstop : first_seen (post_ids ++ flat_map response_ids (firstn 0 [])) = post_ids).
    { simpl. rewrite app_nil_r. apply first_seen_fixed, Hnd. }
    destruct current_url as [url|]; simpl.
    + destruct (truthy_str url); [discriminate |].
      intros [= <-]. right. exists 0. symmetry. exact Hstop.
    + intros [= <-]. right. exists 0. symmetry. exact Hstop.
  - assert (Hstop : first_seen (post_ids ++ flat_map response_ids (firstn 0 (answer :: later)))
                    = post_ids).
    { simpl. rewrite app_nil_r. apply first_seen_fixed, Hnd. }
    destruct current_url as [url|]; cbn [En.crawl En.truthy_url];
      [destruct (truthy_str url) |];
      try (intros [= <-]; right; exists 0; symmetry; exact Hstop).
    destruct answer as [|e0|soup]; [intros [= <-]; left; reflexivity | discriminate |].
    destruct (frontend_params soup) as [[text|]|];
      [| discriminate | intros [= <-]; left; reflexivity].
    destruct (contains En.logged_out_marker text);
      [intros [= <-]; left; reflexivity |].
    destruct (links soup) as [|href hrefs] eqn:Hlinks;
      [intros [= <-]; right; exists 0; symmetry; exact Hstop |].
    destruct (En.read_page soup fanclub_url delay post_ids)
      as [[post_ids' current_url']|e] eqn:Hpage; [|discriminate].
    apply read_page_returns in Hpage as (-> & _ & _).
    rewrite (fold_add_id_first_seen _ Hnd).
    intros Hrun. apply IH in Hrun; [|apply first_seen_NoDup].
    destruct Hrun as [-> | [k ->]]; [left; reflexivity |].
    right. exists (S k). rewrite first_seen_absorb, firstn_cons.
    cbn [flat_map response_ids]. rewrite <- app_assoc. reflexivity.
Qed.

End Collector.

Section CollectorRuns.
Context {rt : Runtime}.

Lemma crawl_request_failure (later : server) (fanclub_url url : pystr) (delay : float)
    (post_ids : list Z) :
  truthy_str url = true ->
  En.crawl (RequestException :: later) fanclub_url delay (Some url) post_ids
  = Some (Return []).
Proof. intros H. simpl. rewrite H. reflexivity. Qed.

Lemma crawl_marker_absent (later : server) (fanclub_url url : pystr) (delay : float)
    (post_ids : list Z) (soup : page) :
  truthy_str url = true ->
  frontend_params soup = None ->
  En.crawl (Html soup :: later) fanclub_url delay (Some url) post_ids = Some (Return []).
Proof. intros H Hm. simpl. rewrite H, Hm. reflexivity. Qed.

Lemma crawl_logged_out (later : server) (fanclub_url url : pystr) (delay : float)
    (post_ids : list Z) (soup : page) (text : pystr) :
  truthy_str url = true ->
  frontend_params soup = Some (Some text) ->
  contains En.logged_out_marker text = true ->
  En.crawl (Html soup :: later) fanclub_url delay (Some url) post_ids = Some (Return []).
Proof. intros H Hm Ht. simpl. rewrite H, Hm, Ht. reflexivity. Qed.

Lemma crawl_marker_without_text (later : server) (fanclub_url url : pystr) (delay : float)
    (post_ids : list Z) (soup : page) :
  truthy_str url = true ->
  frontend_params soup = Some None ->
  En.crawl (Html soup :: later) fanclub_url delay (Some url) post_ids
  = Some (Raise TypeError).
Proof. intros H Hm. simpl. rewrite H, Hm. reflexivity. Qed.


(** A page that is read to its end, with a next link that does not resolve
    or a pause that raises: the exception leaves the loop. *)
Lemma crawl_page_raises (later : server) (fanclub_url url : pystr) (delay : float)
    (post_ids : list Z) (soup : page) (text : pystr) (e : exn) :
  truthy_str url = true ->
  frontend_params soup = Some (Some text) ->
  contains En.logged_out_marker text = false ->
  links soup <> [] ->
  (current_url <- En.next_url fanclub_url (next_page soup) ;; time_sleep delay) = Raise e ->
  En.crawl (Html soup :: later) fanclub_url delay (Some url) post_ids = Some (Raise e).
Proof.
  intros H Hm Ht Hl Hraise. cbn [En.crawl En.truthy_url].
  rewrite H, Hm, Ht, read_page_fold.
  destruct (links soup); [contradiction |].
  destruct (En.next_url fanclub_url (next_page soup)) as [current|e']; cbn [bind] in *.
  - rewrite Hraise. reflexivity.
  - injection Hraise as <-. reflexivity.
Qed.





End CollectorRuns.




Section CollectorFailures.
Context {rt : Runtime}.

(** A listing that cannot be fetched, or that shows the session as logged
    out, empties the result, whatever was collected before. *)
Lemma crawl_fails_empty (later : server) (fanclub_url url : pystr) (delay : float)
    (post_ids : list Z) (answer : response) :
  truthy_str url = true ->
  answer = RequestException
  \/ (exists soup, answer = Html soup /\ frontend_params soup = None)
  \/ (exists soup text, answer = Html soup
                       /\ frontend_params soup = Some (Some text)
                       /\ contains En.logged_out_marker text = true) ->
  En.crawl (answer :: later) fanclub_url delay (Some url) post_ids = Some (Return []).
Proof.
  intros Hurl [-> | [(soup & -> & Hm) | (soup & text & -> & Hm & Ht)]].
  - apply crawl_request_failure, Hurl.
  - apply crawl_marker_absent; assumption.
  - eapply crawl_logged_out; eassumption.
Qed.

(** A target that [urlparse] rejects makes the collector raise before its
    first request. *)
Lemma get_all_post_ids_rejected_url (responses : server) (fanclub_url : pystr)
    (delay : float) :
  urlparse_path fanclub_url = None ->
  En.get_all_post_ids responses fanclub_url delay = Some (Raise ValueError).
Proof. intros H. unfold En.get_all_post_ids. rewrite H. reflexivity. Qed.

End CollectorFailures.

(** A failure on the second page discards the identifiers of the first. *)
Lemma later_page_failure_returns_empty :
  En.get_all_post_ids (rt := plain_runtime)
    [Html {| frontend_params := Some (Some (u "{}"));
             links := [Some (u "/posts/10"); Some (u "/posts/11")];
             next_page := Some (Some (u "https://fantia.jp/fanclubs/1/posts?page=2")) |};
     RequestException]
    (u "https://fantia.jp/fanclubs/1/posts") 1.5%float
  = Some (Return []).
Proof. vm_compute. reflexivity. Qed.

(** C4. [get_all_post_ids] does not return the empty list on every content
    of the marker element: on a page whose [frontend-params] element has no
    text, [.string] is [None], the membership test raises [TypeError], and
    the collector lets it out to its caller, on the first page as on a
    later one. *)
Theorem marker_without_text_raises_in_collector :
  En.get_all_post_ids (rt := plain_runtime)
    [Html {| frontend_params := Some None;
             links := [Some (u "/posts/10")];
             next_page := None |}]
    (u "https://fantia.jp/fanclubs/1/posts") 1.5%float
  = Some (Raise TypeError)
  /\ En.get_all_post_ids (rt := plain_runtime)
       [Html {| frontend_params := Some (Some (u "{}"));
                links := [Some (u "/posts/10"); Some (u "/posts/11")];
                next_page := Some (Some (u "https://fantia.jp/fanclubs/1/posts?page=2")) |};
        Html {| frontend_params := Some None;
                links := [Some (u "/posts/12")];
                next_page := None |}]
       (u "https://fantia.jp/fanclubs/1/posts") 1.5%float
     = Some (Raise TypeError).
Proof. split; vm_compute; reflexivity. Qed.

(** ** Paid and free posts *)

Ltac split_shape H :=
  repeat match type of H with
         | (_ && _) = true =>
             let H' := fresh "Hshape" in
             apply andb_true_iff in H; destruct H as [H H']
         end.

Lemma paid_segment_spec (c : pyval) :
  paid_segment c = true
  <-> exists price, plan_price c = Some price /\ greater_than_zero price.
Proof.
  unfold paid_segment. split.
  - destruct (plan_price c) as [[| | z | f | | |]|]; try discriminate; intros H.
    + exists (VInt z). split; [reflexivity |]. apply Z.ltb_lt, H.
    + exists (VFloat f). split; [reflexivity | exact H].
  - intros (price & -> & Hpos). destruct price; try contradiction.
    + apply Z.ltb_lt, Hpos.
    + exact Hpos.
Qed.

Lemma segment_is_paid_shaped (c : pyval) :
  segment_shape c = true -> En.segment_is_paid c = Return (paid_segment c).
Proof.
  unfold segment_shape, En.segment_is_paid, paid_segment, plan_price.
  destruct c as [| | | | | |cd]; try discriminate.
  intros H. split_shape H. unfold py_get at 1.
  destruct (lookup (u "plan") cd) as [plan|]; cbn [bind]; [|reflexivity].
  destruct plan as [| | | | | |pd]; try discriminate; [reflexivity |].
  cbn [absent_or plan_shape] in Hshape.
  destruct pd as [|item pd']; [reflexivity |].
  cbn [truthy py_get]. remember (item :: pd') as plan.
  destruct (lookup (u "price") plan) as [price|]; cbn [bind]; [|reflexivity].
  destruct price; try discriminate; reflexivity.
Qed.

Lemma py_any_shaped (segments : list pyval) :
  forallb segment_shape segments = true ->
  py_any En.segment_is_paid segments = Return (existsb paid_segment segments).
Proof.
  induction segments as [|c segments IH]; simpl; intros H; [reflexivity |].
  split_shape H. rewrite (segment_is_paid_shaped _ H). cbn [bind].
  destruct (paid_segment c); [reflexivity | apply IH, Hshape].
Qed.

Lemma post_record_segments (post : pyval) :
  post_record post = true -> forallb segment_shape (segments_of post) = true.
Proof.
  unfold post_record, segments_of.
  destruct post as [| | | | | |d]; try discriminate.
  intros H. split_shape H.
  destruct (lookup (u "post_contents") d) as [[| | | | |segments|]|];
    try discriminate; try reflexivity.
  exact Hshape2.
Qed.

Lemma is_paid_shaped (post : pyval) :
  post_record post = true ->
  En.is_paid post = Return (existsb paid_segment (segments_of post)).
Proof.
  intros Hrec. pose proof (post_record_segments _ Hrec) as Hsegs.
  revert Hrec Hsegs. unfold post_record, segments_of, En.is_paid.
  destruct post as [| | | | | |d]; try discriminate.
  intros H Hsegs. split_shape H. unfold py_get.
  destruct (lookup (u "post_contents") d) as [[| | | | |segments|]|];
    try discriminate; cbn [bind py_iter].
  - apply py_any_shaped, Hsegs.
  - reflexivity.
Qed.

Lemma has_paid_plan_exists (post : pyval) :
  existsb paid_segment (segments_of post) = true <-> has_paid_plan post.
Proof.
  unfold has_paid_plan. rewrite existsb_exists. split.
  - intros (c & Hin & Hpaid). apply paid_segment_spec in Hpaid as (price & Hp & Hpos).
    exists c, price. tauto.
  - intros (c & price & Hin & Hp & Hpos). exists c. split; [exact Hin |].
    apply paid_segment_spec. exists price. tauto.
Qed.

(** C2. On a post record [is_paid] is computed, and it is true exactly when
    some content segment carries a plan whose price is above zero; so it is
    false for a post without content segments, for a post whose segments
    carry no priced plan, and for a post on which no price is above zero. *)
Theorem is_paid_iff_some_plan_price_above_zero :
  forall post : pyval,
    post_record post = true ->
    exists paid : bool,
      En.is_paid post = Return paid
      /\ (paid = true <-> has_paid_plan post)
      /\ (segments_of post = [] -> paid = false)
      /\ ((forall c, In c (segments_of post) -> plan_price c = None) -> paid = false)
      /\ ((forall c price, In c (segments_of post) -> plan_price c = Some price ->
             ~ greater_than_zero price) -> paid = false).
Proof.
  intros post Hrec. exists (existsb paid_segment (segments_of post)).
  split; [apply is_paid_shaped, Hrec |].
  split; [apply has_paid_plan_exists |].
  repeat split.
  - intros ->. reflexivity.
  - intros Hnone. apply not_true_is_false. rewrite has_paid_plan_exists.
    intros (c & price & Hin & Hp & _). rewrite (Hnone c Hin) in Hp. discriminate.
  - intros Hle. apply not_true_is_false. rewrite has_paid_plan_exists.
    intros (c & price & Hin & Hp & Hpos). exact (Hle c price Hin Hp Hpos).
Qed.

(** C2 on a post with one free segment and one segment on a plan of 500. *)
Lemma is_paid_witness :
  exists paid : bool,
    En.is_paid paid_post = Return paid
    /\ (paid = true <-> has_paid_plan paid_post)
    /\ (segments_of paid_post = [] -> paid = false)
    /\ ((forall c, In c (segments_of paid_post) -> plan_price c = None) -> paid = false)
    /\ ((forall c price, In c (segments_of paid_post) -> plan_price c = Some price ->
           ~ greater_than_zero price) -> paid = false).
Proof. apply (is_paid_iff_some_plan_price_above_zero paid_post). reflexivity. Defined.

(** ** The body of a post *)






Section ScopeFilter.
Context {rt : Runtime}.


End ScopeFilter.

Lemma io_bind_return (A B : Type) (a : A) (k : A -> io B) :
  io_bind (lift (Return a)) k = k a.
Proof. cbn [lift io_bind]. destruct (k a) as [out r]. reflexivity. Qed.

Lemma io_bind_raise (A B : Type) (e : exn) (k : A -> io B) :
  io_bind (lift (Raise e)) k = ([], Raise e).
Proof. reflexivity. Qed.

Section Saving.
Context {rt : Runtime}.

Lemma utf8_encodable_app (a b : pystr) :
  utf8_encodable (a ++ b) = utf8_encodable a && utf8_encodable b.
Proof. apply forallb_app. Qed.

(** The four [f.write] calls of the fetcher: the file is left empty when the
    title cannot be encoded, with the header alone when the body is no str or
    cannot be encoded, and with the header and the body otherwise. *)
Lemma write_post_file (t : pystr) (post_id : Z) (v : pyval) :
  write_all []
    [VStr (En.title_label ++ t ++ [10%N]);
     VStr (u "URL: https://fantia.jp/posts/" ++ str_of_int post_id ++ [10%N]);
     VStr (repeat 61%N 40 ++ [10; 10]%N);
     v]
  = if utf8_encodable t then
      match v with
      | VStr body =>
          if utf8_encodable body
          then (En.file_header t post_id ++ body, Return tt)
          else (En.file_header t post_id, Raise UnicodeEncodeError)
      | _ => (En.file_header t post_id, Raise TypeError)
      end
    else ([], Raise UnicodeEncodeError).
Proof.
  assert (Hline1 : utf8_encodable (En.title_label ++ t ++ [10%N]) = utf8_encodable t).
  { rewrite !utf8_encodable_app.
    change (utf8_encodable En.title_label) with true.
    change (utf8_encodable [10%N]) with true.
    rewrite andb_true_r. reflexivity. }
  assert (Hline2 : utf8_encodable (u "URL: https://fantia.jp/posts/"
                                   ++ str_of_int post_id ++ [10%N]) = true).
  { rewrite !utf8_encodable_app, str_of_int_encodable. reflexivity. }
  cbn [write_all file_write]. rewrite Hline1.
  destruct (utf8_encodable t); [|reflexivity].
  rewrite Hline2.
  change (utf8_encodable (repeat 61%N 40 ++ [10; 10]%N)) with true. cbv iota.
  assert (Hheader : (([] ++ En.title_label ++ t ++ [10%N])
                     ++ u "URL: https://fantia.jp/posts/" ++ str_of_int post_id ++ [10%N])
                    ++ repeat 61%N 40 ++ [10; 10]%N
                    = En.file_header t post_id).
  { unfold En.file_header. cbn [app]. rewrite <- !app_assoc. reflexivity. }
  rewrite Hheader.
  destruct v as [| | | |body| |]; try reflexivity.
  cbn [file_write]. destruct (utf8_encodable body); reflexivity.
Qed.

(** What [save_under] does, by the answers of the file system and by what
    can be written. *)
Lemma save_under_run (post_id : Z) (files : disk) (root_output_dir name t : pystr)
    (v : pyval) :
  save_under post_id files root_output_dir name t v
  = match makedirs files (creator_dir root_output_dir name) with
    | Some e => ([], Raise e)
    | None =>
        match open_for_writing files (post_file root_output_dir name t) with
        | Some e => ([MakeDirs (creator_dir root_output_dir name)], Raise e)
        | None =>
            if utf8_encodable t then
              if writable v then
                ([MakeDirs (creator_dir root_output_dir name);
                  WriteFile (post_file root_output_dir name t)
                    (En.file_header t post_id
                     ++ match v with VStr body => body | _ => [] end);
                  Print (OkSaved (post_file root_output_dir name t))], Return tt)
              else
                ([MakeDirs (creator_dir root_output_dir name);
                  WriteFile (post_file root_output_dir name t)
                    (En.file_header t post_id)], Raise (write_error v))
            else
              ([MakeDirs (creator_dir root_output_dir name);
                WriteFile (post_file root_output_dir name t) []],
               Raise UnicodeEncodeError)
        end
    end.
Proof.
  unfold save_under, make_dirs, with_open.
  destruct (makedirs files (creator_dir root_output_dir name)); [reflexivity |].
  cbn [emit io_bind app].
  destruct (open_for_writing files (post_file root_output_dir name t));
    [reflexivity |].
  rewrite write_post_file.
  destruct (utf8_encodable t); [|reflexivity].
  destruct v as [| | | |body| |]; try reflexivity.
  cbn [writable write_error]. destruct (utf8_encodable body); reflexivity.
Qed.

(** [save_post] raises before it touches the file system, or it is
    [save_under] for the name of the creator. *)
Lemma save_post_under (post_id : Z) (files : disk) (root_output_dir : pystr)
    (post title v : pyval) :
  (exists e, En.save_post post_id files root_output_dir post title v = ([], Raise e))
  \/ (exists name,
        (exists e, En.save_post post_id files root_output_dir post title v
                   = match makedirs files (creator_dir root_output_dir name) with
                     | Some e' => ([], Raise e')
                     | None => ([MakeDirs (creator_dir root_output_dir name)], Raise e)
                     end)
        \/ (exists t, title = VStr t
                      /\ En.save_post post_id files root_output_dir post title v
                         = save_under post_id files root_output_dir name t v)).
Proof.
  unfold En.save_post.
  destruct (py_get post (u "fanclub") (VDict [])) as [fanclub|e];
    [rewrite io_bind_return | left; exists e; reflexivity].
  cbn [bind].
  destruct (py_get fanclub (u "id") VNone) as [fanclub_id|e];
    [rewrite io_bind_return | left; exists e; reflexivity].
  destruct (py_get fanclub (u "fanclub_name_with_creator_name")
              (VStr (u "fanclub_" ++ py_format fanclub_id))) as [name|e];
    [rewrite io_bind_return | left; exists e; reflexivity].
  destruct name as [| | | |name| |]; cbn [En.call_sanitize_filename];
    try (left; exists TypeError; reflexivity).
  rewrite io_bind_return.
  right. exists name. fold (creator_dir root_output_dir name).
  destruct title as [| | | |t| |]; cbn [En.call_sanitize_filename];
    try (left; exists TypeError; unfold make_dirs;
         destruct (makedirs files _); reflexivity).
  right. exists t. split; [reflexivity |].
  rewrite io_bind_return. reflexivity.
Qed.


End Saving.



(** ** The scope filter *)



(** ** The two scripts *)

(** C8, with the title label among the differences.  The two scripts collect the same identifiers, classify
    a post alike, take the same scope decision and extract the same body.
    Each fetcher is the one fetcher of the specification at its own two
    constants: the placeholder of [sanitize_filename], and the label that
    opens the first line of a written file ([Title: ] in the English script,
    its katakana rendering in the Japanese one). *)
Theorem scripts_agree_up_to_placeholder_and_title_label :
  forall rt : Runtime,
    (forall responses fanclub_url delay,
        En.get_all_post_ids responses fanclub_url delay
        = Ja.get_all_post_ids responses fanclub_url delay)
    /\ (forall post, En.is_paid post = Ja.is_paid post)
    /\ (forall scope paid title,
          En.scope_filter scope paid title = Ja.scope_filter scope paid title)
    /\ (forall post, En.extract_body post = Ja.extract_body post)
    /\ (forall filename,
          En.sanitize_filename filename
          = Localized.sanitize_filename [45%N] filename
          /\ Ja.sanitize_filename filename
             = Localized.sanitize_filename [65293%N] filename)
    /\ (forall post_id api files root_output_dir scope,
          En.scrape_and_save_post_api post_id api files root_output_dir scope
          = Localized.scrape_and_save_post_api [45%N] (u "Title: ")
              post_id api files root_output_dir scope
          /\ Ja.scrape_and_save_post_api post_id api files root_output_dir scope
             = Localized.scrape_and_save_post_api [65293%N]
                 [12479; 12452; 12488; 12523; 58; 32]%N
                 post_id api files root_output_dir scope).
Proof.
  intros rt. repeat split; reflexivity.
Qed.

(** C8 without the title label fails: on a post whose title and creator name hold no
    invalid character the two scripts write to the same path, and yet the
    files differ, since the Japanese script opens the file with its own
    label.  The Japanese fetcher is not the English one with the placeholder
    exchanged. *)
Lemma scripts_differ_beyond_placeholder :
  En.sanitize_filename (u "Chapter 1") = Ja.sanitize_filename (u "Chapter 1")
  /\ En.sanitize_filename (u "fanclub_5") = Ja.sanitize_filename (u "fanclub_5")
  /\ En.scrape_and_save_post_api (rt := plain_runtime) 1
       (ApiJson (VDict [(u "post", two_comments_post)])) willing_disk (u "out") (u "all")
     <> Ja.scrape_and_save_post_api (rt := plain_runtime) 1
          (ApiJson (VDict [(u "post", two_comments_post)])) willing_disk (u "out") (u "all")
  /\ Ja.scrape_and_save_post_api (rt := plain_runtime) 1
       (ApiJson (VDict [(u "post", two_comments_post)])) willing_disk (u "out") (u "all")
     <> Localized.scrape_and_save_post_api (rt := plain_runtime) [65293%N] (u "Title: ") 1
          (ApiJson (VDict [(u "post", two_comments_post)])) willing_disk (u "out") (u "all").
Proof.
  split; [reflexivity |]. split; [reflexivity |].
  split; intros H; vm_compute in H; discriminate H.
Qed.

(** ** The orchestrator of the English script *)

Section Orchestrator.
Context {rt : Runtime}.

Lemma fetch_all_first_line (api : Z -> api_response) (files : disk)
    (root_dir scope : pystr) (delay : float) (post_id : Z) (later : list Z) :
  exists rest r,
    En.fetch_all api files root_dir scope delay (post_id :: later)
    = (Print (MsgFetching post_id) :: rest, r).
Proof.
  cbn [En.fetch_all]. unfold En.scrape_and_save_post_api.
  set (tail := match api post_id with
               | ApiRequestException => _
               | ApiJSONDecodeError => _
               | ApiOtherException e => _
               | ApiJson data => _
               end).
  cbn [io_bind lift app].
  destruct (time_sleep delay) as [[]|e].
  - destruct (En.fetch_all api files root_dir scope delay later) as [out r].
    eexists. eexists. reflexivity.
  - eexists. eexists. reflexivity.
Qed.

(** The collector branch opens with the warning of an empty collection or
    with the fetcher's first line, unless the collector raises. *)
Lemma process_listing_first_line (responses : server) (api : Z -> api_response)
    (files : disk) (root_dir scope url : pystr) (delay : float)
    (out : list effect) (r : result unit) :
  En.process_listing responses api files root_dir scope url delay = Some (out, r) ->
  out = []
  \/ out = [Print WarnNoPostIds]
  \/ exists post_id rest, out = Print (MsgFetching post_id) :: rest.
Proof.
  unfold En.process_listing.
  destruct (En.get_all_post_ids responses url delay) as [[[|post_id post_ids]|e]|];
    try discriminate.
  - intros [= <- <-]. right. left. reflexivity.
  - destruct (fetch_all_first_line api files root_dir scope delay post_id post_ids)
      as (rest & r' & ->).
    intros [= <- <-]. right. right. exists post_id, rest. reflexivity.
  - intros [= <- <-]. left. reflexivity.
Qed.

End Orchestrator.

(** C10. The loop of [main] tests the listing marker first: a target that
    contains [/fanclubs/] goes to the collector, also when it contains
    [/posts/]; a target goes to the single-post branch when it contains
    [/posts/] and not [/fanclubs/], and only then does a round open with one
    of the two lines of that branch; any other target is skipped with the
    warning of an unsupported format. *)
Theorem target_classification_tests_listing_first :
  forall (rt : Runtime) (responses : server) (api : Z -> api_response) (files : disk)
         (root_dir scope url : pystr) (delay : float),
    (contains (u "/fanclubs/") url = true ->
     En.process_url responses api files root_dir scope url delay
     = En.process_listing responses api files root_dir scope url delay)
    /\ (contains (u "/fanclubs/") url = false ->
        contains (u "/posts/") url = true ->
        En.process_url responses api files root_dir scope url delay
        = Some (En.process_single_post api files root_dir scope url delay))
    /\ (contains (u "/fanclubs/") url = false ->
        contains (u "/posts/") url = false ->
        En.process_url responses api files root_dir scope url delay
        = Some ([Print WarnUnsupportedUrl], Return tt))
    /\ (forall out r,
          En.process_url responses api files root_dir scope url delay = Some (out, r) ->
          (exists post_id rest, out = Print (MsgExtractedId post_id) :: rest)
          \/ out = [Print ErrNoPostIdInUrl] ->
          contains (u "/fanclubs/") url = false
          /\ contains (u "/posts/") url = true).
Proof.
  intros rt responses api files root_dir scope url delay. unfold En.process_url.
  split; [|split; [|split]].
  - intros ->. reflexivity.
  - intros -> ->. reflexivity.
  - intros -> ->. reflexivity.
  - intros out r. destruct (contains (u "/fanclubs/") url).
    + intros Hrun Hout. apply process_listing_first_line in Hrun.
      destruct Hrun as [-> | [-> | (post_id & rest & ->)]];
        destruct Hout as [(post_id' & rest' & Hout) | Hout]; discriminate Hout.
    + destruct (contains (u "/posts/") url); [tauto |].
      intros [= <- <-] [(post_id & rest & Hout) | Hout]; discriminate Hout.
Qed.

(** C10 on a target that holds both markers. *)
Lemma target_classification_witness :
  En.process_url (rt := plain_runtime) [RequestException] (fun _ => ApiRequestException)
    willing_disk (u "out") (u "all") (u "https://fantia.jp/fanclubs/1/posts/2") 1.5%float
  = En.process_listing (rt := plain_runtime) [RequestException]
      (fun _ => ApiRequestException) willing_disk (u "out") (u "all")
      (u "https://fantia.jp/fanclubs/1/posts/2") 1.5%float
  /\ contains (u "/posts/") (u "https://fantia.jp/fanclubs/1/posts/2") = true.
Proof.
  split; [|reflexivity].
  apply (proj1 (target_classification_tests_listing_first plain_runtime
                  [RequestException] (fun _ => ApiRequestException) willing_disk
                  (u "out") (u "all") (u "https://fantia.jp/fanclubs/1/posts/2")
                  1.5%float)).
  reflexivity.
Defined.

(** ** The scenarios of the specification, end to end *)

(** Two segments with the comments A and B and no plan: the post is free,
    and under scope [all], on a file system that accepts the directory and
    the file, its file holds the header and the two comments with an empty
    line between them. *)
Lemma scenario_two_comments :
  En.is_paid two_comments_post = Return false
  /\ En.scrape_and_save_post_api (rt := plain_runtime) 1
       (ApiJson (VDict [(u "post", two_comments_post)])) willing_disk (u "out") (u "all")
     = [Print (MsgFetching 1);
        MakeDirs (u "out/fanclub_5");
        WriteFile (u "out/fanclub_5/Chapter 1.txt")
          (u "Title: Chapter 1" ++ [10%N]
           ++ u "URL: https://fantia.jp/posts/1" ++ [10%N]
           ++ u "========================================" ++ [10; 10]%N
           ++ u "A" ++ [10; 10]%N ++ u "B");
        Print (OkSaved (u "out/fanclub_5/Chapter 1.txt"))].
Proof. split; vm_compute; reflexivity. Qed.

(** A first page that shows the session as logged out: the collector returns
    the empty list, and the orchestrator fetches no post for the target. *)
Lemma scenario_logged_out :
  En.get_all_post_ids (rt := plain_runtime)
    [Html {| frontend_params := Some (Some logged_out_page_text);
             links := [Some (u "/posts/10")];
             next_page := None |}]
    (u "https://fantia.jp/fanclubs/1/posts") 1.5%float
  = Some (Return [])
  /\ En.process_url (rt := plain_runtime)
       [Html {| frontend_params := Some (Some logged_out_page_text);
                links := [Some (u "/posts/10")];
                next_page := None |}]
       (fun _ => ApiRequestException) willing_disk (u "out") (u "all")
       (u "https://fantia.jp/fanclubs/1/posts") 1.5%float
     = Some ([Print WarnNoPostIds], Return tt).
Proof. split; vm_compute; reflexivity. Qed.

(** A body that holds a lone surrogate, and a title that holds one: the
    UTF-8 codec refuses the write, the file is left with the header alone or
    empty, and the run ends with the line of an unexpected error.  A file
    system that refuses the directory leaves nothing but that line. *)
Lemma scenario_unwritable_text :
  En.scrape_and_save_post_api (rt := plain_runtime) 1
    (ApiJson (VDict [(u "post", surrogate_body_post)])) willing_disk (u "out") (u "all")
  = [Print (MsgFetching 1);
     MakeDirs (u "out/fanclub_None");
     WriteFile (u "out/fanclub_None/Chapter 4.txt") (En.file_header (u "Chapter 4") 1);
     Print (ErrUnexpected UnicodeEncodeError)]
  /\ En.scrape_and_save_post_api (rt := plain_runtime) 1
       (ApiJson (VDict [(u "post", surrogate_title_post)])) willing_disk (u "out") (u "all")
     = [Print (MsgFetching 1);
        MakeDirs (u "out/fanclub_None");
        WriteFile (u "out/fanclub_None/Chapter " ++ [56448%N] ++ u ".txt") [];
        Print (ErrUnexpected UnicodeEncodeError)]
  /\ En.scrape_and_save_post_api (rt := plain_runtime) 1
       (ApiJson (VDict [(u "post", two_comments_post)])) read_only_disk (u "out") (u "all")
     = [Print (MsgFetching 1); Print (ErrUnexpected OSError)].
Proof. repeat split; vm_compute; reflexivity. Qed.

(** * Further properties of the scripts *)

(** ** File names *)

Lemma placeholder_swap_clean (repl : codepoint) (s : pystr) :
  is_invalid_char repl = false ->
  clean (re_sub_class En.invalid_chars [repl] s) = true.
Proof.
  intros Hrepl. rewrite re_sub_class_map. unfold clean.
  rewrite forallb_forall. intros c Hc. apply in_map_iff in Hc as (c0 & <- & _).
  pose proof (invalid_chars_en c0) as Hclass.
  destruct (existsb (N.eqb c0) En.invalid_chars).
  - rewrite Hrepl. reflexivity.
  - rewrite <- Hclass. reflexivity.
Qed.

Lemma placeholder_swap_fixed (repl : codepoint) (s : pystr) :
  is_invalid_char repl = false ->
  re_sub_class En.invalid_chars [repl] s = s <-> clean s = true.
Proof.
  intros Hrepl. rewrite re_sub_class_map. unfold clean.
  induction s as [|c s IH]; cbn [map forallb].
  - tauto.
  - rewrite invalid_chars_en, andb_true_iff, <- IH. split.
    + intros [= Hc Hs]. split; [|exact Hs].
      destruct (is_invalid_char c) eqn:Hinv; [|reflexivity].
      subst c. rewrite Hrepl in Hinv. discriminate.
    + intros [Hc Hs]. apply negb_true_iff in Hc. rewrite Hc, Hs. reflexivity.
Qed.

(** X1. What [sanitize_filename] returns holds none of the nine invalid
    characters, and it returns its argument unchanged exactly when the
    argument holds none; in both scripts. *)
Theorem sanitize_filename_result_is_clean :
  forall filename : pystr,
    clean (En.sanitize_filename filename) = true
    /\ clean (Ja.sanitize_filename filename) = true
    /\ (En.sanitize_filename filename = filename <-> clean filename = true)
    /\ (Ja.sanitize_filename filename = filename <-> clean filename = true).
Proof.
  intros filename. repeat split.
  - apply placeholder_swap_clean. reflexivity.
  - apply (placeholder_swap_clean 65293%N). reflexivity.
  - apply placeholder_swap_fixed. reflexivity.
  - apply placeholder_swap_fixed. reflexivity.
  - apply (placeholder_swap_fixed 65293%N). reflexivity.
  - apply (placeholder_swap_fixed 65293%N). reflexivity.
Qed.

(** [sanitize_filename] works character by character: sanitizing two parts
    and joining them is sanitizing the whole, and the extension [.txt] is
    left as it is. *)
Lemma sanitize_filename_of_concatenation :
  forall a b : pystr,
    En.sanitize_filename (a ++ b) = En.sanitize_filename a ++ En.sanitize_filename b
    /\ Ja.sanitize_filename (a ++ b) = Ja.sanitize_filename a ++ Ja.sanitize_filename b
    /\ En.sanitize_filename a ++ u ".txt" = En.sanitize_filename (a ++ u ".txt")
    /\ Ja.sanitize_filename a ++ u ".txt" = Ja.sanitize_filename (a ++ u ".txt").
Proof.
  intros a b.
  assert (HEn : forall x y, En.sanitize_filename (x ++ y)
                            = En.sanitize_filename x ++ En.sanitize_filename y).
  { intros x y. unfold En.sanitize_filename, re_sub_class. apply flat_map_app. }
  assert (HJa : forall x y, Ja.sanitize_filename (x ++ y)
                            = Ja.sanitize_filename x ++ Ja.sanitize_filename y).
  { intros x y. unfold Ja.sanitize_filename, re_sub_class. apply flat_map_app. }
  repeat split.
  - apply HEn.
  - apply HJa.
  - rewrite HEn. reflexivity.
  - rewrite HJa. reflexivity.
Qed.

(** ** The collector *)

Section CollectorFacts.
Context {rt : Runtime}.

Lemma fold_add_id_extends (xs ids : list Z) :
  exists new, fold_left add_id xs ids = ids ++ new.
Proof.
  revert ids. induction xs as [|x xs IH]; intros ids; simpl.
  - exists []. symmetry. apply app_nil_r.
  - unfold add_id at 2. destruct (mem x ids).
    + apply IH.
    + destruct (IH (ids ++ [x])) as [new ->]. exists ([x] ++ new).
      rewrite <- app_assoc. reflexivity.
Qed.

Lemma crawl_extends (responses : server) (fanclub_url : pystr) (delay : float) :
  forall (current_url : option pystr) (post_ids l : list Z),
    En.crawl responses fanclub_url delay current_url post_ids = Some (Return l) ->
    l = [] \/ exists new, l = post_ids ++ new.
Proof.
  induction responses as [|answer later IH]; intros current_url post_ids l;
    cbn [En.crawl]; destruct (En.truthy_url current_url);
    try discriminate;
    try (intros [= <-]; right; exists []; symmetry; apply app_nil_r).
  destruct answer as [|e0|soup]; [intros [= <-]; left; reflexivity | discriminate |].
  destruct (frontend_params soup) as [[text|]|];
    [| discriminate | intros [= <-]; left; reflexivity].
  destruct (contains En.logged_out_marker text);
    [intros [= <-]; left; reflexivity |].
  destruct (links soup) as [|href hrefs] eqn:Hlinks;
    [intros [= <-]; right; exists []; symmetry; apply app_nil_r |].
  destruct (En.read_page soup fanclub_url delay post_ids)
    as [[post_ids' current_url']|e] eqn:Hpage; [|discriminate].
  apply read_page_returns in Hpage as (-> & _ & _).
  destruct (fold_add_id_extends (flat_map link_ids (links soup)) post_ids)
    as [new ->].
  intros Hrun. apply IH in Hrun as [-> | [new' ->]]; [left; reflexivity |].
  right. exists (new ++ new'). apply eq_sym, app_assoc.
Qed.

(** A list that the loop returns and that is neither empty nor the list that
    the loop started with was returned after a pause. *)
Lemma crawl_slept (responses : server) (fanclub_url : pystr) (delay : float) :
  forall (current_url : option pystr) (post_ids l : list Z),
    En.crawl responses fanclub_url delay current_url post_ids = Some (Return l) ->
    l = [] \/ l = post_ids \/ time_sleep delay = Return tt.
Proof.
  induction responses as [|answer later IH]; intros current_url post_ids l;
    cbn [En.crawl]; destruct (En.truthy_url current_url);
    try discriminate;
    try (intros [= <-]; right; left; reflexivity).
  destruct answer as [|e0|soup]; [intros [= <-]; left; reflexivity | discriminate |].
  destruct (frontend_params soup) as [[text|]|];
    [| discriminate | intros [= <-]; left; reflexivity].
  destruct (contains En.logged_out_marker text);
    [intros [= <-]; left; reflexivity |].
  destruct (links soup) as [|href hrefs];
    [intros [= <-]; right; left; reflexivity |].
  destruct (En.read_page soup fanclub_url delay post_ids)
    as [[post_ids' current_url']|e] eqn:Hpage; [|discriminate].
  apply read_page_returns in Hpage as (_ & _ & Hsleep).
  intros _. right. right. exact Hsleep.
Qed.

Lemma next_url_raises (fanclub_url : pystr) (tag : option (option pystr)) (e : exn) :
  En.next_url fanclub_url tag = Raise e ->
  e = ValueError
  /\ exists href, tag = Some (Some href)
                  /\ truthy_str href = true
                  /\ urljoin fanclub_url href = None.
Proof.
  unfold En.next_url. destruct tag as [[href|]|]; try discriminate.
  destruct (truthy_str href) eqn:Htruthy; [|discriminate].
  destruct (urljoin fanclub_url href) eqn:Hjoin; [discriminate |].
  intros [= <-]. split; [reflexivity |]. exists href. repeat split; assumption.
Qed.

(** What leaves the loop: the [TypeError] of a marker element without text,
    the [ValueError] of a next-page link that [urljoin] refuses, what
    [time.sleep] raises on the delay, and an exception of a request or of the
    parser that is no [RequestException]. *)
Lemma crawl_raises (responses : server) (fanclub_url : pystr) (delay : float) :
  forall (current_url : option pystr) (post_ids : list Z) (e : exn),
    En.crawl responses fanclub_url delay current_url post_ids = Some (Raise e) ->
    (e = TypeError
     /\ exists soup, In (Html soup) responses /\ frontend_params soup = Some None)
    \/ (e = ValueError
        /\ exists soup href,
             In (Html soup) responses
             /\ next_page soup = Some (Some href)
             /\ truthy_str href = true
             /\ urljoin fanclub_url href = None)
    \/ time_sleep delay = Raise e
    \/ In (OtherException e) responses.
Proof.
  induction responses as [|answer later IH]; intros current_url post_ids e;
    cbn [En.crawl]; destruct (En.truthy_url current_url); try discriminate.
  destruct answer as [|e0|soup];
    [discriminate | intros [= <-]; right; right; right; left; reflexivity |].
  destruct (frontend_params soup) as [[text|]|] eqn:Hmarker; [| | discriminate].
  - destruct (contains En.logged_out_marker text); [discriminate |].
    destruct (links soup) as [|href hrefs]; [discriminate |].
    rewrite read_page_fold.
    destruct (En.next_url fanclub_url (next_page soup)) as [current|e'] eqn:Hnext;
      cbn [bind].
    + destruct (time_sleep delay) as [[]|e'] eqn:Hsleep; cbn [bind].
      * intros Hrun. apply IH in Hrun.
        destruct Hrun as [(-> & soup' & Hin & Hsoup')
                         | [(-> & soup' & href' & Hin & Hsoup') | [Hrun | Hrun]]].
        -- left. split; [reflexivity |]. exists soup'.
           split; [right; exact Hin | exact Hsoup'].
        -- right. left. split; [reflexivity |]. exists soup', href'.
           split; [right; exact Hin | exact Hsoup'].
        -- right. right. left. exact Hrun.
        -- right. right. right. right. exact Hrun.
      * intros [= <-]. right. right. left. reflexivity.
    + intros [= <-]. apply next_url_raises in Hnext as (-> & href' & Htag & Hrest).
      right. left. split; [reflexivity |]. exists soup, href'.
      split; [left; reflexivity | split; [exact Htag | exact Hrest]].
  - intros [= <-]. left. split; [reflexivity |]. exists soup.
    split; [left; reflexivity | exact Hmarker].
Qed.

Lemma link_ids_origin (href : option pystr) (x : Z) :
  In x (link_ids href) ->
  exists h, href = Some h
            /\ contains (u "/posts/") h = true
            /\ En.link_post_id h = Return x.
Proof.
  unfold link_ids. destruct href as [h|]; [|contradiction].
  destruct (truthy_str h); [|contradiction]. cbn [andb].
  destruct (contains (u "/posts/") h) eqn:Hposts; [|contradiction].
  destruct (En.link_post_id h) as [post_id|e] eqn:Hid; [|contradiction].
  intros [<- | []]. exists h. repeat split; assumption.
Qed.

End CollectorFacts.

(** X2. Within the loop of [get_all_post_ids], whatever was collected up to
    a page is lost when that page cannot be fetched, has no
    [frontend-params] element, or has one whose text holds the logged-out
    marker: the function returns the empty list; in both scripts. *)
Theorem collector_failure_discards_identifiers :
  forall (rt : Runtime) (later : server) (fanclub_url url : pystr) (delay : float)
         (post_ids : list Z) (answer : response),
    truthy_str url = true ->
    answer = RequestException
    \/ (exists soup, answer = Html soup /\ frontend_params soup = None)
    \/ (exists soup text, answer = Html soup
                          /\ frontend_params soup = Some (Some text)
                          /\ contains En.logged_out_marker text = true) ->
    En.crawl (answer :: later) fanclub_url delay (Some url) post_ids = Some (Return [])
    /\ Ja.crawl (answer :: later) fanclub_url delay (Some url) post_ids = Some (Return []).
Proof.
  intros rt later fanclub_url url delay post_ids answer Hurl Hfail.
  assert (H : En.crawl (answer :: later) fanclub_url delay (Some url) post_ids
              = Some (Return [])).
  { destruct Hfail as [-> | [(soup & -> & Hm) | (soup & text & -> & Hm & Ht)]];
      cbn [En.crawl En.truthy_url]; rewrite Hurl; try rewrite Hm; try rewrite Ht;
      reflexivity. }
  split; exact H.
Qed.

(** X2 on a second request that fails after the identifiers 10 and 11. *)
Lemma collector_failure_witness :
  En.crawl (rt := plain_runtime) [RequestException]
    (u "https://fantia.jp/fanclubs/1/posts") 1.5%float
    (Some (u "https://fantia.jp/fanclubs/1/posts?page=2")) [10; 11]%Z
  = Some (Return []).
Proof.
  apply (proj1 (@collector_failure_discards_identifiers plain_runtime []
                  (u "https://fantia.jp/fanclubs/1/posts")
                  (u "https://fantia.jp/fanclubs/1/posts?page=2") 1.5%float [10; 11]%Z
                  RequestException eq_refl (or_introl eq_refl))).
Defined.

(** X3. [get_all_post_ids] raises in five cases only: [ValueError] when
    [urlparse] rejects the target, before any request; [TypeError] when a
    page that was served has a [frontend-params] element without text;
    [ValueError] when [urljoin] refuses the next-page link of a page that was
    served; whatever [time.sleep] raises on the delay; and an exception of a
    request or of the parser that is no [RequestException].  A post link that
    does not parse never makes it raise. *)
Theorem collector_raises_only_for_url_marker_link_or_delay :
  forall (rt : Runtime) (responses : server) (fanclub_url : pystr) (delay : float)
         (e : exn),
    En.get_all_post_ids responses fanclub_url delay = Some (Raise e) ->
    (e = ValueError /\ urlparse_path fanclub_url = None)
    \/ (e = TypeError
        /\ exists soup, In (Html soup) responses /\ frontend_params soup = Some None)
    \/ (e = ValueError
        /\ exists soup href,
             In (Html soup) responses
             /\ next_page soup = Some (Some href)
             /\ truthy_str href = true
             /\ urljoin fanclub_url href = None)
    \/ time_sleep delay = Raise e
    \/ In (OtherException e) responses.
Proof.
  intros rt responses fanclub_url delay e. unfold En.get_all_post_ids.
  destruct (urlparse_path fanclub_url) as [path|].
  - intros Hrun. right. exact (crawl_raises _ _ _ _ _ Hrun).
  - intros [= <-]. left. split; reflexivity.
Qed.

(** X3 on the pages of the scenario with a delay of minus one second: the
    fourth case. *)
Lemma collector_raises_witness :
  (ValueError = ValueError
   /\ @urlparse_path plain_runtime (u "https://fantia.jp/fanclubs/1/posts") = None)
  \/ (ValueError = TypeError
      /\ exists soup,
           In (Html soup) (scenario_pages (u "https://fantia.jp/fanclubs/1/posts?page=2"))
           /\ frontend_params soup = Some None)
  \/ (ValueError = ValueError
      /\ exists soup href,
           In (Html soup) (scenario_pages (u "https://fantia.jp/fanclubs/1/posts?page=2"))
           /\ next_page soup = Some (Some href)
           /\ truthy_str href = true
           /\ @urljoin plain_runtime (u "https://fantia.jp/fanclubs/1/posts") href = None)
  \/ @time_sleep plain_runtime (-1)%float = Raise ValueError
  \/ In (OtherException ValueError)
        (scenario_pages (u "https://fantia.jp/fanclubs/1/posts?page=2")).
Proof.
  apply (@collector_raises_only_for_url_marker_link_or_delay plain_runtime
           (scenario_pages (u "https://fantia.jp/fanclubs/1/posts?page=2"))
           (u "https://fantia.jp/fanclubs/1/posts") (-1)%float).
  vm_compute. reflexivity.
Defined.

(** X4. A page never reorders or drops what the loop of [get_all_post_ids]
    has collected: the list that the loop returns is the list it started the
    page with, followed by new identifiers, unless the crawl fails and the
    list is empty. *)
Theorem collector_extends_or_resets :
  forall (rt : Runtime) (responses : server) (fanclub_url : pystr) (delay : float)
         (current_url : option pystr) (post_ids l : list Z),
    En.crawl responses fanclub_url delay current_url post_ids = Some (Return l) ->
    l = [] \/ exists new, l = post_ids ++ new.
Proof. intros rt. apply crawl_extends. Qed.

(** X4 on a last page that repeats 10 and brings 12. *)
Lemma collector_extends_witness :
  [10; 11; 12]%Z = [] \/ exists new, [10; 11; 12]%Z = [10; 11]%Z ++ new.
Proof.
  apply (@collector_extends_or_resets plain_runtime
           [Html {| frontend_params := Some (Some (u "{}"));
                    links := [Some (u "/posts/10"); Some (u "/posts/12")];
                    next_page := None |}]
           (u "https://fantia.jp/fanclubs/1/posts") 1.5%float
           (Some (u "https://fantia.jp/fanclubs/1/posts?page=2")) [10; 11]%Z).
  reflexivity.
Defined.

(** X5. Every identifier that [get_all_post_ids] returns was read from a
    link of a served page: the link contains [/posts/] and the identifier is
    [int()] of the part after its last slash. *)
Theorem collected_identifier_comes_from_a_post_link :
  forall (rt : Runtime) (responses : server) (fanclub_url : pystr) (delay : float)
         (l : list Z) (x : Z),
    En.get_all_post_ids responses fanclub_url delay = Some (Return l) ->
    In x l ->
    exists soup h,
      In (Html soup) responses
      /\ In (Some h) (links soup)
      /\ contains (u "/posts/") h = true
      /\ En.link_post_id h = Return x.
Proof.
  intros rt responses fanclub_url delay l x. unfold En.get_all_post_ids.
  destruct (urlparse_path fanclub_url); [|discriminate].
  intros Hrun Hx.
  destruct (crawl_first_seen _ _ _ _ (NoDup_nil Z) Hrun) as [-> | [k ->]];
    [contradiction |].
  apply (proj1 (first_seen_In _ _)) in Hx. cbn [app] in Hx.
  apply in_flat_map in Hx as (r & Hr & Hx).
  assert (Hr' : In r responses).
  { rewrite <- (firstn_skipn k responses). apply in_or_app. left. exact Hr. }
  clear Hr. rename Hr' into Hr.
  destruct r as [|e0|soup]; [contradiction | contradiction |]. cbn [response_ids] in Hx.
  apply in_flat_map in Hx as (href & Hhref & Hx).
  apply link_ids_origin in Hx as (h & -> & Hposts & Hid).
  exists soup, h. tauto.
Qed.

(** X5 on the scenario of two pages, for the identifier 11. *)
Lemma collected_identifier_witness :
  exists soup h,
    In (Html soup)
       [Html {| frontend_params := Some (Some (u "{}"));
                links := [Some (u "/posts/10"); Some (u "/posts/11")];
                next_page := None |}]
    /\ In (Some h) (links soup)
    /\ contains (u "/posts/") h = true
    /\ En.link_post_id (rt := plain_runtime) h = Return 11%Z.
Proof.
  apply (@collected_identifier_comes_from_a_post_link plain_runtime
           [Html {| frontend_params := Some (Some (u "{}"));
                    links := [Some (u "/posts/10"); Some (u "/posts/11")];
                    next_page := None |}]
           (u "https://fantia.jp/fanclubs/1/posts") 1.5%float [10; 11]%Z 11%Z).
  - reflexivity.
  - right. left. reflexivity.
Defined.

(** ** Links that hold no identifier *)

Section IntRejects.
Context {rt : Runtime}.

Lemma foreign_facts (c : codepoint) :
  foreign_to_int c = true ->
  is_space c = false /\ digit_value c = None
  /\ c <> 95%N /\ c <> 43%N /\ c <> 45%N.
Proof.
  unfold foreign_to_int. intros H.
  apply andb_true_iff in H as [H H45]. apply andb_true_iff in H as [H H43].
  apply andb_true_iff in H as [H H95]. apply andb_true_iff in H as [Hrange Hdigit].
  apply negb_true_iff in H45, H43, H95, Hdigit.
  apply N.eqb_neq in H45, H43, H95.
  assert (Hbounds : (33 <= c <= 126)%N).
  { unfold in_range in Hrange. apply andb_true_iff in Hrange as [H1 H2].
    apply N.leb_le in H1, H2. lia. }
  repeat split; try assumption.
  - unfold is_space. fold (in_range 33 126 c). rewrite Hrange.
    unfold in_range.
    replace (c <=? 13)%N with false by (symmetry; apply N.leb_gt; lia).
    replace (c =? 32)%N with false by (symmetry; apply N.eqb_neq; lia).
    rewrite andb_false_r. reflexivity.
  - unfold digit_value. rewrite Hdigit.
    replace (c <? 128)%N with true by (symmetry; apply N.ltb_lt; lia).
    reflexivity.
Qed.

Lemma lstrip_In (drop : codepoint -> bool) (c : codepoint) (s : pystr) :
  drop c = false -> In c s -> In c (lstrip drop s).
Proof.
  intros Hc. induction s as [|a s IH]; [contradiction |].
  intros Hin. cbn [lstrip]. destruct (drop a) eqn:Ha; [|exact Hin].
  destruct Hin as [-> | Hin]; [congruence | exact (IH Hin)].
Qed.

Lemma strip_In (drop : codepoint -> bool) (c : codepoint) (s : pystr) :
  drop c = false -> In c s -> In c (strip drop s).
Proof.
  intros Hc Hin. unfold strip.
  apply -> in_rev. apply lstrip_In; [exact Hc |].
  apply -> in_rev. apply lstrip_In; assumption.
Qed.

Lemma int_digits_rejects (c : codepoint) (s : pystr) :
  digit_value c = None -> c <> 95%N -> In c s ->
  forall acc after_digit, int_digits acc after_digit s = None.
Proof.
  intros Hd H95. induction s as [|a s IH]; [contradiction |].
  intros Hin acc after_digit. cbn [int_digits].
  destruct (N.eqb_spec a 95) as [-> | Ha].
  - destruct after_digit; [|reflexivity].
    apply IH. destruct Hin as [<- | Hin]; [contradiction | exact Hin].
  - destruct (digit_value a) as [d|] eqn:Hda; [|reflexivity].
    apply IH. destruct Hin as [-> | Hin]; [congruence | exact Hin].
Qed.

Lemma py_int_rejects (c : codepoint) (s : pystr) :
  foreign_to_int c = true -> In c s -> py_int s = None.
Proof.
  intros Hc Hin.
  destruct (foreign_facts _ Hc) as (Hspace & Hd & H95 & H43 & H45).
  apply (@strip_In is_space c s Hspace) in Hin.
  unfold py_int. destruct (strip is_space s) as [|a t]; [reflexivity |].
  destruct (N.eqb_spec a 45) as [-> | Ha45].
  - destruct Hin as [<- | Hin]; [contradiction |].
    unfold int_literal. rewrite (@int_digits_rejects c t Hd H95 Hin).
    destruct (over_digit_limit _); reflexivity.
  - destruct (N.eqb_spec a 43) as [-> | Ha43].
    + destruct Hin as [<- | Hin]; [contradiction |].
      unfold int_literal. rewrite (@int_digits_rejects c t Hd H95 Hin).
      destruct (over_digit_limit _); reflexivity.
    + unfold int_literal. rewrite (@int_digits_rejects c (a :: t) Hd H95 Hin).
      destruct (over_digit_limit _); reflexivity.
Qed.

End IntRejects.

(** X6. A post link is skipped without a trace when the part after its last
    slash is empty (the link ends in a slash) or holds a printable ASCII
    character other than a digit, a sign and the underscore, such as the
    question mark of a query string: the list of identifiers stays as it
    is. *)
Theorem link_with_foreign_trailing_segment_is_skipped :
  forall (rt : Runtime) (href segment : pystr) (post_ids : list Z),
    trailing_segment href segment ->
    segment = [] \/ (exists c, In c segment /\ foreign_to_int c = true) ->
    En.add_link post_ids (Some href) = Return post_ids.
Proof.
  intros rt href segment post_ids Htrail Hseg.
  assert (Hnone : py_int segment = None).
  { destruct Hseg as [-> | (c & Hin & Hc)].
    - reflexivity.
    - exact (@py_int_rejects rt c segment Hc Hin). }
  unfold En.add_link, En.link_post_id.
  rewrite (trailing_segment_last_item Htrail). cbn [bind]. rewrite Hnone.
  destruct (truthy_str href && contains (u "/posts/") href); reflexivity.
Qed.

(** X6 on the link [/posts/12?page=2]. *)
Lemma link_with_foreign_trailing_segment_witness :
  En.add_link (rt := plain_runtime) [7%Z] (Some (u "/posts/12?page=2")) = Return [7%Z].
Proof.
  apply (@link_with_foreign_trailing_segment_is_skipped plain_runtime
           (u "/posts/12?page=2") (u "12?page=2") [7%Z]).
  - split; [reflexivity | right; exists (u "/posts"); reflexivity].
  - right. exists 63%N. split; [right; right; left; reflexivity | reflexivity].
Defined.

(** ** Paths with slashes at their ends *)

Lemma startswith_app (sub rest : pystr) : startswith sub (sub ++ rest) = true.
Proof.
  induction sub as [|c sub IH]; [reflexivity |].
  cbn [app startswith]. rewrite N.eqb_refl. exact IH.
Qed.

Lemma contains_app (sub front rest : pystr) :
  contains sub (front ++ sub ++ rest) = true.
Proof.
  induction front as [|c front IH]; cbn [app].
  - destruct (sub ++ rest) eqn:E; cbn [contains];
      rewrite <- E, startswith_app; reflexivity.
  - cbn [contains]. rewrite IH. apply orb_true_r.
Qed.

Lemma lstrip_app (drop : codepoint -> bool) (a b : pystr) :
  (lstrip drop a = [] /\ lstrip drop (a ++ b) = lstrip drop b)
  \/ (exists c t, lstrip drop a = c :: t /\ drop c = false
                  /\ lstrip drop (a ++ b) = (c :: t) ++ b).
Proof.
  induction a as [|x a IH]; cbn [app lstrip].
  - left. split; reflexivity.
  - destruct (drop x) eqn:Hx; [exact IH |].
    right. exists x, a. repeat split; assumption.
Qed.

Lemma lstrip_slashes (n : nat) (s : pystr) :
  lstrip is_slash (repeat 47%N n ++ s) = lstrip is_slash s.
Proof. induction n as [|n IH]; [reflexivity | exact IH]. Qed.

Lemma rev_slashes (n : nat) : rev (repeat 47%N n) = repeat 47%N n.
Proof.
  induction n as [|n IH]; [reflexivity |].
  cbn [repeat rev]. rewrite IH. symmetry. apply repeat_cons.
Qed.

Lemma lstrip_no_slash_head (s rest : pystr) :
  s <> [] -> has_no_slash s = true -> lstrip is_slash (s ++ rest) = s ++ rest.
Proof.
  destruct s as [|c s]; [contradiction |]. intros _ H.
  unfold has_no_slash in H. cbn [forallb] in H.
  apply andb_true_iff in H as [Hc _]. apply negb_true_iff in Hc.
  cbn [app lstrip]. unfold is_slash. rewrite Hc. reflexivity.
Qed.

Lemma has_no_slash_rev (s : pystr) :
  has_no_slash s = true -> has_no_slash (rev s) = true.
Proof.
  unfold has_no_slash. rewrite !forallb_forall. intros H c Hc.
  apply H, in_rev, Hc.
Qed.

(** [path.strip('/').split('/')[-1]] on a path that ends with a segment
    followed by slashes. *)
Lemma strip_slashes_last_segment (front segment : pystr) (n : nat) :
  segment <> [] -> has_no_slash segment = true ->
  last_item (split 47%N (strip is_slash (front ++ 47%N :: segment ++ repeat 47%N n)))
  = Return segment.
Proof.
  intros Hne Hseg.
  assert (Hrev_ne : rev segment <> []).
  { intros H. apply (f_equal (@rev codepoint)) in H.
    rewrite rev_involutive in H. contradiction. }
  assert (Hback : forall mid : pystr,
             rev (lstrip is_slash (rev (mid ++ segment ++ repeat 47%N n)))
             = mid ++ segment).
  { intros mid. rewrite !rev_app_distr, rev_slashes, <- app_assoc, lstrip_slashes.
    rewrite (lstrip_no_slash_head _ Hrev_ne (has_no_slash_rev _ Hseg)).
    rewrite rev_app_distr, !rev_involutive. reflexivity. }
  unfold strip.
  destruct (lstrip_app is_slash front (47%N :: segment ++ repeat 47%N n))
    as [[_ ->] | (c & t & _ & Hc & ->)].
  - cbn [lstrip is_slash N.eqb Pos.eqb].
    rewrite (lstrip_no_slash_head _ Hne Hseg).
    pose proof (Hback []) as Hback0. cbn [app] in Hback0. rewrite Hback0.
    unfold has_no_slash in Hseg. rewrite (split_no_sep _ _ Hseg). reflexivity.
  - change ((c :: t) ++ 47%N :: segment ++ repeat 47%N n)
      with ((c :: t) ++ [47%N] ++ segment ++ repeat 47%N n).
    rewrite app_assoc, Hback, <- app_assoc.
    apply trailing_segment_last_item. split; [exact Hseg |].
    right. exists (c :: t). reflexivity.
Qed.

(** ** Single posts as targets *)

Section SinglePost.
Context {rt : Runtime}.

(** The single-post branch on a path that ends in a segment and slashes:
    the error line when [int()] rejects the segment; otherwise the line of
    the identifier, the fetcher and the pause, whose [ValueError] the handler
    of the branch takes for one of its own. *)
Lemma process_single_post_segment (api : Z -> api_response) (files : disk)
    (root_dir scope url front segment : pystr) (n : nat) (delay : float) :
  urlparse_path url = Some (front ++ 47%N :: segment ++ repeat 47%N n) ->
  segment <> [] -> has_no_slash segment = true ->
  En.process_single_post api files root_dir scope url delay
  = match py_int segment with
    | Some post_id =>
        En.except_value_or_index
          (Print (MsgExtractedId post_id)
           :: En.scrape_and_save_post_api post_id (api post_id) files root_dir scope,
           time_sleep delay)
    | None => ([Print ErrNoPostIdInUrl], Return tt)
    end.
Proof.
  intros Hpath Hne Hseg. unfold En.process_single_post, En.path_post_id.
  rewrite Hpath, io_bind_return.
  rewrite (strip_slashes_last_segment front n Hne Hseg). cbn [bind].
  destruct (py_int segment) as [post_id|]; [|reflexivity].
  rewrite io_bind_return. cbn [emit lift io_bind app].
  rewrite app_nil_r. reflexivity.
Qed.

End SinglePost.

(** X7. The single-post branch of [main] reads the identifier from the last
    segment of the path and does not mind slashes after it: a path that ends
    in ASCII digits, no more than the limit of [int()], followed by any
    number of slashes, is fetched under the decimal value of the digits.  The
    pause follows the fetch inside the [try] block: when [time.sleep] returns
    the round is over, and when it raises [ValueError] the branch prints its
    error line after the lines of the fetch.  When the digits are more than
    the limit, or the last segment holds a character that no number holds,
    the branch prints its error and fetches nothing. *)
Theorem single_post_target_reads_last_path_segment :
  forall (rt : Runtime) (api : Z -> api_response) (files : disk)
         (root_dir scope url front segment : pystr) (n : nat) (delay : float),
    urlparse_path url = Some (front ++ 47%N :: segment ++ repeat 47%N n) ->
    segment <> [] ->
    has_no_slash segment = true ->
    (forallb is_ascii_digit segment = true ->
     within_digit_limit segment = true ->
     En.process_single_post api files root_dir scope url delay
     = En.except_value_or_index
         (Print (MsgExtractedId (decimal_value segment))
          :: En.scrape_and_save_post_api (decimal_value segment)
               (api (decimal_value segment)) files root_dir scope,
          time_sleep delay)
     /\ (time_sleep delay = Return tt ->
         En.process_single_post api files root_dir scope url delay
         = (Print (MsgExtractedId (decimal_value segment))
            :: En.scrape_and_save_post_api (decimal_value segment)
                 (api (decimal_value segment)) files root_dir scope,
            Return tt))
     /\ (time_sleep delay = Raise ValueError ->
         En.process_single_post api files root_dir scope url delay
         = ((Print (MsgExtractedId (decimal_value segment))
             :: En.scrape_and_save_post_api (decimal_value segment)
                  (api (decimal_value segment)) files root_dir scope)
            ++ [Print ErrNoPostIdInUrl],
            Return tt)))
    /\ (forallb is_ascii_digit segment = true ->
        within_digit_limit segment = false ->
        En.process_single_post api files root_dir scope url delay
        = ([Print ErrNoPostIdInUrl], Return tt))
    /\ ((exists c, In c segment /\ foreign_to_int c = true) ->
        En.process_single_post api files root_dir scope url delay
        = ([Print ErrNoPostIdInUrl], Return tt)).
Proof.
  intros rt api files root_dir scope url front segment n delay Hpath Hne Hseg.
  rewrite (@process_single_post_segment rt api files root_dir scope url front segment n
             delay Hpath Hne Hseg).
  split; [|split].
  - intros Hdigits Hlimit.
    rewrite (py_int_of_ascii_digits Hne Hdigits), Hlimit.
    split; [reflexivity |]. split; intros ->; reflexivity.
  - intros Hdigits Hlimit.
    rewrite (py_int_of_ascii_digits Hne Hdigits), Hlimit. reflexivity.
  - intros (c & Hin & Hc). rewrite (@py_int_rejects rt c segment Hc Hin).
    reflexivity.
Qed.

(** X7 on the path [/posts/2024//], with a delay of a second and a half and
    with a delay of minus one second. *)
Lemma single_post_target_witness :
  En.process_single_post (rt := plain_runtime) (fun _ => ApiRequestException)
    willing_disk (u "out") (u "all") (u "/posts/2024//") 1.5%float
  = ([Print (MsgExtractedId 2024); Print (MsgFetching 2024); Print ErrRequestFailed],
     Return tt)
  /\ En.process_single_post (rt := plain_runtime) (fun _ => ApiRequestException)
       willing_disk (u "out") (u "all") (u "/posts/2024//") (-1)%float
     = ([Print (MsgExtractedId 2024); Print (MsgFetching 2024); Print ErrRequestFailed;
         Print ErrNoPostIdInUrl],
        Return tt).
Proof.
  split.
  - apply (proj1 (proj2 (proj1 (@single_post_target_reads_last_path_segment plain_runtime
                    (fun _ => ApiRequestException) willing_disk (u "out") (u "all")
                    (u "/posts/2024//") (u "/posts") (u "2024") 2 1.5%float
                    eq_refl ltac:(discriminate) eq_refl) eq_refl eq_refl))).
    reflexivity.
  - apply (proj2 (proj2 (proj1 (@single_post_target_reads_last_path_segment plain_runtime
                    (fun _ => ApiRequestException) willing_disk (u "out") (u "all")
                    (u "/posts/2024//") (u "/posts") (u "2024") 2 (-1)%float
                    eq_refl ltac:(discriminate) eq_refl) eq_refl eq_refl))).
    reflexivity.
Defined.

(** X8. The text of an identifier is read back as the identifier, as long
    as the text is within the limit of the interpreter on the digits of an
    int.  Within the limit, [str(post_id)] is the decimal text, a link that
    ends in [/posts/] and that text makes the collector add [post_id], and a
    target whose path is [/posts/] and that text, such as the URL that the
    fetcher writes into the header of a file, makes the single-post branch
    of [main] fetch [post_id].  Beyond the limit [str(post_id)] raises, the
    link is passed over and the target gets the error line of the branch.
    An identifier that [int()] has read is within the limit, the table of the
    interpreter giving every decimal digit a value from 0 to 9: [str()]
    accepts every identifier that [main] passes to the fetcher. *)
Theorem identifier_text_is_read_back :
  forall (rt : Runtime) (post_id : Z),
    (within_digit_limit (str_of_int (Z.abs post_id)) = true ->
     py_str post_id = Some (str_of_int post_id)
     /\ (forall (front : pystr) (post_ids : list Z),
           En.add_link post_ids (Some (front ++ u "/posts/" ++ str_of_int post_id))
           = Return (add_id post_ids post_id))
     /\ (forall (api : Z -> api_response) (files : disk) (root_dir scope url : pystr)
                (delay : float),
           urlparse_path url = Some (u "/posts/" ++ str_of_int post_id) ->
           En.process_single_post api files root_dir scope url delay
           = En.except_value_or_index
               (Print (MsgExtractedId post_id)
                :: En.scrape_and_save_post_api post_id (api post_id) files root_dir scope,
                time_sleep delay)))
    /\ (within_digit_limit (str_of_int (Z.abs post_id)) = false ->
        py_str post_id = None
        /\ (forall (front : pystr) (post_ids : list Z),
              En.add_link post_ids (Some (front ++ u "/posts/" ++ str_of_int post_id))
              = Return post_ids)
        /\ (forall (api : Z -> api_response) (files : disk) (root_dir scope url : pystr)
                   (delay : float),
              urlparse_path url = Some (u "/posts/" ++ str_of_int post_id) ->
              En.process_single_post api files root_dir scope url delay
              = ([Print ErrNoPostIdInUrl], Return tt)))
    /\ ((forall c d, unicode_decimal c = Some d -> (0 <= d <= 9)%Z) ->
        forall s : pystr,
          py_int s = Some post_id -> py_str post_id = Some (str_of_int post_id)).
Proof.
  intros rt post_id.
  assert (Htrail : forall front,
             trailing_segment (front ++ u "/posts/" ++ str_of_int post_id)
               (str_of_int post_id)).
  { intros front. split; [apply str_of_int_no_slash |]. right.
    exists (front ++ u "/posts"). rewrite <- app_assoc. reflexivity. }
  assert (Hlink : forall front post_ids,
             En.add_link post_ids (Some (front ++ u "/posts/" ++ str_of_int post_id))
             = match py_int (str_of_int post_id) with
               | Some x => Return (add_id post_ids x)
               | None => Return post_ids
               end).
  { intros front post_ids. unfold En.add_link, En.link_post_id.
    rewrite (trailing_segment_last_item (Htrail front)). cbn [bind].
    rewrite contains_app.
    destruct (front ++ u "/posts/" ++ str_of_int post_id) eqn:E;
      [destruct front; discriminate E |].
    cbn [truthy_str andb].
    destruct (py_int (str_of_int post_id)) as [x|]; [|reflexivity].
    unfold add_id, mem. destruct (existsb (Z.eqb x) post_ids); reflexivity. }
  assert (Htarget : forall api files root_dir scope url delay,
             urlparse_path url = Some (u "/posts/" ++ str_of_int post_id) ->
             En.process_single_post api files root_dir scope url delay
             = match py_int (str_of_int post_id) with
               | Some x =>
                   En.except_value_or_index
                     (Print (MsgExtractedId x)
                      :: En.scrape_and_save_post_api x (api x) files root_dir scope,
                      time_sleep delay)
               | None => ([Print ErrNoPostIdInUrl], Return tt)
               end).
  { intros api files root_dir scope url delay Hpath.
    apply (@process_single_post_segment rt api files root_dir scope url
             (u "/posts") (str_of_int post_id) 0).
    - rewrite Hpath. cbn [repeat]. rewrite app_nil_r. reflexivity.
    - apply str_of_int_nonempty.
    - apply str_of_int_no_slash. }
  pose proof (py_int_str_of_int post_id) as Hint.
  pose proof (py_str_within_limit post_id) as Hstr.
  split; [|split];
    [| | intros Hrange s; exact (@py_int_within_str_limit rt Hrange s post_id)];
    intros Hlimit; rewrite Hlimit in Hint, Hstr;
    (split; [exact Hstr |]); split.
  - intros front post_ids. rewrite Hlink, Hint. reflexivity.
  - intros api files root_dir scope url delay Hpath.
    rewrite (Htarget api files root_dir scope url delay Hpath), Hint. reflexivity.
  - intros front post_ids. rewrite Hlink, Hint. reflexivity.
  - intros api files root_dir scope url delay Hpath.
    rewrite (Htarget api files root_dir scope url delay Hpath), Hint. reflexivity.
Qed.

(** X8 on the identifier 2024 and the target [https://fantia.jp/posts/2024],
    whose path the runtime of the examples takes to be the whole target. *)
Lemma identifier_text_witness :
  En.add_link (rt := plain_runtime) [7%Z] (Some (u "https://fantia.jp" ++ u "/posts/" ++ str_of_int 2024))
  = Return [7%Z; 2024%Z]
  /\ En.process_single_post (rt := plain_runtime) (fun _ => ApiRequestException)
       willing_disk (u "out") (u "all") (u "/posts/2024") 1.5%float
     = ([Print (MsgExtractedId 2024); Print (MsgFetching 2024); Print ErrRequestFailed],
        Return tt).
Proof.
  destruct (proj1 (identifier_text_is_read_back plain_runtime 2024) eq_refl)
    as (_ & Hlink & Htarget).
  split.
  - apply Hlink.
  - apply (Htarget (fun _ => ApiRequestException) willing_disk (u "out") (u "all")
             (u "/posts/2024") 1.5%float).
    reflexivity.
Defined.

(** ** The shape of a run of the fetcher *)

Lemma content_parts_truthy (segments : list pyval) :
  forall parts, En.content_parts segments = Return parts ->
                Forall (fun v => truthy v = true) parts.
Proof.
  induction segments as [|c segments IH]; cbn [En.content_parts]; intros parts.
  - intros [= <-]. constructor.
  - destruct (py_get c (u "comment") VNone) as [comment|e]; [|discriminate].
    cbn [bind]. destruct (truthy comment) eqn:Hc; [|apply IH].
    destruct (En.content_parts segments) as [rest|e]; [|discriminate].
    cbn [bind]. intros [= <-]. constructor; [exact Hc | apply IH; reflexivity].
Qed.

Lemma all_str_inv (parts : list pyval) :
  forall strs, all_str parts = Return strs -> parts = map VStr strs.
Proof.
  induction parts as [|v parts IH]; cbn [all_str]; intros strs.
  - intros [= <-]. reflexivity.
  - destruct v; try discriminate.
    destruct (all_str parts) as [rest|e]; [|discriminate].
    cbn [bind]. intros [= <-]. cbn [map]. rewrite (IH rest eq_refl). reflexivity.
Qed.

Lemma join_nonempty (sep s : pystr) (rest : list pystr) :
  s <> [] -> join sep (s :: rest) <> [].
Proof.
  intros Hs. cbn [join]. destruct rest; [exact Hs |].
  destruct s; [contradiction | discriminate].
Qed.

(** A body that is extracted is never empty: a str with characters, or a
    value of another type that Python takes as true. *)
Lemma extract_body_truthy (post : pyval) (v : pyval) :
  En.extract_body post = Return (Some v) -> truthy v = true.
Proof.
  assert (Htail : forall w : option pyval,
             w = None ->
             (full_content <-
                match w with
                | Some _ => Return w
                | None =>
                    comment <- py_get post (u "comment") VNone ;;
                    Return (if truthy comment then Some comment else None)
                end ;;
              match full_content with
              | Some _ => Return full_content
              | None =>
                  blog_comment <- py_get post (u "blog_comment") VNone ;;
                  Return (if truthy blog_comment then Some blog_comment else None)
              end) = Return (Some v) ->
             truthy v = true).
  { intros w ->.
    destruct (py_get post (u "comment") VNone) as [c|e]; [|discriminate].
    cbn [bind]. destruct (truthy c) eqn:Hc; cbn [bind].
    - intros [= <-]. exact Hc.
    - destruct (py_get post (u "blog_comment") VNone) as [b|e]; [|discriminate].
      cbn [bind]. destruct (truthy b) eqn:Hb; intros [= <-]. exact Hb. }
  unfold En.extract_body.
  destruct (py_get post (u "post_contents") VNone) as [contents|e]; [|discriminate].
  cbn [bind].
  destruct (truthy contents); [|cbn [bind]; exact (Htail None eq_refl)].
  destruct (py_iter contents) as [segments|e]; [|discriminate]. cbn [bind].
  destruct (En.content_parts segments) as [parts|e] eqn:Hparts; [|discriminate].
  cbn [bind]. destruct parts as [|p parts]; [cbn [bind]; exact (Htail None eq_refl) |].
  destruct (all_str (p :: parts)) as [strs|e] eqn:Hstrs; [|discriminate].
  cbn [bind]. intros [= <-].
  apply all_str_inv in Hstrs. apply content_parts_truthy in Hparts.
  destruct strs as [|s strs]; [discriminate Hstrs |].
  injection Hstrs as -> _. inversion Hparts as [|? ? Hs _]; subst.
  cbn [truthy]. destruct (join [10; 10]%N (s :: strs)) eqn:Hj; [|reflexivity].
  exfalso. revert Hj. apply join_nonempty. destruct s; [discriminate Hs | discriminate].
Qed.

Section FetcherShape.
Context {rt : Runtime}.

Ltac run_io :=
  cbn [lift io_bind bind emit catch_all app En.call_sanitize_filename].

Lemma save_post_shape (post_id : Z) (files : disk) (root_output_dir : pystr)
    (post title body : pyval) :
  truthy body = true ->
  fetch_tail post_id root_output_dir
    (catch_all (En.save_post post_id files root_output_dir post title body)).
Proof.
  intros Hbody.
  destruct (save_post_under post_id files root_output_dir post title body)
    as [[e ->] | (name & [[e ->] | (t & -> & ->)])].
  - constructor.
  - destruct (makedirs files _); constructor.
  - rewrite save_under_run.
    destruct (makedirs files _); [constructor |].
    destruct (open_for_writing files _); [apply tail_dir_only |].
    destruct (utf8_encodable t) eqn:Ht; [|apply tail_empty_file; exact Ht].
    destruct (writable body) eqn:Hw; [|apply tail_header_only; exact Ht].
    destruct body as [| | | |b| |]; try discriminate Hw.
    apply tail_saved; [|exact Ht | exact Hw].
    destruct b; [discriminate Hbody | discriminate].
Qed.

(** Every run of the fetcher on a decoded document is one of nine shapes. *)
Lemma process_post_shape (post_id : Z) (data : pyval) (files : disk)
    (root_output_dir scope : pystr) :
  fetch_tail post_id root_output_dir
    (catch_all (En.process_post post_id data files root_output_dir scope)).
Proof.
  unfold En.process_post.
  destruct (py_get data (u "post") VNone) as [post|e]; run_io; [|constructor].
  destruct (truthy post); cbn [negb]; [|constructor].
  destruct (py_get post (u "title") (VStr (u "No Title " ++ str_of_int post_id)))
    as [title|e]; run_io; [|constructor].
  destruct (En.is_paid post) as [paid|e]; run_io; [|constructor].
  unfold En.scope_filter.
  destruct (str_eqb scope (u "paid") && negb paid); [constructor |].
  destruct (str_eqb scope (u "free") && paid); [constructor |].
  unfold En.extract_and_save.
  destruct (En.extract_body post) as [[body|]|e] eqn:Hbody; run_io;
    [| constructor | constructor].
  pose proof (save_post_shape post_id files root_output_dir post title body
                (extract_body_truthy post Hbody)) as Hshape.
  destruct (En.save_post post_id files root_output_dir post title body) as [out [[]|e]];
    exact Hshape.
Qed.

End FetcherShape.

(** X9. The fetcher reports a saved file only after it has written one, and
    never with an empty body: when the line of success is printed, the run
    is exactly the fetching line, the directory, one file that holds the
    header followed by a body of at least one character, and that line. *)
Theorem fetcher_saves_only_nonempty_bodies :
  forall (rt : Runtime) (post_id : Z) (api : api_response) (files : disk)
         (root_output_dir scope path : pystr),
    In (Print (OkSaved path))
       (En.scrape_and_save_post_api post_id api files root_output_dir scope) ->
    exists name title body,
      body <> []
      /\ path = post_file root_output_dir name title
      /\ En.scrape_and_save_post_api post_id api files root_output_dir scope
         = [Print (MsgFetching post_id);
            MakeDirs (creator_dir root_output_dir name);
            WriteFile path (En.file_header title post_id ++ body);
            Print (OkSaved path)].
Proof.
  intros rt post_id api files root_output_dir scope path.
  unfold En.scrape_and_save_post_api.
  destruct api as [| |e0|data].
  - intros [H | [H | []]]; discriminate H.
  - intros [H | [H | []]]; discriminate H.
  - intros [H | [H | []]]; discriminate H.
  - pose proof (process_post_shape post_id data files root_output_dir scope) as Hshape.
    destruct Hshape as [| | | | | | | |name title body Hbody Htitle Hwritable];
      cbn [In]; intros Hin;
      repeat match goal with
             | H : _ \/ _ |- _ => destruct H as [H | H]
             | H : False |- _ => contradiction
             end;
      try discriminate.
    injection Hin as <-. exists name, title, body. repeat split. exact Hbody.
Qed.

(** X9 on the post of the scenario, saved under [out]. *)
Lemma fetcher_saves_witness :
  exists name title body,
    body <> []
    /\ u "out/fanclub_5/Chapter 1.txt" = post_file (rt := plain_runtime) (u "out") name title
    /\ En.scrape_and_save_post_api (rt := plain_runtime) 1
         (ApiJson (VDict [(u "post", two_comments_post)])) willing_disk (u "out") (u "all")
       = [Print (MsgFetching 1);
          MakeDirs (creator_dir (rt := plain_runtime) (u "out") name);
          WriteFile (u "out/fanclub_5/Chapter 1.txt") (En.file_header title 1 ++ body);
          Print (OkSaved (u "out/fanclub_5/Chapter 1.txt"))].
Proof.
  apply (@fetcher_saves_only_nonempty_bodies plain_runtime 1
           (ApiJson (VDict [(u "post", two_comments_post)])) willing_disk
           (u "out") (u "all") (u "out/fanclub_5/Chapter 1.txt")).
  vm_compute. right. right. right. left. reflexivity.
Defined.

(** X10. A run of the fetcher opens at most one file, after it has made the
    directory of the file.  The path of the file is the output root joined
    with the name of the directory and with the name of the file; the name
    of the directory and the name of the file before [.txt] hold no invalid
    character.  When the title of the post can be encoded in UTF-8, the file
    begins with the header of the post that was asked for; when it cannot,
    the file is left empty.  One line follows the file: that of success, or
    that of an unexpected error. *)
Theorem fetcher_writes_one_file_under_its_header :
  forall (rt : Runtime) (post_id : Z) (api : api_response) (files : disk)
         (root_output_dir scope path content : pystr),
    In (WriteFile path content)
       (En.scrape_and_save_post_api post_id api files root_output_dir scope) ->
    exists dir file title last,
      clean dir = true
      /\ clean file = true
      /\ path = os_path_join (os_path_join root_output_dir dir) (file ++ u ".txt")
      /\ (if utf8_encodable title
          then exists rest, content = En.file_header title post_id ++ rest
          else content = [])
      /\ (last = OkSaved path \/ exists e, last = ErrUnexpected e)
      /\ En.scrape_and_save_post_api post_id api files root_output_dir scope
         = [Print (MsgFetching post_id);
            MakeDirs (os_path_join root_output_dir dir);
            WriteFile path content;
            Print last].
Proof.
  intros rt post_id api files root_output_dir scope path content.
  unfold En.scrape_and_save_post_api.
  destruct api as [| |e0|data].
  - intros [H | [H | []]]; discriminate H.
  - intros [H | [H | []]]; discriminate H.
  - intros [H | [H | []]]; discriminate H.
  - pose proof (process_post_shape post_id data files root_output_dir scope) as Hshape.
    destruct Hshape as [| | | | | |name title Htitle|name title e Htitle
                        |name title body Hbody Htitle Hwritable];
      cbn [In]; intros Hin;
      repeat match goal with
             | H : _ \/ _ |- _ => destruct H as [H | H]
             | H : False |- _ => contradiction
             end;
      try discriminate.
    + injection Hin as <- <-.
      exists (En.sanitize_filename name), (En.sanitize_filename title), title,
        (ErrUnexpected UnicodeEncodeError).
      rewrite Htitle.
      split; [apply placeholder_swap_clean; reflexivity |].
      split; [apply placeholder_swap_clean; reflexivity |].
      split; [reflexivity |]. split; [reflexivity |].
      split; [right; eexists; reflexivity | reflexivity].
    + injection Hin as <- <-.
      exists (En.sanitize_filename name), (En.sanitize_filename title), title,
        (ErrUnexpected e).
      rewrite Htitle.
      split; [apply placeholder_swap_clean; reflexivity |].
      split; [apply placeholder_swap_clean; reflexivity |].
      split; [reflexivity |].
      split; [exists []; symmetry; apply app_nil_r |].
      split; [right; eexists; reflexivity | reflexivity].
    + injection Hin as <- <-.
      exists (En.sanitize_filename name), (En.sanitize_filename title), title,
        (OkSaved (post_file root_output_dir name title)).
      rewrite Htitle.
      split; [apply placeholder_swap_clean; reflexivity |].
      split; [apply placeholder_swap_clean; reflexivity |].
      split; [reflexivity |].
      split; [exists body; reflexivity |].
      split; [left; reflexivity | reflexivity].
Qed.

(** X10 on the post of the scenario, saved under [out]. *)
Lemma fetcher_writes_witness :
  exists dir file title last,
    clean dir = true
    /\ clean file = true
    /\ u "out/fanclub_5/Chapter 1.txt"
       = @os_path_join plain_runtime (@os_path_join plain_runtime (u "out") dir)
           (file ++ u ".txt")
    /\ (if utf8_encodable title
        then exists rest,
               En.file_header (u "Chapter 1") 1 ++ u "A" ++ [10; 10]%N ++ u "B"
               = En.file_header title 1 ++ rest
        else En.file_header (u "Chapter 1") 1 ++ u "A" ++ [10; 10]%N ++ u "B" = [])
    /\ (last = OkSaved (u "out/fanclub_5/Chapter 1.txt") \/ exists e, last = ErrUnexpected e)
    /\ En.scrape_and_save_post_api (rt := plain_runtime) 1
         (ApiJson (VDict [(u "post", two_comments_post)])) willing_disk (u "out") (u "all")
       = [Print (MsgFetching 1);
          MakeDirs (@os_path_join plain_runtime (u "out") dir);
          WriteFile (u "out/fanclub_5/Chapter 1.txt")
            (En.file_header (u "Chapter 1") 1 ++ u "A" ++ [10; 10]%N ++ u "B");
          Print last].
Proof.
  apply (@fetcher_writes_one_file_under_its_header plain_runtime 1
           (ApiJson (VDict [(u "post", two_comments_post)])) willing_disk
           (u "out") (u "all")
           (u "out/fanclub_5/Chapter 1.txt")
           (En.file_header (u "Chapter 1") 1 ++ u "A" ++ [10; 10]%N ++ u "B")).
  vm_compute. right. right. left. reflexivity.
Defined.

(** ** Listings *)

Section ListingFacts.
Context {rt : Runtime}.

Lemma fetch_tail_no_fetching (post_id : Z) (root_output_dir : pystr)
    (tail : list effect) :
  fetch_tail post_id root_output_dir tail -> fetched_ids tail = [].
Proof. intros H. destruct H; reflexivity. Qed.

Lemma fetched_ids_of_fetcher (post_id : Z) (api : api_response) (files : disk)
    (root_output_dir scope : pystr) :
  fetched_ids (En.scrape_and_save_post_api post_id api files root_output_dir scope)
  = [post_id].
Proof.
  unfold En.scrape_and_save_post_api. destruct api as [| |e0|data]; try reflexivity.
  change (fetched_ids (Print (MsgFetching post_id)
                       :: catch_all (En.process_post post_id data files
                                       root_output_dir scope)))
    with (post_id :: fetched_ids
                       (catch_all (En.process_post post_id data files
                                     root_output_dir scope))).
  rewrite (fetch_tail_no_fetching
             (process_post_shape post_id data files root_output_dir scope)).
  reflexivity.
Qed.

Lemma fetched_ids_app (a b : list effect) :
  fetched_ids (a ++ b) = fetched_ids a ++ fetched_ids b.
Proof. unfold fetched_ids. apply flat_map_app. Qed.

(** With a pause that returns, the loop over the identifiers runs to its
    end, and its fetching lines are those of the identifiers, in order. *)
Lemma fetch_all_returns (api : Z -> api_response) (files : disk) (root_dir scope : pystr)
    (delay : float) (post_ids : list Z) :
  time_sleep delay = Return tt ->
  exists out,
    En.fetch_all api files root_dir scope delay post_ids = (out, Return tt)
    /\ fetched_ids out = post_ids.
Proof.
  intros Hsleep. induction post_ids as [|post_id post_ids (out & IH & Hids)].
  - exists []. split; reflexivity.
  - cbn [En.fetch_all]. rewrite Hsleep, IH. cbn [lift io_bind app].
    eexists. split; [reflexivity |].
    rewrite fetched_ids_app, fetched_ids_of_fetcher, Hids. reflexivity.
Qed.

End ListingFacts.

(** X11. On a listing whose collection returns identifiers, the orchestrator
    fetches every collected identifier exactly once and in the order of
    collection, whatever the API answers to each of them: a post that fails
    or is skipped does not stop the posts after it.  The pause between two
    posts returns, as it did in the collector. *)
Theorem listing_fetches_every_identifier_once :
  forall (rt : Runtime) (responses : server) (api : Z -> api_response) (files : disk)
         (root_dir scope url : pystr) (delay : float) (post_ids : list Z),
    En.get_all_post_ids responses url delay = Some (Return post_ids) ->
    post_ids <> [] ->
    NoDup post_ids
    /\ exists out,
         En.process_listing responses api files root_dir scope url delay
         = Some (out, Return tt)
         /\ fetched_ids out = post_ids.
Proof.
  intros rt responses api files root_dir scope url delay post_ids Hrun Hne.
  assert (Hcrawl : NoDup post_ids /\ time_sleep delay = Return tt).
  { unfold En.get_all_post_ids in Hrun.
    destruct (urlparse_path url); [|discriminate]. split.
    - destruct (crawl_first_seen _ _ _ _ (NoDup_nil Z) Hrun) as [-> | [k ->]].
      + constructor.
      + apply first_seen_NoDup.
    - destruct (crawl_slept _ _ _ _ _ Hrun) as [H | [H | H]];
        [contradiction | contradiction | exact H]. }
  destruct Hcrawl as [Hnd Hsleep]. split; [exact Hnd |].
  unfold En.process_listing. rewrite Hrun.
  destruct post_ids as [|post_id post_ids]; [contradiction |].
  destruct (@fetch_all_returns rt api files root_dir scope delay (post_id :: post_ids)
              Hsleep) as (out & -> & Hids).
  exists out. split; [reflexivity | exact Hids].
Qed.

(** X11 on the scenario of two pages, with an API that fails on every
    post. *)
Lemma listing_fetches_witness :
  NoDup [10; 11]%Z
  /\ exists out,
       En.process_listing (rt := plain_runtime)
         [Html {| frontend_params := Some (Some (u "{}"));
                  links := [Some (u "/posts/10"); Some (u "/posts/11")];
                  next_page := None |}]
         (fun _ => ApiRequestException) willing_disk (u "out") (u "all")
         (u "https://fantia.jp/fanclubs/1/posts") 1.5%float
       = Some (out, Return tt)
       /\ fetched_ids out = [10; 11]%Z.
Proof.
  apply (@listing_fetches_every_identifier_once plain_runtime
           [Html {| frontend_params := Some (Some (u "{}"));
                    links := [Some (u "/posts/10"); Some (u "/posts/11")];
                    next_page := None |}]
           (fun _ => ApiRequestException) willing_disk (u "out") (u "all")
           (u "https://fantia.jp/fanclubs/1/posts") 1.5%float [10; 11]%Z).
  - reflexivity.
  - discriminate.
Defined.

(** ** Segments that cannot be classified *)

Lemma py_any_prefix (f : pyval -> result bool) (before : list pyval) (c : pyval)
    (after : list pyval) :
  Forall (fun s => f s = Return false) before ->
  py_any f (before ++ c :: after)
  = (b <- f c ;; if b then Return true else py_any f after).
Proof.
  induction 1 as [|s before Hs _ IH]; [reflexivity |].
  cbn [app py_any]. rewrite Hs. cbn [bind]. exact IH.
Qed.

(** X12. [is_paid] reads the segments in order and stops at the first paid
    one: segments after it are not looked at, however they are shaped.  When
    a segment that comes before any paid one cannot be classified (a plan
    that is a string, a price that is null), the classification raises, and
    the fetcher prints the error and saves nothing, under every scope. *)
Theorem is_paid_stops_at_first_decisive_segment :
  forall (rt : Runtime) (d : list (pystr * pyval))
         (before : list pyval) (c : pyval) (after : list pyval),
    lookup (u "post_contents") d = Some (VList (before ++ c :: after)) ->
    Forall (fun s => En.segment_is_paid s = Return false) before ->
    (En.segment_is_paid c = Return true -> En.is_paid (VDict d) = Return true)
    /\ (forall e,
          En.segment_is_paid c = Raise e ->
          En.is_paid (VDict d) = Raise e
          /\ forall post_id data files root_output_dir scope,
               py_get data (u "post") VNone = Return (VDict d) ->
               En.scrape_and_save_post_api post_id (ApiJson data) files
                 root_output_dir scope
               = [Print (MsgFetching post_id); Print (ErrUnexpected e)]).
Proof.
  intros rt d before c after Hcontents Hbefore.
  assert (Hpaid : En.is_paid (VDict d)
                  = (b <- En.segment_is_paid c ;;
                     if b then Return true
                     else py_any En.segment_is_paid after)).
  { unfold En.is_paid, py_get. rewrite Hcontents. cbn [bind py_iter].
    apply py_any_prefix, Hbefore. }
  split.
  - intros Hc. rewrite Hpaid, Hc. reflexivity.
  - intros e Hc. rewrite Hc in Hpaid. cbn [bind] in Hpaid.
    split; [exact Hpaid |].
    intros post_id data files root_output_dir scope Hpost.
    unfold En.scrape_and_save_post_api, En.process_post.
    rewrite Hpost. cbn [lift io_bind app].
    destruct d as [|item d']; [discriminate Hcontents |].
    cbn [truthy negb]. remember (item :: d') as dict.
    assert (Htitle : exists title,
               py_get (VDict dict) (u "title")
                 (VStr (u "No Title " ++ str_of_int post_id)) = Return title).
    { unfold py_get. destruct (lookup (u "title") dict); eexists; reflexivity. }
    destruct Htitle as [title ->]. rewrite Hpaid. reflexivity.
Qed.

(** X12 on a post whose first segment has a null price. *)
Lemma is_paid_stops_witness :
  En.is_paid unclassifiable_post = Raise TypeError
  /\ En.scrape_and_save_post_api (rt := plain_runtime) 9
       (ApiJson (VDict [(u "post", unclassifiable_post)])) willing_disk (u "out") (u "all")
     = [Print (MsgFetching 9); Print (ErrUnexpected TypeError)].
Proof.
  destruct (@is_paid_stops_at_first_decisive_segment plain_runtime
              [(u "comment", VStr (u "text"));
               (u "post_contents",
                VList [VDict [(u "plan", VDict [(u "price", VNone)])];
                       VDict [(u "plan", VDict [(u "price", VInt 500)])]])]
              [] (VDict [(u "plan", VDict [(u "price", VNone)])])
              [VDict [(u "plan", VDict [(u "price", VInt 500)])]]
              eq_refl (Forall_nil _)) as [_ Hraise].
  destruct (Hraise TypeError eq_refl) as [Hpaid Hrun].
  split; [exact Hpaid |].
  exact (Hrun 9%Z (VDict [(u "post", unclassifiable_post)]) willing_disk
           (u "out") (u "all") eq_refl).
Defined.

(** ** Bodies that cannot be written, and posts without a title or a creator *)

Section SavingEdges.
Context {rt : Runtime}.





End SavingEdges.






(** ** The links file *)

Unset Implicit Arguments.

Lemma startswith_spec (sub s : pystr) :
  startswith sub s = true -> exists rest, s = sub ++ rest.
Proof.
  revert s. induction sub as [|c sub IH]; intros s.
  - intros _. exists s. reflexivity.
  - destruct s as [|a s]; [discriminate |]. cbn [startswith].
    intros H. apply andb_true_iff in H as [Hc Hs].
    apply N.eqb_eq in Hc as ->. destruct (IH s Hs) as [rest ->].
    exists rest. reflexivity.
Qed.

Lemma contains_spec (sub s : pystr) :
  contains sub s = true <-> exists front rest, s = front ++ sub ++ rest.
Proof.
  split.
  - induction s as [|a s IH]; cbn [contains]; intros H.
    + rewrite orb_false_r in H. apply startswith_spec in H as [rest ->].
      exists [], rest. reflexivity.
    + apply orb_true_iff in H as [H | H].
      * apply startswith_spec in H as [rest ->]. exists [], rest. reflexivity.
      * destruct (IH H) as (front & rest & ->). exists (a :: front), rest.
        reflexivity.
  - intros (front & rest & ->). apply contains_app.
Qed.

Section Stripping.
Variable drop : codepoint -> bool.

Lemma lstrip_suffix (s : pystr) : exists front, s = front ++ lstrip drop s.
Proof.
  induction s as [|a s [front IH]]; cbn [lstrip].
  - exists []. reflexivity.
  - destruct (drop a).
    + exists (a :: front). cbn [app]. rewrite <- IH. reflexivity.
    + exists []. reflexivity.
Qed.

Lemma lstrip_head (s : pystr) (a : codepoint) (t : pystr) :
  lstrip drop s = a :: t -> drop a = false.
Proof.
  induction s as [|x s IH]; cbn [lstrip]; [discriminate |].
  destruct (drop x) eqn:Hx; [exact IH |]. intros [= <- _]. exact Hx.
Qed.

Lemma lstrip_keeps_sub (sub : pystr) :
  sub <> [] -> (forall c, In c sub -> drop c = false) ->
  forall front rest,
    exists front', lstrip drop (front ++ sub ++ rest) = front' ++ sub ++ rest.
Proof.
  intros Hne Hsub front rest.
  destruct (lstrip_app drop front (sub ++ rest)) as [[_ ->] | (c & t & _ & _ & ->)].
  - exists []. destruct sub as [|c sub]; [contradiction |].
    cbn [app lstrip]. rewrite (Hsub c (or_introl eq_refl)). reflexivity.
  - exists (c :: t). reflexivity.
Qed.

Lemma strip_keeps_sub (sub s : pystr) :
  sub <> [] -> (forall c, In c sub -> drop c = false) ->
  contains sub s = true -> contains sub (strip drop s) = true.
Proof.
  intros Hne Hsub Hs. apply contains_spec in Hs as (front & rest & ->).
  unfold strip.
  destruct (lstrip_keeps_sub sub Hne Hsub front rest) as [front' ->].
  rewrite !rev_app_distr, <- app_assoc.
  assert (Hrev_ne : rev sub <> []).
  { intros H. apply (f_equal (@rev codepoint)) in H.
    rewrite rev_involutive in H. contradiction. }
  assert (Hrev_sub : forall c, In c (rev sub) -> drop c = false).
  { intros c Hc. apply Hsub, in_rev, Hc. }
  destruct (lstrip_keeps_sub (rev sub) Hrev_ne Hrev_sub (rev rest) (rev front'))
    as [rest' ->].
  rewrite !rev_app_distr, !rev_involutive, <- app_assoc.
  apply contains_app.
Qed.

Lemma strip_ends_kept (s : pystr) :
  (forall a t, strip drop s = a :: t -> drop a = false)
  /\ (forall b t, rev (strip drop s) = b :: t -> drop b = false).
Proof.
  unfold strip. rewrite rev_involutive.
  set (x := lstrip drop s). set (y := lstrip drop (rev x)).
  assert (Hy : forall b t, y = b :: t -> drop b = false).
  { intros b t. apply lstrip_head. }
  split; [|exact Hy].
  intros a t Hrev.
  destruct (lstrip_suffix (rev x)) as [front Hfront]. fold y in Hfront.
  apply (f_equal (@rev codepoint)) in Hfront.
  rewrite rev_involutive, rev_app_distr, Hrev in Hfront.
  cbn [app] in Hfront. exact (lstrip_head s a _ Hfront).
Qed.

End Stripping.

(** X15. Every target that [main] takes from the links file is a line of the
    file without the white space at its ends: it is not empty, it neither
    begins nor ends with white space, and it still contains [fantia.jp]. *)
Theorem loaded_targets_are_stripped_lines_with_the_domain :
  forall (rt : Runtime) (lines : list pystr) (url : pystr),
    In url (load_urls lines) ->
    (exists line, In line lines /\ url = strip str_isspace line)
    /\ url <> []
    /\ contains (u "fantia.jp") url = true
    /\ (forall a t, url = a :: t -> str_isspace a = false)
    /\ (forall b t, rev url = b :: t -> str_isspace b = false).
Proof.
  intros rt lines url. unfold load_urls. rewrite in_map_iff.
  intros (line & <- & Hline). apply filter_In in Hline as [Hin Hkeep].
  apply andb_true_iff in Hkeep as [Htruthy Hdomain].
  split; [exists line; split; [exact Hin | reflexivity] |].
  split; [intros H; rewrite H in Htruthy; discriminate Htruthy |].
  split.
  - apply strip_keeps_sub; [discriminate | | exact Hdomain].
    intros c Hc. cbn in Hc.
    repeat (destruct Hc as [<- | Hc]; [reflexivity |]). contradiction.
  - apply strip_ends_kept.
Qed.

(** X15 on a file of three lines: a target between blanks, a line without
    the domain, an empty line. *)
Lemma loaded_targets_witness :
  (exists line,
      In line [u "  https://fantia.jp/posts/1 " ++ [10%N];
               u "https://example.org/" ++ [10%N]; [10%N]]
      /\ u "https://fantia.jp/posts/1" = strip (str_isspace (rt := plain_runtime)) line)
  /\ u "https://fantia.jp/posts/1" <> []
  /\ contains (u "fantia.jp") (u "https://fantia.jp/posts/1") = true
  /\ (forall a t, u "https://fantia.jp/posts/1" = a :: t ->
                  str_isspace (rt := plain_runtime) a = false)
  /\ (forall b t, rev (u "https://fantia.jp/posts/1") = b :: t ->
                  str_isspace (rt := plain_runtime) b = false).
Proof.
  apply (@loaded_targets_are_stripped_lines_with_the_domain plain_runtime
           [u "  https://fantia.jp/posts/1 " ++ [10%N];
            u "https://example.org/" ++ [10%N]; [10%N]]
           (u "https://fantia.jp/posts/1")).
  left. reflexivity.
Defined.

(** ** The credentials *)

(** X16. The test of [main] for credentials that are not set searches the
    two values before it tests them for emptiness.  When the cookie option is
    absent from the configuration, or the token option is absent and the
    cookie holds no placeholder text, the test raises [TypeError] and the
    message for unset credentials is not reached.  On two values that are
    present it is true exactly when one of them holds the placeholder text or
    is empty, which is the case for the values of the default
    configuration. *)
Theorem credentials_test_raises_on_absent_option :
  (forall csrf_token, Settings.credentials_missing None csrf_token = Raise TypeError)
  /\ (forall cookie,
        contains (u "Please paste") cookie = false ->
        Settings.credentials_missing (Some cookie) None = Raise TypeError)
  /\ (forall cookie csrf_token,
        Settings.credentials_missing (Some cookie) (Some csrf_token)
        = Return (contains (u "Please paste") cookie
                  || contains (u "Please paste") csrf_token
                  || negb (truthy_str cookie) || negb (truthy_str csrf_token)))
  /\ Settings.credentials_missing (Some Settings.default_cookie)
       (Some Settings.default_csrf_token) = Return true.
Proof.
  split; [reflexivity |]. split; [|split].
  - intros cookie Hc. unfold Settings.credentials_missing, Settings.placeholder_in.
    cbn [bind]. rewrite Hc. reflexivity.
  - intros cookie csrf_token.
    unfold Settings.credentials_missing, Settings.placeholder_in, Settings.is_unset.
    cbn [bind].
    destruct (contains (u "Please paste") cookie); [reflexivity |].
    destruct (contains (u "Please paste") csrf_token); reflexivity.
  - vm_compute. reflexivity.
Qed.

(** X16 on a configuration with a cookie and without the token option. *)
Lemma credentials_test_witness :
  Settings.credentials_missing (Some (u "_session_id=abc")) None = Raise TypeError.
Proof.
  apply (proj1 (proj2 credentials_test_raises_on_absent_option) (u "_session_id=abc")).
  reflexivity.
Defined.
